(** * TimeAnalysis: the analysis engine of [app.py]

    A shallow embedding of [TimeAnalyzer] (src/app.py) and of the column
    check of [main], together with the fragment of pandas the engine calls.

    Numbers.  A pandas [float64] cell is modelled by [float64] below: a real
    number, one of the two infinities, or NaN (pandas' marker for a missing
    value).  Finite arithmetic is exact (no rounding) and the two signed
    zeros are identified; the special values follow IEEE 754 / numpy:
    operations on NaN give NaN, [x / 0] is an infinity or NaN and raises
    nothing, and every comparison with NaN is false.

    Effects.  Every method of [TimeAnalyzer] wraps its body in
    [try: ... except Exception], printing a message and returning a default
    block.  Exceptions are values of [exn]; a computation is a pair of the
    events it emitted ([print], [st.error], calls to the decomposition) and
    either a result or a raised exception.  The constructor works on a heap
    of DataFrame objects, because [self.df = df] aliases the caller's
    object. *)

From stdpp Require Import base gmap strings list sorting.
From Stdlib Require Import Reals Lra DecimalString.

(** ** float64 values *)

Module F64.

Inductive float64 : Type :=
  | NaN
  | PInf
  | NInf
  | Fin (x : R).

#[global] Instance Rlt_decision (x y : R) : Decision (x < y)%R := Rlt_dec x y.
#[global] Instance Rle_decision (x y : R) : Decision (x <= y)%R := Rle_dec x y.
#[global] Instance Req_decision : EqDecision R := Req_dec_T.

(** Sign of a real: [Lt] negative, [Eq] zero, [Gt] positive. *)
Definition Rsgn (x : R) : comparison :=
  if decide (x < 0)%R then Lt else if decide (0 < x)%R then Gt else Eq.

Definition sgn (a : float64) : option comparison :=
  match a with
  | NaN => None
  | PInf => Some Gt
  | NInf => Some Lt
  | Fin x => Some (Rsgn x)
  end.

(** The infinity of a given sign; a zero sign stands for an invalid
    operation (0 * inf, 0 / 0) and gives NaN. *)
Definition inf_sgn (c : comparison) : float64 :=
  match c with Lt => NInf | Eq => NaN | Gt => PInf end.

Definition sgn_mul (c d : comparison) : comparison :=
  match c, d with
  | Eq, _ | _, Eq => Eq
  | Lt, Lt | Gt, Gt => Gt
  | _, _ => Lt
  end.

Definition isnan (a : float64) : bool :=
  match a with NaN => true | _ => false end.

Definition isfinite (a : float64) : bool :=
  match a with Fin _ => true | _ => false end.

Definition fneg (a : float64) : float64 :=
  match a with
  | NaN => NaN
  | PInf => NInf
  | NInf => PInf
  | Fin x => Fin (- x)
  end.

Definition fadd (a b : float64) : float64 :=
  match a, b with
  | NaN, _ | _, NaN => NaN
  | Fin x, Fin y => Fin (x + y)
  | PInf, NInf | NInf, PInf => NaN
  | PInf, _ | _, PInf => PInf
  | NInf, _ | _, NInf => NInf
  end.

Definition fsub (a b : float64) : float64 := fadd a (fneg b).

Definition fmul (a b : float64) : float64 :=
  match a, b with
  | NaN, _ | _, NaN => NaN
  | Fin x, Fin y => Fin (x * y)
  | _, _ =>
      match sgn a, sgn b with
      | Some c, Some d => inf_sgn (sgn_mul c d)
      | _, _ => NaN
      end
  end.

(** numpy division: dividing by zero raises nothing; a non-zero number over
    zero is an infinity and [0 / 0] is NaN. *)
Definition fdiv (a b : float64) : float64 :=
  match a, b with
  | NaN, _ | _, NaN => NaN
  | Fin x, Fin y => if decide (y = 0%R) then inf_sgn (Rsgn x) else Fin (x / y)
  | Fin _, _ => Fin 0
  | _, Fin y => match Rsgn y with Lt => fneg a | _ => a end
  | _, _ => NaN
  end.

Definition fabs (a : float64) : float64 :=
  match a with
  | NaN => NaN
  | PInf | NInf => PInf
  | Fin x => Fin (Rabs x)
  end.

Definition fsqrt (a : float64) : float64 :=
  match a with
  | NaN | NInf => NaN
  | PInf => PInf
  | Fin x => if decide (x < 0)%R then NaN else Fin (sqrt x)
  end.

(** [a > b]; false as soon as one side is NaN. *)
Definition fgt (a b : float64) : bool :=
  match a, b with
  | NaN, _ | _, NaN => false
  | Fin x, Fin y => bool_decide (y < x)%R
  | PInf, PInf => false
  | PInf, _ => true
  | _, PInf => false
  | NInf, _ => false
  | Fin _, NInf => true
  end.

(** Round half to even, the rounding of [numpy.rint]. *)
Definition rint (y : R) : R :=
  let f := Int_part y in
  let r := (y - IZR f)%R in
  if decide (r < 1 / 2)%R then IZR f
  else if decide (1 / 2 < r)%R then IZR (f + 1)
  else if Z.even f then IZR f else IZR (f + 1).

(** [x.round(2)]: scale by 100, round to the nearest integer, scale back. *)
Definition fround2 (a : float64) : float64 :=
  match a with
  | Fin x => Fin (rint (x * 100) / 100)
  | _ => a
  end.

Definition of_Z (z : Z) : float64 := Fin (IZR z).
Definition of_nat (n : nat) : float64 := Fin (INR n).

(** *** Reductions that skip missing values (pandas' [skipna=True]) *)

Definition dropna (l : list float64) : list float64 :=
  filter (λ a, isnan a = false) l.

Definition count (l : list float64) : nat := length (dropna l).

Definition fsum (l : list float64) : float64 := foldl fadd (Fin 0) l.

(** [Series.sum()]: the sum of the values present; 0 for none. *)
Definition sum (l : list float64) : float64 := fsum (dropna l).

(** [Series.mean()]: NaN when no value is present. *)
Definition mean (l : list float64) : float64 :=
  match count l with
  | O => NaN
  | n => fdiv (sum l) (of_nat n)
  end.

(** Sum of squared deviations from the mean of the values present. *)
Definition ssqdm (l : list float64) : float64 :=
  let m := mean l in
  fsum (map (λ a, fmul (fsub a m) (fsub a m)) (dropna l)).

(** [Series.var()]: the sample variance ([ddof=1]); NaN with fewer than two
    values present. *)
Definition var (l : list float64) : float64 :=
  match count l with
  | O | 1 => NaN
  | n => fdiv (ssqdm l) (of_nat (n - 1))
  end.

(** [Series.std()]. *)
Definition std (l : list float64) : float64 := fsqrt (var l).

End F64.
Export F64.

(** ** Timestamps and the calendar fields read through [.dt] *)

Module Calendar.

(** A pandas [Timestamp] at day resolution (the time of day plays no part in
    the engine for the daily data the app documents). *)
Record Timestamp : Type := mkTimestamp { ts_year : Z; ts_month : Z; ts_day : Z }.

#[global] Instance Timestamp_eq_dec : EqDecision Timestamp.
Proof. solve_decision. Defined.

(** Days since 1970-01-01 in the proleptic Gregorian calendar. *)
Definition days_from_civil (t : Timestamp) : Z :=
  let y := if (ts_month t <=? 2)%Z then (ts_year t - 1)%Z else ts_year t in
  let era := (y / 400)%Z in
  let yoe := (y - era * 400)%Z in
  let mp := if (ts_month t >? 2)%Z then (ts_month t - 3)%Z else (ts_month t + 9)%Z in
  let doy := ((153 * mp + 2) / 5 + ts_day t - 1)%Z in
  let doe := (yoe * 365 + yoe / 4 - yoe / 100 + doy)%Z in
  (era * 146097 + doe - 719468)%Z.

Definition day_names : list string :=
  ["Sunday"; "Monday"; "Tuesday"; "Wednesday"; "Thursday"; "Friday"; "Saturday"].

(** [.dt.day_name()]; 1970-01-01 was a Thursday. *)
Definition day_name (t : Timestamp) : string :=
  default "" (day_names !! Z.to_nat ((days_from_civil t + 4) mod 7)).

(** [.dt.quarter] *)
Definition quarter (t : Timestamp) : Z := ((ts_month t - 1) / 3 + 1)%Z.

Definition str_Z (z : Z) : string := NilZero.string_of_int (Z.to_int z).

(** Decimal text of [z], zero-padded on the left to [width] characters. *)
Definition zero_pad (width : nat) (z : Z) : string :=
  let s := str_Z z in
  String.concat "" (replicate (width - String.length s) "0") +:+ s.

(** [.dt.strftime('%Y-%m')] *)
Definition strftime_Ym (t : Timestamp) : string :=
  zero_pad 4 (ts_year t) +:+ "-" +:+ zero_pad 2 (ts_month t).

(** [.strftime('%Y-%m-%d')] *)
Definition strftime_Ymd (t : Timestamp) : string :=
  strftime_Ym t +:+ "-" +:+ zero_pad 2 (ts_day t).

(** [str(t)] for a Timestamp at midnight. *)
Definition str_Timestamp (t : Timestamp) : string :=
  strftime_Ymd t +:+ " 00:00:00".

Definition Timestamp_leb (a b : Timestamp) : bool :=
  (days_from_civil a <=? days_from_civil b)%Z.

End Calendar.
Export Calendar.

(** ** Exceptions, events and the computation monads *)

Module Effects.

Inductive exn : Type :=
  | KeyError (key : string)
  | TypeError (msg : string)
  | ValueError (msg : string)
  | AttributeError (msg : string).

(** [str(e)]: a [KeyError] shows the repr of its key. *)
Definition str_exn (e : exn) : string :=
  match e with
  | KeyError k => "'" +:+ k +:+ "'"
  | TypeError m | ValueError m | AttributeError m => m
  end.

(** A computation that returns or raises. *)
Inductive exc (A : Type) : Type :=
  | Ok (a : A)
  | Raise (e : exn).
Arguments Ok {A} a.
Arguments Raise {A} e.

#[global] Instance exc_ret : MRet exc := λ A a, Ok a.
#[global] Instance exc_bind : MBind exc := λ A B f m,
  match m with
  | Ok a => f a
  | Raise e => Raise e
  end.

(** What a run leaves behind besides its result. *)
Inductive event : Type :=
  | Print (s : string)
  | StError (s : string)
  | StInfo (s : string)
  | Decompose (values : list float64).

Record io (A : Type) : Type := IO { events : list event; outcome : exc A }.
Arguments IO {A} events outcome.
Arguments events {A} i.
Arguments outcome {A} i.

#[global] Instance io_ret : MRet io := λ A a, IO [] (Ok a).
#[global] Instance io_bind : MBind io := λ A B f m,
  match outcome m with
  | Ok a => IO (events m ++ events (f a)) (outcome (f a))
  | Raise e => IO (events m) (Raise e)
  end.

Definition lift {A} (m : exc A) : io A := IO [] m.
Definition emit (e : event) : io unit := IO [e] (Ok tt).

(** [try: body except Exception as e: handler(e)] *)
Definition try_except {A} (body : io A) (handler : exn → io A) : io A :=
  match outcome body with
  | Ok a => body
  | Raise e => IO (events body ++ events (handler e)) (outcome (handler e))
  end.

End Effects.
Export Effects.

(** ** The fragment of pandas used by the engine *)

Module pd.

(** A column of a DataFrame, by dtype: float64 (NaN for a missing cell),
    integers and text (with [None] for a missing cell), timestamps ([None]
    for NaT). *)
Inductive column : Type :=
  | FloatCol (xs : list float64)
  | IntCol (xs : list (option Z))
  | StrCol (xs : list (option string))
  | TimeCol (xs : list (option Timestamp)).

(** A DataFrame maps column labels to columns. *)
Abbreviation DataFrame := (gmap string column).

(** A group label. *)
Inductive key : Type :=
  | KInt (z : Z)
  | KStr (s : string)
  | KTime (t : Timestamp).

#[global] Instance key_eq_dec : EqDecision key.
Proof. solve_decision. Defined.

(** The order in which [groupby] sorts its labels. *)
Class KeyOrder (K : Type) := key_leb : K → K → bool.

#[global] Instance key_order : KeyOrder key := λ a b,
  match a, b with
  | KInt x, KInt y => (x <=? y)%Z
  | KStr x, KStr y => String.leb x y
  | KTime x, KTime y => Timestamp_leb x y
  | KInt _, _ => true
  | KStr _, KTime _ => true
  | _, _ => false
  end.

#[global] Instance pair_order `{KeyOrder A, KeyOrder B, EqDecision A} : KeyOrder (A * B) :=
  λ p q, if decide (p.1 = q.1) then key_leb p.2 q.2 else key_leb p.1 q.1.

(** [str(k)] of a group label. *)
Definition str_key (k : key) : string :=
  match k with
  | KInt z => str_Z z
  | KStr s => s
  | KTime t => str_Timestamp t
  end.

(** A Series: an index of labels and the values at them, position by
    position. *)
Record Series (K : Type) : Type := mkSeries { index : list K; values : list float64 }.
Arguments mkSeries {K} index values.
Arguments index {K} s.
Arguments values {K} s.

(** [len(s)] *)
Definition len {K} (s : Series K) : Z := Z.of_nat (length (index s)).

(** [s.to_dict().items()], in index order. *)
Definition items {K} (s : Series K) : list (K * float64) := zip (index s) (values s).

(** [df[c]]: a missing label raises [KeyError]. *)
Definition getitem (df : DataFrame) (c : string) : exc column :=
  match df !! c with
  | Some col => Ok col
  | None => Raise (KeyError c)
  end.

(** The cells of a measure column as float64.  Text and timestamps are not
    numbers: the model raises [TypeError] where the column is selected
    (pandas raises at the first arithmetic on it). *)
Definition to_numeric (col : column) : exc (list float64) :=
  match col with
  | FloatCol xs => Ok xs
  | IntCol xs => Ok (map (λ o, from_option of_Z NaN o) xs)
  | StrCol _ | TimeCol _ => Raise (TypeError "unsupported operand type(s): 'str'")
  end.

(** The cells of a grouping column as labels; a missing cell is [None]. *)
Definition to_keys (col : column) : exc (list (option key)) :=
  match col with
  | IntCol xs => Ok (map (fmap KInt) xs)
  | StrCol xs => Ok (map (fmap KStr) xs)
  | TimeCol xs => Ok (map (fmap KTime) xs)
  | FloatCol _ => Raise (TypeError "float grouping labels are not modelled")
  end.

(** [df.groupby(by)[c]]: both labels must exist
    ([KeyError: 'Column not found: c']). *)
Definition measure (df : DataFrame) (c : string) : exc (list float64) :=
  match df !! c with
  | Some col => to_numeric col
  | None => Raise (KeyError ("Column not found: " +:+ c))
  end.

Definition grouping (df : DataFrame) (by_ : string) : exc (list (option key)) :=
  col ← getitem df by_; to_keys col.

(** The sorted distinct labels of a grouping column; rows whose label is
    missing belong to no group ([dropna=True]). *)
Definition group_keys {K} `{EqDecision K, KeyOrder K} (ks : list (option K)) : list K :=
  merge_sort (λ a b, key_leb a b) (remove_dups (omap (λ o, o) ks)).

(** The cells of the rows labelled [k]. *)
Definition group_rows {K V} `{EqDecision K} (ks : list (option K)) (vs : list V) (k : K) : list V :=
  (filter (λ p, p.1 = Some k) (zip ks vs)).*2.

(** [groupby(...)[c].agg()] for a reduction [agg] of each group's cells. *)
Definition groupby_agg {K} `{EqDecision K, KeyOrder K}
    (agg : list float64 → float64) (ks : list (option K)) (vs : list float64) : Series K :=
  let idx := group_keys ks in
  mkSeries idx (map (λ k, agg (group_rows ks vs k)) idx).

(** [groupby(...).size()]: the number of rows of each group. *)
Definition groupby_size {K} `{EqDecision K, KeyOrder K} (ks : list (option K)) : list (K * nat) :=
  map (λ k, (k, length (group_rows ks ks k))) (group_keys ks).

(** [s.pct_change()]: [s / s.shift(1) - 1]; the shifted series starts with
    NaN.  (Before pandas 3 interior NaN were forward-filled first; the sums
    the engine passes in have none.) *)
Definition pct_change (xs : list float64) : list float64 :=
  zip_with (λ a b, fsub (fdiv a b) (Fin 1)) xs (NaN :: xs).

(** The trailing window of at most [w] cells that ends at position [i]. *)
Definition window_at (w : nat) (xs : list float64) (i : nat) : list float64 :=
  drop (S i - w) (take (S i) xs).

(** The values a rolling window works on: an infinite cell counts as a
    missing one ([values = np.where(np.isinf(values), np.nan, values)]). *)
Definition finite_or_nan (a : float64) : float64 :=
  if isfinite a then a else NaN.

(** [s.rolling(window=w, min_periods=mp).stat()]: NaN at a position whose
    window holds fewer than [min_periods] values; [min_periods] defaults to
    the window size. *)
Definition rolling (w : Z) (min_periods : option nat)
    (stat : list float64 → float64) (xs : list float64) : exc (list float64) :=
  if (w <? 0)%Z then Raise (ValueError "window must be an integer 0 or greater")
  else
    let mp := default (Z.to_nat w) min_periods in
    if (w <? Z.of_nat mp)%Z then Raise (ValueError "min_periods must be <= window")
    else Ok (map (λ i, let win := window_at (Z.to_nat w) (map finite_or_nan xs) i in
                       if (count win <? mp)%nat then NaN else stat win)
                 (seq 0 (length xs))).

(** Stable insertion by decreasing value: after every strictly larger
    entry, before an equal one. *)
Fixpoint insert_desc {K} (x : K * float64) (l : list (K * float64)) : list (K * float64) :=
  match l with
  | [] => [x]
  | y :: ys => if fgt y.2 x.2 then y :: insert_desc x ys else x :: l
  end.

(** [s.nlargest(n)]: the [n] largest values present, earlier rows first
    among equals. *)
Definition nlargest {K} (n : nat) (s : Series K) : list (K * float64) :=
  take n (foldr insert_desc [] (filter (λ p, isnan p.2 = false) (items s))).

(** [numpy.clip(r, -1, 1)] *)
Definition fclip (a : float64) : float64 :=
  match a with
  | NaN => NaN
  | PInf => Fin 1
  | NInf => Fin (-1)
  | Fin x => Fin (Rmax (-1) (Rmin x 1))
  end.

(** Sum of the products of the deviations of two samples. *)
Definition codev (xs ys : list float64) : float64 :=
  let mx := fdiv (fsum xs) (of_nat (length xs)) in
  let my := fdiv (fsum ys) (of_nat (length ys)) in
  fsum (zip_with (λ x y, fmul (fsub x mx) (fsub y my)) xs ys).

(** [a.corr(b)], Pearson: rows where either value is missing are dropped;
    then [numpy.corrcoef]: the covariances scaled by [1 / (n - 1)], divided
    by the two standard deviations, and clipped. *)
Definition corr (a b : list float64) : float64 :=
  let valid := filter (λ p, isnan p.1 = false ∧ isnan p.2 = false) (zip a b) in
  let xs := valid.*1 in
  let ys := valid.*2 in
  if (length valid <? 1)%nat then NaN
  else
    let scale := fdiv (Fin 1) (of_Z (Z.of_nat (length valid) - 1)) in
    let cxy := fmul (codev xs ys) scale in
    let cxx := fmul (codev xs xs) scale in
    let cyy := fmul (codev ys ys) scale in
    fclip (fdiv (fdiv cxy (fsqrt cxx)) (fsqrt cyy)).

(** The first label whose value is extreme for [better] among the values
    present. *)
Fixpoint first_best {K} (better : float64 → float64 → bool)
    (best : option (K * float64)) (l : list (K * float64)) : option (K * float64) :=
  match l with
  | [] => best
  | (k, v) :: rest =>
      if isnan v then first_best better best rest
      else match best with
           | None => first_best better (Some (k, v)) rest
           | Some (_, b) =>
               if better v b then first_best better (Some (k, v)) rest
               else first_best better best rest
           end
  end.

(** [s.idxmax()] / [s.idxmin()]: raise on a series with no value present. *)
Definition idxmax {K} (s : Series K) : exc K :=
  match first_best fgt None (items s) with
  | Some (k, _) => Ok k
  | None => Raise (ValueError "attempt to get argmax of an empty sequence")
  end.

Definition idxmin {K} (s : Series K) : exc K :=
  match first_best (λ v b, fgt b v) None (items s) with
  | Some (k, _) => Ok k
  | None => Raise (ValueError "attempt to get argmin of an empty sequence")
  end.

End pd.
Export pd.

(** ** Configuration (src/config/settings.py) *)

Module Settings.

Record AnalysisSettings : Type := mkAnalysisSettings {
  min_months_for_seasonality : Z;
  moving_average_windows : list Z;
  top_peak_months : Z;
  anomaly_detection_window : Z;
  anomaly_std_threshold : float64;
  trend_significance_threshold : float64;
  correlation_strength_threshold : float64
}.

(** The defaults of the dataclass. *)
Definition default_AnalysisSettings : AnalysisSettings :=
  {| min_months_for_seasonality := 12;
     moving_average_windows := [3; 6]%Z;
     top_peak_months := 5;
     anomaly_detection_window := 7;
     anomaly_std_threshold := Fin 2;
     trend_significance_threshold := Fin (5 / 100);
     correlation_strength_threshold := Fin (7 / 10) |}.

(** Of [Config] the engine reads the [analysis] group only. *)
Record Config : Type := mkConfig { analysis : AnalysisSettings }.

Definition default_Config : Config := {| analysis := default_AnalysisSettings |}.

End Settings.
Export Settings.

(** ** The engine: class [TimeAnalyzer] and [main] (src/app.py) *)

Module Engine.

(** A Python dict with text keys, in insertion order.  The keys the engine
    inserts are the texts of distinct group labels. *)
Abbreviation dict := (list (string * float64)).

Definition SPEND : string := "Total Spend ($)".
Definition QUANTITY : string := "Quantity Purchased".
Definition LEAD_TIME : string := "Lead Time (Days)".

(** DataFrame objects live on a heap; a variable holds a reference. *)
Abbreviation loc := nat.
Abbreviation heap := (gmap nat (gmap string column)).

Record TimeAnalyzer : Type := mkTimeAnalyzer { self_df : loc; self_config : option Config }.

(** The object a reference points to. *)
Definition frame (h : heap) (l : loc) : DataFrame := default ∅ (h !! l).

(** [df[c] = col], in place. *)
Definition setitem (h : heap) (l : loc) (c : string) (col : column) : heap :=
  <[l := <[c := col]> (frame h l)]> h.

(** A computation on the heap that returns or raises; what it wrote before
    raising stays written. *)
Record heapM (A : Type) : Type := HeapM { run : heap → heap * exc A }.
Arguments HeapM {A} run.
Arguments run {A} h.

#[global] Instance heapM_ret : MRet heapM := λ A a, HeapM (λ h, (h, Ok a)).
#[global] Instance heapM_bind : MBind heapM := λ A B f m,
  HeapM (λ h, match run m h with
              | (h', Ok a) => run (f a) h'
              | (h', Raise e) => (h', Raise e)
              end).

(** [df[c] = v(df)] on the object at [l]: the right-hand side is evaluated
    first. *)
Definition assign (l : loc) (c : string) (v : DataFrame → exc column) : heapM unit :=
  HeapM (λ h, match v (frame h l) with
              | Ok col => (setitem h l c col, Ok tt)
              | Raise e => (h, Raise e)
              end).

(** The [.dt] accessor exists on datetime columns only. *)
Definition dt (col : column) : exc (list (option Timestamp)) :=
  match col with
  | TimeCol ts => Ok ts
  | _ => Raise (AttributeError "Can only use .dt accessor with datetimelike values")
  end.

Definition transaction_dates (df : DataFrame) : exc (list (option Timestamp)) :=
  col ← getitem df "transaction_date"; dt col.

(** [prepare_data]: five columns derived from [transaction_date]. *)
Definition prepare_data (self : TimeAnalyzer) : heapM unit :=
  let l := self_df self in
  assign l "year" (λ df, ts ← transaction_dates df; mret (IntCol (map (fmap ts_year) ts)));;
  assign l "month" (λ df, ts ← transaction_dates df; mret (IntCol (map (fmap ts_month) ts)));;
  assign l "quarter" (λ df, ts ← transaction_dates df; mret (IntCol (map (fmap quarter) ts)));;
  assign l "month_year" (λ df, ts ← transaction_dates df; mret (StrCol (map (fmap strftime_Ym) ts)));;
  assign l "day_of_week" (λ df, ts ← transaction_dates df; mret (StrCol (map (fmap day_name) ts))).

(** *** Result blocks *)

Record TrendMetrics : Type := mkTrendMetrics {
  direction : string;
  strength : float64;
  is_accelerating : bool;
  acceleration_rate : float64
}.

(** The block of [detect_anomalies]; [anomaly_values] is its key
    ['anomalies']. *)
Record Anomalies : Type := mkAnomalies {
  anomaly_values : dict;
  anomaly_dates : list string;
  total_anomalies : Z
}.

Record PurchasePatterns : Type := mkPurchasePatterns {
  monthly_aov : dict;
  purchase_frequency : list (string * Z);
  basket_size : dict
}.

Record Correlations : Type := mkCorrelations {
  spend_quantity : float64;
  spend_leadtime : float64;
  quantity_leadtime : float64
}.

(** The two shapes of the seasonality block: with ['has_seasonality': True]
    and the decomposition, or with ['has_seasonality': False] and a
    message. *)
Inductive Seasonality : Type :=
  | Seasonal (seasonal_strength : float64) (peak_month trough_month : key)
      (seasonal_factors : dict) (components : dict * dict * dict)
  | NotSeasonal (message : string).

Definition has_seasonality (s : Seasonality) : bool :=
  match s with Seasonal _ _ _ _ _ => true | NotSeasonal _ => false end.

Record AnalysisResult : Type := mkAnalysisResult {
  yearly_growth : dict;
  quarterly_growth : dict;
  monthly_growth : dict;
  moving_average_3m : dict;
  moving_average_6m : dict;
  peak_months : list (key * float64);
  day_of_week_stats : list (string * dict);
  raw_monthly_spend : dict;
  trend_analysis : TrendMetrics;
  anomalies : Anomalies;
  purchase_patterns : PurchasePatterns;
  correlations : Correlations;
  seasonality_metrics : Seasonality
}.

(** What [statsmodels.tsa.seasonal.seasonal_decompose] returns. *)
Record Decomposition : Type := mkDecomposition {
  seasonal : Series key;
  trend : Series key;
  resid : Series key
}.

(** *** Aggregations *)

(** [df.groupby(by)[c].sum()] and its siblings: the grouping label is looked
    up first, then the measure. *)
Definition groupby_reduce (agg : list float64 → float64)
    (df : DataFrame) (by_ c : string) : exc (Series key) :=
  ks ← grouping df by_; vs ← measure df c; mret (groupby_agg agg ks vs).

Definition groupby_sum := groupby_reduce F64.sum.
Definition groupby_mean := groupby_reduce F64.mean.
Definition groupby_count := groupby_reduce (λ l, of_nat (count l)).

(** [df.groupby(['year', 'quarter'])[c].sum()] *)
Definition groupby2_sum (df : DataFrame) (by1 by2 c : string) : exc (Series (key * key)) :=
  k1 ← grouping df by1; k2 ← grouping df by2; vs ← measure df c;
  mret (groupby_agg F64.sum
          (zip_with (λ a b, x ← a; y ← b; Some (x, y)) k1 k2) vs).

(** [{str(k): float(v) for k, v in s.to_dict().items()}] *)
Definition to_dict (s : Series key) : dict :=
  map (λ p, (str_key p.1, p.2)) (items s).

(** [s * 100] *)
Definition times100 (xs : list float64) : list float64 := map (λ a, fmul a (Fin 100)) xs.

(** [s.index.str[5:7]] *)
Definition str_5_7 (k : key) : exc (option key) :=
  match k with
  | KStr s => Ok (Some (KStr (String.substring 5 2 s)))
  | _ => Raise (AttributeError "Can only use .str accessor with string values")
  end.

(** [d.strftime('%Y-%m-%d')] *)
Definition strftime_key (k : key) : exc string :=
  match k with
  | KTime t => Ok (strftime_Ymd t)
  | _ => Raise (AttributeError "object has no attribute 'strftime'")
  end.

(** [self.config.analysis.field if self.config else default] *)
Definition setting {A} (self : TimeAnalyzer) (field : AnalysisSettings → A) (dflt : A) : A :=
  match self_config self with
  | Some c => field (analysis c)
  | None => dflt
  end.

End Engine.
Export Engine.

(** ** The methods of [TimeAnalyzer] and [main] *)

Module Methods.

(** The text of the [st.error] shown when a required column is missing. *)
Definition missing_columns_message : string :=
  "
                    Missing required columns. Please ensure your CSV contains:
                    - transaction_date
                    - Total Spend ($)
                    - Quantity Purchased
                ".

(** The text of the [st.info] shown after a failure while processing. *)
Definition processing_hint : string :=
  "
                Please ensure your CSV file:
                1. Contains the required columns
                2. Has proper date format (YYYY-MM-DD)
                3. Has numeric values for spend and quantity
            ".

Definition required_columns : list string := ["transaction_date"; SPEND; QUANTITY].

(** [col in df.columns] for every required column. *)
Definition has_required_columns (df : DataFrame) : bool :=
  forallb (λ c, bool_decide (is_Some (df !! c))) required_columns.

(** The default blocks returned by the [except] branches. *)
Definition trend_fallback : TrendMetrics :=
  {| direction := "Unknown"; strength := Fin 0;
     is_accelerating := false; acceleration_rate := Fin 0 |}.

Definition anomalies_fallback : Anomalies :=
  {| anomaly_values := []; anomaly_dates := []; total_anomalies := 0 |}.

Definition purchase_fallback : PurchasePatterns :=
  {| monthly_aov := []; purchase_frequency := []; basket_size := [] |}.

Definition correlations_fallback : Correlations :=
  {| spend_quantity := Fin 0; spend_leadtime := Fin 0; quantity_leadtime := Fin 0 |}.

(** [calculate_trend_metrics], the [try] block. *)
Definition calculate_trend_metrics_body (df : DataFrame) : exc TrendMetrics :=
  monthly_spend ← groupby_sum df "month_year" SPEND;
  let trend_changes := pct_change (values monthly_spend) in
  let trend_direction :=
    if fgt (mean trend_changes) (Fin 0) then "Upward" else "Downward" in
  let trend_strength := fmul (fabs (mean trend_changes)) (Fin 100) in
  let acceleration := pct_change trend_changes in
  let is_accelerating := fgt (mean acceleration) (Fin 0) in
  mret {| direction := trend_direction;
          strength := trend_strength;
          is_accelerating := is_accelerating;
          acceleration_rate := fmul (mean acceleration) (Fin 100) |}.

(** The boolean mask of [detect_anomalies]:
    [abs(daily_spend - rolling_mean) > (threshold * rolling_std)]. *)
Definition anomaly_mask (threshold : float64)
    (daily_spend rolling_mean rolling_std : list float64) : list bool :=
  zip_with fgt
    (map fabs (zip_with fsub daily_spend rolling_mean))
    (map (fmul threshold) rolling_std).

(** [s[mask]]: the entries at the positions where the mask holds. *)
Definition select {K} (s : Series K) (mask : list bool) : list (K * float64) :=
  (filter (λ p, p.2 = true) (zip (items s) mask)).*1.

(** [detect_anomalies], the [try] block. *)
Definition detect_anomalies_body (df : DataFrame) (self : TimeAnalyzer) : exc Anomalies :=
  daily_spend ← groupby_sum df "transaction_date" SPEND;
  let threshold := setting self anomaly_std_threshold (Fin 2) in
  let window := setting self anomaly_detection_window 7%Z in
  rolling_mean ← rolling window (Some 1) F64.mean (values daily_spend);
  rolling_std ← rolling window (Some 1) F64.std (values daily_spend);
  let found :=
    select daily_spend
      (anomaly_mask threshold (values daily_spend) rolling_mean rolling_std) in
  dates ← mapM (λ p, strftime_key p.1) found;
  mret {| anomaly_values := map (λ p, (str_key p.1, p.2)) found;
          anomaly_dates := dates;
          total_anomalies := Z.of_nat (length found) |}.

(** [analyze_purchase_patterns], the [try] block. *)
Definition analyze_purchase_patterns_body (df : DataFrame) : exc PurchasePatterns :=
  spend ← groupby_sum df "month_year" SPEND;
  sizes ← grouping df "month_year";
  let monthly_aov :=
    mkSeries (index spend)
      (map fround2
         (zip_with fdiv (values spend) (map (λ p, of_nat p.2) (groupby_size sizes)))) in
  frequency ← grouping df "month_year";
  let customer_frequency := groupby_size frequency in
  quantity ← groupby_mean df "month_year" QUANTITY;
  let basket_size := mkSeries (index quantity) (map fround2 (values quantity)) in
  mret {| monthly_aov := to_dict monthly_aov;
          purchase_frequency := map (λ p, (str_key p.1, Z.of_nat p.2)) customer_frequency;
          basket_size := to_dict basket_size |}.

(** [self.df[c]] read as numbers. *)
Definition numbers (df : DataFrame) (c : string) : exc (list float64) :=
  col ← getitem df c; to_numeric col.

(** [analyze_correlations], the [try] block: the three entries of the dict
    are evaluated in order. *)
Definition analyze_correlations_body (df : DataFrame) : exc Correlations :=
  spend ← numbers df SPEND;
  quantity ← numbers df QUANTITY;
  let spend_quantity := corr spend quantity in
  spend' ← numbers df SPEND;
  lead ← numbers df LEAD_TIME;
  let spend_leadtime := corr spend' lead in
  quantity' ← numbers df QUANTITY;
  lead' ← numbers df LEAD_TIME;
  let quantity_leadtime := corr quantity' lead' in
  mret {| spend_quantity := spend_quantity;
          spend_leadtime := spend_leadtime;
          quantity_leadtime := quantity_leadtime |}.

(** lines 103-105: the seasonal strength from the two components. *)
Definition seasonal_strength_of (seasonal residual : Series key) : float64 :=
  let total_variance := fadd (var (values residual)) (var (values seasonal)) in
  fround2 (fmul (fdiv (var (values seasonal)) total_variance) (Fin 100)).

(** The result of the Basic Analysis and Day of Week Analysis lines of
    [enhanced_time_analysis] (lines 143-171), by the names of its locals. *)
Record BasicAnalysis : Type := mkBasicAnalysis {
  yearly_spend : Series key;
  yoy_growth : list float64;
  quarterly_spend : Series (key * key);
  qoq_growth : list float64;
  monthly_spend : Series key;
  mom_growth : list float64;
  ma3 : list float64;
  ma6 : list float64;
  top_months : list (key * float64);
  dow_stats : list (string * dict)
}.

(** [dow_stats]: four aggregates by day of week, rounded to two places. *)
Definition day_of_week_table (df : DataFrame) : exc (list (string * dict)) :=
  total ← groupby_sum df "day_of_week" SPEND;
  average ← groupby_mean df "day_of_week" SPEND;
  number ← groupby_count df "day_of_week" SPEND;
  quantity ← groupby_sum df "day_of_week" QUANTITY;
  let rounded (s : Series key) := to_dict (mkSeries (index s) (map fround2 (values s))) in
  mret [("Total Spend", rounded total); ("Average Spend", rounded average);
        ("Transaction Count", rounded number); ("Total Quantity", rounded quantity)].

Definition basic_analysis (df : DataFrame) : exc BasicAnalysis :=
  yearly_spend ← groupby_sum df "year" SPEND;
  let yoy_growth := times100 (pct_change (values yearly_spend)) in
  quarterly_spend ← groupby2_sum df "year" "quarter" SPEND;
  let qoq_growth := times100 (pct_change (values quarterly_spend)) in
  monthly_spend ← groupby_sum df "month_year" SPEND;
  let mom_growth := times100 (pct_change (values monthly_spend)) in
  ma3 ← rolling 3 None F64.mean (values monthly_spend);
  ma6 ← rolling 6 None F64.mean (values monthly_spend);
  peak_spend ← groupby_sum df "month_year" SPEND;
  let peak_months := nlargest 5 peak_spend in
  dow_stats ← day_of_week_table df;
  mret {| yearly_spend := yearly_spend; yoy_growth := yoy_growth;
          quarterly_spend := quarterly_spend; qoq_growth := qoq_growth;
          monthly_spend := monthly_spend; mom_growth := mom_growth;
          ma3 := ma3; ma6 := ma6;
          top_months := peak_months; dow_stats := dow_stats |}.

(** The dict returned by [enhanced_time_analysis] (lines 180-194). *)
Definition analysis_result (b : BasicAnalysis) (trend_metrics : TrendMetrics)
    (anomalies : Anomalies) (purchase_patterns : PurchasePatterns)
    (correlations : Correlations) (seasonality : Seasonality) : AnalysisResult :=
  {| yearly_growth := to_dict (mkSeries (index (yearly_spend b)) (yoy_growth b));
     quarterly_growth :=
       zip (map (λ k, str_key k.1 +:+ "-Q" +:+ str_key k.2) (index (quarterly_spend b)))
           (qoq_growth b);
     monthly_growth := to_dict (mkSeries (index (monthly_spend b)) (mom_growth b));
     moving_average_3m := to_dict (mkSeries (index (monthly_spend b)) (ma3 b));
     moving_average_6m := to_dict (mkSeries (index (monthly_spend b)) (ma6 b));
     peak_months := top_months b;
     day_of_week_stats := dow_stats b;
     raw_monthly_spend := to_dict (monthly_spend b);
     trend_analysis := trend_metrics;
     anomalies := anomalies;
     purchase_patterns := purchase_patterns;
     correlations := correlations;
     seasonality_metrics := seasonality |}.

Section WithLibraries.

(** [pandas.to_datetime] on a column: the parsed timestamps, or an exception
    for a cell that is not a date. *)
Variable to_datetime : column → exc (list (option Timestamp)).

(** [statsmodels]' [seasonal_decompose(series, period=12)]. *)
Variable seasonal_decompose : Series key → exc Decomposition.

(** [TimeAnalyzer.__init__]: [self.df = df] keeps the caller's reference;
    the date column is parsed and replaced in that object, then
    [prepare_data] adds its columns to it. *)
Definition TimeAnalyzer_init (df : loc) (config : option Config) : heapM TimeAnalyzer :=
  let self := mkTimeAnalyzer df config in
  assign (self_df self) "transaction_date"
    (λ d, col ← getitem d "transaction_date"; ts ← to_datetime col; mret (TimeCol ts));;
  prepare_data self;;
  mret self.

(** [analyze_seasonality], the [try] block; the call of the decomposition is
    recorded as an event. *)
Definition analyze_seasonality_body (df : DataFrame) (self : TimeAnalyzer) : io Seasonality :=
  monthly_spend ← lift (groupby_sum df "month_year" SPEND);
  let min_months := setting self min_months_for_seasonality 12%Z in
  if (min_months <=? len monthly_spend)%Z then
    emit (Decompose (values monthly_spend));;
    decomposition ← lift (seasonal_decompose monthly_spend);
    let seasonal := seasonal decomposition in
    let trend := trend decomposition in
    let residual := resid decomposition in
    let seasonal_strength := seasonal_strength_of seasonal residual in
    months ← lift (mapM str_5_7 (index seasonal));
    let seasonal_factors := groupby_agg F64.mean months (values seasonal) in
    peak_month ← lift (idxmax seasonal_factors);
    trough_month ← lift (idxmin seasonal_factors);
    mret (Seasonal seasonal_strength peak_month trough_month
            (to_dict seasonal_factors)
            (to_dict seasonal, to_dict trend, to_dict residual))
  else
    mret (NotSeasonal
            "Insufficient data for seasonal analysis (need at least {min_months} months)").

Definition analyze_seasonality (h : heap) (self : TimeAnalyzer) : io Seasonality :=
  try_except (analyze_seasonality_body (frame h (self_df self)) self)
    (λ e, emit (Print ("Error in seasonal analysis: " +:+ str_exn e));;
          mret (NotSeasonal ("Error in seasonal analysis: " +:+ str_exn e))).

Definition calculate_trend_metrics (h : heap) (self : TimeAnalyzer) : io TrendMetrics :=
  try_except (lift (calculate_trend_metrics_body (frame h (self_df self))))
    (λ e, emit (Print ("Error in trend metrics: " +:+ str_exn e));;
          mret trend_fallback).

Definition detect_anomalies (h : heap) (self : TimeAnalyzer) : io Anomalies :=
  try_except (lift (detect_anomalies_body (frame h (self_df self)) self))
    (λ e, emit (Print ("Error in anomaly detection: " +:+ str_exn e));;
          mret anomalies_fallback).

Definition analyze_purchase_patterns (h : heap) (self : TimeAnalyzer) : io PurchasePatterns :=
  try_except (lift (analyze_purchase_patterns_body (frame h (self_df self))))
    (λ e, emit (Print ("Error in purchase pattern analysis: " +:+ str_exn e));;
          mret purchase_fallback).

Definition analyze_correlations (h : heap) (self : TimeAnalyzer) : io Correlations :=
  try_except (lift (analyze_correlations_body (frame h (self_df self))))
    (λ e, emit (Print ("Error in correlation analysis: " +:+ str_exn e));;
          mret correlations_fallback).

Definition enhanced_time_analysis (h : heap) (self : TimeAnalyzer) : io (option AnalysisResult) :=
  try_except
    (basic ← lift (basic_analysis (frame h (self_df self)));
     trend_metrics ← calculate_trend_metrics h self;
     anomalies ← detect_anomalies h self;
     purchase_patterns ← analyze_purchase_patterns h self;
     correlations ← analyze_correlations h self;
     seasonality ← analyze_seasonality h self;
     mret (Some (analysis_result basic trend_metrics anomalies purchase_patterns
                   correlations seasonality)))
    (λ e, emit (StError ("Error in analysis: " +:+ str_exn e));;
          mret None).

(** The part of [main] that decides whether there are results: the body
    of its [try] from the check of the required columns to the call of
    [enhanced_time_analysis] (lines 661-677), with the branch for no
    uploaded file and, for an exception of the constructor, the [except] of
    lines 876-883.  It starts once [pd.read_csv] has returned: [uploaded]
    is the DataFrame object it built, or [None] when no file was chosen, and
    [config] is the process-wide configuration.  The page set-up and the
    settings editor before it, a failure of [pd.read_csv] itself, and the
    rendering of the tabs after it are outside the model. *)
Definition main (config : Config) (h : heap) (uploaded : option loc)
    : heap * io (option AnalysisResult) :=
  match uploaded with
  | None => (h, mret None)
  | Some df =>
      if has_required_columns (frame h df) then
        match run (TimeAnalyzer_init df (Some config)) h with
        | (h', Ok analyzer) => (h', enhanced_time_analysis h' analyzer)
        | (h', Raise e) =>
            (h', emit (StError ("Error processing file: " +:+ str_exn e));;
                 emit (StInfo processing_hint);;
                 mret None)
        end
      else (h, emit (StError missing_columns_message);; mret None)
  end.

End WithLibraries.

End Methods.
Export Methods.

(** ** Instances of the two library functions, and sample data *)

Module Samples.

Definition parse_Z (s : string) : option Z :=
  Z.of_uint <$> NilZero.uint_of_string s.

(** A date written [YYYY-MM-DD], the format the app asks for. *)
Definition parse_iso (s : string) : option Timestamp :=
  if bool_decide (String.length s = 10 ∧ String.substring 4 1 s = "-"
                  ∧ String.substring 7 1 s = "-")
  then y ← parse_Z (String.substring 0 4 s);
       m ← parse_Z (String.substring 5 2 s);
       d ← parse_Z (String.substring 8 2 s);
       Some (mkTimestamp y m d)
  else None.

(** [pandas.to_datetime] on a column of ISO dates or of timestamps. *)
Definition to_datetime_iso (col : column) : exc (list (option Timestamp)) :=
  match col with
  | TimeCol ts => Ok ts
  | StrCol xs =>
      mapM (λ o, match o with
                 | None => Ok None
                 | Some s =>
                     match parse_iso s with
                     | Some t => Ok (Some t)
                     | None => Raise (ValueError ("Unknown datetime string format, unable to parse: " +:+ s))
                     end
                 end) xs
  | _ => Raise (TypeError "dates given as numbers are not modelled")
  end.

(** A decomposition that always fails, as [seasonal_decompose] does on fewer
    than 24 observations. *)
Definition decompose_too_short (s : Series key) : exc Decomposition :=
  Raise (ValueError "x must have 2 complete cycles requires 24 observations.").

(** The two rows of the CSV shown on the welcome page. *)
Definition welcome_csv : DataFrame :=
  {[ "transaction_date" := StrCol [Some "2023-01-01"; Some "2023-01-02"];
     SPEND := FloatCol [Fin (100050 / 100); Fin (75025 / 100)];
     QUANTITY := FloatCol [Fin 5; Fin 3] ]}.

(** The same file without its spend column. *)
Definition csv_without_spend : DataFrame :=
  {[ "transaction_date" := StrCol [Some "2023-01-01"; Some "2023-01-02"];
     QUANTITY := FloatCol [Fin 5; Fin 3] ]}.

(** A file whose spend never varies, with lead times. *)
Definition flat_spend_csv : DataFrame :=
  {[ "transaction_date" := StrCol [Some "2023-01-01"; Some "2023-01-02"];
     SPEND := FloatCol [Fin 1000; Fin 1000];
     QUANTITY := FloatCol [Fin 5; Fin 3];
     LEAD_TIME := FloatCol [Fin 7; Fin 9] ]}.

(** Two years of months, as [month_year] writes them. *)
Definition two_years : list string :=
  map (λ m, "2023-" +:+ zero_pad 2 m) (seqZ 1 12)
  ++ map (λ m, "2024-" +:+ zero_pad 2 m) (seqZ 1 12).

(** The same spend in each of twenty-four months. *)
Definition flat_months_csv : DataFrame :=
  {[ "month_year" := StrCol (map Some two_years);
     SPEND := FloatCol (replicate 24 (Fin 1000)) ]}.

(** The components an additive decomposition of period 12 gives for that
    series: a seasonal part of zeros; a centred trend, and with it a residual,
    missing for six months at each end. *)
Definition flat_seasonal : Series key :=
  mkSeries (map KStr two_years) (replicate 24 (Fin 0)).

Definition flat_trend : Series key :=
  mkSeries (map KStr two_years)
           (replicate 6 NaN ++ replicate 12 (Fin 1000) ++ replicate 6 NaN).

Definition flat_residual : Series key :=
  mkSeries (map KStr two_years)
           (replicate 6 NaN ++ replicate 12 (Fin 0) ++ replicate 6 NaN).

Definition decompose_flat (s : Series key) : exc Decomposition :=
  Ok {| seasonal := flat_seasonal; trend := flat_trend; resid := flat_residual |}.

End Samples.
Export Samples.

(** ** Notions used to state the properties *)

Module Spec.

(** The block a method returns: what its [try] block computed, or the
    default of its [except] branch. *)
Definition block_of {A} (body : exc A) (fallback : A) : A :=
  match body with
  | Ok a => a
  | Raise _ => fallback
  end.

(** The trailing window of at most [w] days that ends at day [i], as the
    rolling statistics see it: an infinite value counts as a missing one. *)
Definition trailing_window (w : nat) (xs : list float64) (i : nat) : list float64 :=
  window_at w (map finite_or_nan xs) i.

(** Section 4.5 in words: the value at position [i] lies more than
    [threshold] standard deviations away from the mean of the trailing window
    of at most [w] values that ends at [i]. *)
Definition is_anomalous (w : nat) (threshold : float64) (xs : list float64) (i : nat) : bool :=
  match xs !! i with
  | Some v =>
      fgt (fabs (fsub v (F64.mean (trailing_window w xs i))))
          (fmul threshold (F64.std (trailing_window w xs i)))
  | None => false
  end.

(** The entries of a series kept by a test on positions. *)
Definition kept_positions {K} (s : Series K) (test : nat → bool) : list (K * float64) :=
  omap (λ i, if test i then items s !! i else None) (seq 0 (length (items s))).

(** The text of a day in [anomaly_dates]. *)
Definition day_text (k : key) : string :=
  match k with
  | KTime t => strftime_Ymd t
  | _ => str_key k
  end.

(** A coefficient inside the closed interval from -1 to 1. *)
Definition in_unit_interval (a : float64) : Prop :=
  ∃ x, a = Fin x ∧ (-1 <= x <= 1)%R.

(** A value that is zero or missing. *)
Definition zero_or_missing (a : float64) : Prop := a = NaN ∨ a = Fin 0.

(** The arithmetic mean of real numbers. *)
Definition Rmean (l : list R) : R := (foldl Rplus 0 l / INR (length l))%R.



(** The message names a column. *)
Definition mentions (msg col : string) : bool :=
  bool_decide (is_Some (String.index 0 col msg)).

(** The heap and the analyzer after [TimeAnalyzer(df)] on a heap holding one
    DataFrame, at reference 0. *)
Definition constructed (df : DataFrame) (config : option Config) : heap * exc TimeAnalyzer :=
  run (TimeAnalyzer_init to_datetime_iso 0%nat config) {[ 0%nat := df ]}.

Definition heap_after (df : DataFrame) : heap := (constructed df None).1.

Definition analyzer_at_0 : TimeAnalyzer := mkTimeAnalyzer 0 None.

(** The columns [prepare_data] derives from parsed dates. *)
Definition decorated (ts : list (option Timestamp)) (d : DataFrame) : DataFrame :=
  <["day_of_week" := StrCol (map (fmap day_name) ts)]>
    (<["month_year" := StrCol (map (fmap strftime_Ym) ts)]>
      (<["quarter" := IntCol (map (fmap quarter) ts)]>
        (<["month" := IntCol (map (fmap ts_month) ts)]>
          (<["year" := IntCol (map (fmap ts_year) ts)]>
            (<["transaction_date" := TimeCol ts]> d))))).

End Spec.
Export Spec.

(** ** Further sample data *)

Module MoreSamples.

(** A file whose second date is not written as the app asks. *)
Definition csv_with_bad_date : DataFrame :=
  {[ "transaction_date" := StrCol [Some "2023-01-01"; Some "01/02/2023"];
     SPEND := FloatCol [Fin 100; Fin 150];
     QUANTITY := FloatCol [Fin 5; Fin 3] ]}.

(** One purchase in each of two months. *)
Definition two_months_csv : DataFrame :=
  {[ "transaction_date" := StrCol [Some "2023-01-15"; Some "2023-02-15"];
     SPEND := FloatCol [Fin 100; Fin 150];
     QUANTITY := FloatCol [Fin 5; Fin 3] ]}.

(** The default configuration with another anomaly window. *)
Definition config_with_window (w : Z) : Config :=
  {| analysis :=
       {| min_months_for_seasonality := 12;
          moving_average_windows := [3; 6]%Z;
          top_peak_months := 5;
          anomaly_detection_window := w;
          anomaly_std_threshold := Fin 2;
          trend_significance_threshold := Fin (5 / 100);
          correlation_strength_threshold := Fin (7 / 10) |} |}.


(** A file whose quantity column holds a word: [read_csv] keeps the column
    as text. *)
Definition quantity_text_csv : DataFrame :=
  {[ "transaction_date" := StrCol [Some "2023-01-01"; Some "2023-01-02"];
     SPEND := FloatCol [Fin 100; Fin 150];
     QUANTITY := StrCol [Some "5"; Some "three"] ]}.

End MoreSamples.
Export MoreSamples.

(** ** What the report reads from the seasonality block *)

Module Report.

(** The values held by the dict that [analyze_seasonality] returns. *)
Inductive value : Type :=
  | VBool (b : bool)
  | VNumber (x : float64)
  | VLabel (k : key)
  | VText (s : string)
  | VDict (d : dict)
  | VComponents (c : dict * dict * dict).

(** The dict of lines 114-125, or the one of lines 127-130 and 133-136. *)
Definition seasonality_dict (s : Seasonality) : list (string * value) :=
  match s with
  | Seasonal seasonal_strength peak_month trough_month seasonal_factors components =>
      [("has_seasonality", VBool true);
       ("seasonal_strength", VNumber seasonal_strength);
       ("peak_month", VLabel peak_month);
       ("trough_month", VLabel trough_month);
       ("seasonal_factors", VDict seasonal_factors);
       ("components", VComponents components)]
  | NotSeasonal message =>
      [("has_seasonality", VBool false); ("message", VText message)]
  end.

(** [bool(d)] of a dict: false for the empty one only. *)
Definition truth {A} (d : list A) : bool :=
  match d with
  | [] => false
  | _ :: _ => true
  end.

(** [d[k]] *)
Definition dict_getitem {A} (d : list (string * A)) (k : string) : exc A :=
  match List.find (λ kv, bool_decide (kv.1 = k)) d with
  | Some kv => Ok kv.2
  | None => Raise (KeyError k)
  end.

(** The strength read after the guard [if results['seasonality_metrics']:],
    as the Patterns tab (lines 750-758) and [prepare_analysis_for_excel]
    (lines 585-591) do; [None] when the guard fails. *)
Definition reported_seasonal_strength (results : AnalysisResult) : exc (option value) :=
  let seasonality_metrics := seasonality_dict (seasonality_metrics results) in
  if truth seasonality_metrics then
    strength ← dict_getitem seasonality_metrics "seasonal_strength";
    mret (Some strength)
  else mret None.

End Report.
Export Report.

(** ** The configuration file (src/config/settings.py) *)

Module ConfigFile.

(** A YAML document as [yaml.safe_load] returns it, and as [yaml.dump]
    takes it.  A mapping is a Python dict: no two of its keys are equal, and
    the order of its entries plays no part in a lookup. *)
#[warnings="-register-all"]
Inductive yaml : Type :=
  | YNull
  | YBool (b : bool)
  | YInt (z : Z)
  | YFloat (x : float64)
  | YStr (s : string)
  | YSeq (items : list yaml)
  | YMap (entries : list (yaml * yaml)).

(** An instance of a dataclass, by its [__dict__]: the fields in the order
    of their declaration.  Python checks no types: a field holds whatever
    value it was given. *)
Abbreviation instance := (list (string * yaml)).

(** A dataclass whose fields all have defaults. *)
Record dataclass : Type := mkDataclass {
  class_name : string;
  class_fields : list (string * yaml)
}.

Definition AnalysisSettings : dataclass :=
  {| class_name := "AnalysisSettings";
     class_fields :=
       [("min_months_for_seasonality", YInt 12);
        ("moving_average_windows", YSeq [YInt 3; YInt 6]);
        ("top_peak_months", YInt 5);
        ("anomaly_detection_window", YInt 7);
        ("anomaly_std_threshold", YFloat (Fin 2));
        ("trend_significance_threshold", YFloat (Fin (5 / 100)));
        ("correlation_strength_threshold", YFloat (Fin (7 / 10)))] |}.

Definition VisualizationSettings : dataclass :=
  {| class_name := "VisualizationSettings";
     class_fields :=
       [("default_chart_height", YInt 400);
        ("color_palette",
         YSeq [YStr "blue"; YStr "green"; YStr "red"; YStr "purple"; YStr "orange"]);
        ("chart_template", YStr "plotly_white");
        ("heatmap_colorscale", YStr "Viridis");
        ("show_chart_legends", YBool true);
        ("chart_animation", YBool true)] |}.

Definition ExportSettings : dataclass :=
  {| class_name := "ExportSettings";
     class_fields :=
       [("excel_sheet_names",
         YMap [(YStr "yearly_growth", YStr "Yearly Growth");
               (YStr "monthly_growth", YStr "Monthly Growth");
               (YStr "seasonality", YStr "Seasonal Analysis");
               (YStr "dow_analysis", YStr "Day of Week Analysis");
               (YStr "anomalies", YStr "Anomaly Detection")]);
        ("default_filename_prefix", YStr "time_analysis");
        ("export_formats", YSeq [YStr "excel"; YStr "csv"; YStr "json"])] |}.

Definition AppSettings : dataclass :=
  {| class_name := "AppSettings";
     class_fields :=
       [("app_title", YStr "Time Analysis Dashboard");
        ("app_icon", YStr "📊");
        ("sidebar_state", YStr "expanded");
        ("layout", YStr "wide");
        ("theme_base", YStr "light");
        ("show_welcome_message", YBool true);
        ("show_sample_data", YBool true);
        ("enable_dark_mode", YBool true)] |}.

(** The value a dict of keyword arguments holds for a name. *)
Definition keyword (name : string) (kwargs : list (string * yaml)) : option yaml :=
  snd <$> List.find (λ kv, bool_decide (kv.1 = name)) kwargs.

(** The class called with keyword arguments: a name that is not a field
    raises [TypeError]; a field that is not named takes its default. *)
Definition new (cls : dataclass) (kwargs : list (string * yaml)) : exc instance :=
  match List.find (λ kv, bool_decide (kv.1 ∉ (class_fields cls).*1)) kwargs with
  | Some kv =>
      Raise (TypeError (class_name cls +:+ ".__init__() got an unexpected keyword argument '"
                        +:+ kv.1 +:+ "'"))
  | None =>
      Ok (map (λ f, (f.1, default f.2 (keyword f.1 kwargs))) (class_fields cls))
  end.

(** A document unpacked into keyword arguments: it must be a mapping whose
    keys are strings. *)
Definition keywords (d : yaml) : exc (list (string * yaml)) :=
  match d with
  | YMap entries =>
      mapM (λ kv, match kv.1 with
                  | YStr k => Ok (k, kv.2)
                  | _ => Raise (TypeError "keywords must be strings")
                  end) entries
  | _ => Raise (TypeError "argument after ** must be a mapping")
  end.

Definition is_key (k : string) (y : yaml) : bool :=
  match y with
  | YStr s => bool_decide (s = k)
  | _ => false
  end.

(** [config_dict.get(k, {})]: only a dict has [get]. *)
Definition get (config_dict : yaml) (k : string) : exc yaml :=
  match config_dict with
  | YMap entries =>
      Ok (default (YMap []) (snd <$> List.find (λ kv, is_key k kv.1) entries))
  | _ => Raise (AttributeError "object has no attribute 'get'")
  end.

Record Config : Type := mkConfig {
  analysis : instance;
  visualization : instance;
  export : instance;
  app : instance
}.

(** [Config()]: every group built by its default factory. *)
Definition Config_default : Config :=
  {| analysis := class_fields AnalysisSettings;
     visualization := class_fields VisualizationSettings;
     export := class_fields ExportSettings;
     app := class_fields AppSettings |}.

(** [Config.load_from_yaml]: [file] is [None] when the path does not exist,
    and otherwise the document [yaml.safe_load] read from it. *)
Definition load_from_yaml (file : option yaml) : exc Config :=
  match file with
  | Some config_dict =>
      analysis ← (d ← get config_dict "analysis"; kw ← keywords d; new AnalysisSettings kw);
      visualization ← (d ← get config_dict "visualization"; kw ← keywords d;
                       new VisualizationSettings kw);
      export ← (d ← get config_dict "export"; kw ← keywords d; new ExportSettings kw);
      app ← (d ← get config_dict "app"; kw ← keywords d; new AppSettings kw);
      mret {| analysis := analysis; visualization := visualization;
              export := export; app := app |}
  | None => mret Config_default
  end.

(** [{k: v for k, v in group.__dict__.items()}] *)
Definition items_of (group : instance) : list (yaml * yaml) :=
  map (λ kv, (YStr kv.1, kv.2)) group.

Definition as_mapping (group : instance) : yaml := YMap (items_of group).

(** [save_to_yaml]: the document handed to [yaml.dump]. *)
Definition save_to_yaml (self : Config) : yaml :=
  YMap [(YStr "analysis", as_mapping (analysis self));
        (YStr "visualization", as_mapping (visualization self));
        (YStr "export", as_mapping (export self));
        (YStr "app", as_mapping (app self))].

(** *** What is read back from a written file *)

Definition text_key (kv : yaml * yaml) : bool :=
  match kv.1 with YStr _ => true | _ => false end.

(** The order of two entries with text keys: the order of Python's [str],
    by code point. *)
Definition key_le (a b : yaml * yaml) : Prop :=
  match a.1, b.1 with
  | YStr s, YStr t => String.leb s t = true
  | _, _ => True
  end.

#[global] Instance key_le_dec a b : Decision (key_le a b).
Proof. unfold key_le. destruct a.1, b.1; apply _. Defined.

(** [yaml.dump] is called with its default [sort_keys=True]: the entries of
    a mapping are written in the order of their keys.  All mappings of the
    configuration have text keys; the model leaves a mapping with another
    key in its order. *)
Definition sort_keys (entries : list (yaml * yaml)) : list (yaml * yaml) :=
  if forallb text_key entries then merge_sort key_le entries else entries.

(** The document [yaml.safe_load] reads from the file that
    [yaml.dump(d, f, default_flow_style=False)] wrote: [d] with the entries
    of every mapping, at every depth, in the order of their keys. *)
Fixpoint dump_then_load (d : yaml) : yaml :=
  match d with
  | YSeq items => YSeq (map dump_then_load items)
  | YMap entries =>
      YMap (sort_keys (map (λ kv, match kv with
                                  | (k, v) => (dump_then_load k, dump_then_load v)
                                  end) entries))
  | _ => d
  end.

End ConfigFile.

Module ConfigSpec.
Import ConfigFile.

(** An object of the class: it has the declared fields, in their order. *)
Definition instance_of (cls : dataclass) (obj : instance) : Prop :=
  obj.*1 = (class_fields cls).*1.

Definition well_formed (c : Config) : Prop :=
  instance_of AnalysisSettings (analysis c)
  ∧ instance_of VisualizationSettings (visualization c)
  ∧ instance_of ExportSettings (export c)
  ∧ instance_of AppSettings (app c).

(** Two documents that are equal as Python values: a dict equals a dict
    with the same entries in any order, at every depth. *)
#[warnings="-register-all"]
Inductive reordered : yaml → yaml → Prop :=
  | reordered_null : reordered YNull YNull
  | reordered_bool b : reordered (YBool b) (YBool b)
  | reordered_int z : reordered (YInt z) (YInt z)
  | reordered_float x : reordered (YFloat x) (YFloat x)
  | reordered_str s : reordered (YStr s) (YStr s)
  | reordered_seq xs ys : Forall2 reordered xs ys → reordered (YSeq xs) (YSeq ys)
  | reordered_map es es' fs :
      es ≡ₚ es' →
      Forall2 (λ e f, reordered e.1 f.1 ∧ reordered e.2 f.2) es' fs →
      reordered (YMap es) (YMap fs).

(** Two objects that are equal as Python values: the same fields in the
    same order, with equal values. *)
Definition same_instance (obj obj' : instance) : Prop :=
  Forall2 (λ f f', f.1 = f'.1 ∧ reordered f.2 f'.2) obj obj'.

(** [c == c'] *)
Definition same_config (c c' : Config) : Prop :=
  same_instance (analysis c) (analysis c')
  ∧ same_instance (visualization c) (visualization c')
  ∧ same_instance (export c) (export c')
  ∧ same_instance (app c) (app c').

(** The four groups of a configuration under their names. *)
Definition groups_of (c : Config) : instance :=
  [("analysis", as_mapping (analysis c)); ("visualization", as_mapping (visualization c));
   ("export", as_mapping (export c)); ("app", as_mapping (app c))].

(** The four groups of the file and their classes. *)
Definition groups : list (string * dataclass) :=
  [("analysis", AnalysisSettings); ("visualization", VisualizationSettings);
   ("export", ExportSettings); ("app", AppSettings)].

(** Text keys only. *)
Definition key_text (kv : yaml * yaml) : string * yaml :=
  (match kv.1 with YStr k => k | _ => EmptyString end, kv.2).

End ConfigSpec.

(** ** Order of the peak months *)

Module Ranking.

(** [p] does not come after [q] in decreasing order of value. *)
Definition not_below (p q : key * float64) : Prop := fgt q.2 p.2 = false.

End Ranking.
Export Ranking.

(** ** What the guarded methods print *)

Module Messages.

(** What a guarded method prints: nothing when its [try] block returns,
    the text of its [except] branch when the block raises. *)
Definition printed {A} (prefix : string) (body : exc A) : list event :=
  match body with
  | Ok _ => []
  | Raise e => [Print (prefix +:+ str_exn e)]
  end.

End Messages.
Export Messages.

(** ** The covariance matrix behind a correlation *)

Module Moments.

(** The rows [corr] keeps: those where both values are present. *)
Definition kept_rows (a b : list float64) : list (float64 * float64) :=
  filter (λ p : float64 * float64, isnan p.1 = false ∧ isnan p.2 = false) (zip a b).

(** An entry of [numpy.cov]: the sum of the products of the deviations,
    times [1 / (n - 1)]. *)
Definition computed_cov (xs ys : list float64) (n : nat) : float64 :=
  fmul (codev xs ys) (fdiv (Fin 1) (of_Z (Z.of_nat n - 1))).

(** The three entries [numpy.corrcoef] computes for [a.corr(b)]. *)
Definition covariance (a b : list float64) : float64 :=
  computed_cov (kept_rows a b).*1 (kept_rows a b).*2 (length (kept_rows a b)).

Definition variance_left (a b : list float64) : float64 :=
  computed_cov (kept_rows a b).*1 (kept_rows a b).*1 (length (kept_rows a b)).

Definition variance_right (a b : list float64) : float64 :=
  computed_cov (kept_rows a b).*2 (kept_rows a b).*2 (length (kept_rows a b)).

(** One of the two computed variances is zero. *)
Definition zero_variance (a b : list float64) : Prop :=
  variance_left a b = Fin 0 ∨ variance_right a b = Fin 0.

(** A quotient that is no number: NaN or an infinity. *)
Definition no_number (q : float64) : Prop := q = NaN ∨ q = PInf ∨ q = NInf.

End Moments.
Export Moments.

(** * Properties *)

(** ** Exceptions and [try]/[except] *)

Section Effects_facts.
Context {A B : Type}.

Lemma outcome_try_except (body : io A) (handler : exn → io A) :
  outcome (try_except body handler) =
  match outcome body with
  | Ok a => Ok a
  | Raise e => outcome (handler e)
  end.
Proof. unfold try_except. destruct body as [ev [a|e]]; done. Qed.

Lemma outcome_bind (m : io A) (f : A → io B) :
  outcome (m ≫= f) =
  match outcome m with
  | Ok a => outcome (f a)
  | Raise e => Raise e
  end.
Proof. unfold mbind, io_bind. by destruct (outcome m). Qed.

Lemma outcome_guarded (body : exc A) (msg : exn → string) (fallback : A) :
  outcome (try_except (lift body) (λ e, emit (Print (msg e));; mret fallback)) =
  Ok (block_of body fallback).
Proof. rewrite outcome_try_except. by destruct body. Qed.

Lemma events_guarded (body : exc A) (msg : exn → string) (fallback : A) :
  events (try_except (lift body) (λ e, emit (Print (msg e));; mret fallback)) =
  match body with
  | Ok _ => []
  | Raise e => [Print (msg e)]
  end.
Proof. by destruct body. Qed.

End Effects_facts.

Section Isolation.
Variable seasonal_decompose : Series key → exc Decomposition.

(** The seasonality block: what the [try] block returned, or the message of
    the [except] branch. *)
Lemma analyze_seasonality_outcome h self :
  outcome (analyze_seasonality seasonal_decompose h self) =
  Ok match outcome (analyze_seasonality_body seasonal_decompose (frame h (self_df self)) self) with
     | Ok s => s
     | Raise e => NotSeasonal ("Error in seasonal analysis: " +:+ str_exn e)
     end.
Proof.
  unfold analyze_seasonality. rewrite outcome_try_except.
  by destruct (outcome _).
Qed.

Lemma enhanced_time_analysis_outcome h self :
  outcome (enhanced_time_analysis seasonal_decompose h self) =
  match basic_analysis (frame h (self_df self)) with
  | Raise _ => Ok None
  | Ok b =>
      Ok (Some (analysis_result b
        (block_of (calculate_trend_metrics_body (frame h (self_df self))) trend_fallback)
        (block_of (detect_anomalies_body (frame h (self_df self)) self) anomalies_fallback)
        (block_of (analyze_purchase_patterns_body (frame h (self_df self))) purchase_fallback)
        (block_of (analyze_correlations_body (frame h (self_df self))) correlations_fallback)
        match outcome (analyze_seasonality_body seasonal_decompose (frame h (self_df self)) self) with
        | Ok s => s
        | Raise e => NotSeasonal ("Error in seasonal analysis: " +:+ str_exn e)
        end))
  end.
Proof.
  unfold enhanced_time_analysis. rewrite outcome_try_except, outcome_bind.
  destruct (basic_analysis _) as [b|e]; simpl; [|done].
  unfold calculate_trend_metrics, detect_anomalies, analyze_purchase_patterns,
    analyze_correlations.
  rewrite !outcome_bind, !outcome_guarded.
  rewrite outcome_bind, outcome_guarded, outcome_bind, outcome_guarded.
  rewrite outcome_bind, outcome_guarded, outcome_bind, analyze_seasonality_outcome.
  done.
Qed.

End Isolation.

(** C1, amended.  Each of the five methods (trend metrics, anomaly
    detection, purchase patterns, correlations, seasonality) is isolated:
    on every input it returns the value of its [try] block, or else prints
    its error message and returns the default of its [except] branch,
    whatever the other four do.  The growth, moving-average, peak and
    day-of-week lines of [enhanced_time_analysis] are not: when they succeed
    the result is built from them and from the five blocks, after the
    messages of the methods that failed; when one of them raises, the error
    is shown with [st.error], the whole analysis is given up and [None] is
    returned. *)
Theorem fault_isolation_of_the_five_methods
    (seasonal_decompose : Series key → exc Decomposition) (h : heap) (self : TimeAnalyzer) :
  let df := frame h (self_df self) in
  let trend := calculate_trend_metrics_body df in
  let found := detect_anomalies_body df self in
  let patterns := analyze_purchase_patterns_body df in
  let coefficients := analyze_correlations_body df in
  let seasonal := analyze_seasonality_body seasonal_decompose df self in
  let seasonality :=
    match outcome seasonal with
    | Ok s => s
    | Raise e => NotSeasonal ("Error in seasonal analysis: " +:+ str_exn e)
    end in
  calculate_trend_metrics h self
  = IO (printed "Error in trend metrics: " trend) (Ok (block_of trend trend_fallback))
  ∧ detect_anomalies h self
    = IO (printed "Error in anomaly detection: " found) (Ok (block_of found anomalies_fallback))
  ∧ analyze_purchase_patterns h self
    = IO (printed "Error in purchase pattern analysis: " patterns)
         (Ok (block_of patterns purchase_fallback))
  ∧ analyze_correlations h self
    = IO (printed "Error in correlation analysis: " coefficients)
         (Ok (block_of coefficients correlations_fallback))
  ∧ analyze_seasonality seasonal_decompose h self
    = IO (events seasonal ++ printed "Error in seasonal analysis: " (outcome seasonal))
         (Ok seasonality)
  ∧ match basic_analysis df with
    | Ok b =>
        enhanced_time_analysis seasonal_decompose h self
        = IO (printed "Error in trend metrics: " trend
              ++ printed "Error in anomaly detection: " found
              ++ printed "Error in purchase pattern analysis: " patterns
              ++ printed "Error in correlation analysis: " coefficients
              ++ events seasonal ++ printed "Error in seasonal analysis: " (outcome seasonal))
             (Ok (Some (analysis_result b
                          (block_of trend trend_fallback)
                          (block_of found anomalies_fallback)
                          (block_of patterns purchase_fallback)
                          (block_of coefficients correlations_fallback)
                          seasonality)))
    | Raise e =>
        outcome (enhanced_time_analysis seasonal_decompose h self) = Ok None
        ∧ ∃ message,
            last (events (enhanced_time_analysis seasonal_decompose h self))
            = Some (StError ("Error in analysis: " +:+ message))
    end.
Proof.
  cbv zeta.
  assert (Hguard : ∀ A (body : exc A) prefix fallback,
    try_except (lift body) (λ e, emit (Print (prefix +:+ str_exn e));; mret fallback)
    = IO (printed prefix body) (Ok (block_of body fallback)))
    by (intros A [a|e] prefix fallback; reflexivity).
  assert (Hseason :
    analyze_seasonality seasonal_decompose h self
    = IO (events (analyze_seasonality_body seasonal_decompose (frame h (self_df self)) self)
          ++ printed "Error in seasonal analysis: "
               (outcome (analyze_seasonality_body seasonal_decompose (frame h (self_df self)) self)))
         (Ok match outcome (analyze_seasonality_body seasonal_decompose
                              (frame h (self_df self)) self) with
             | Ok s => s
             | Raise e => NotSeasonal ("Error in seasonal analysis: " +:+ str_exn e)
             end)).
  { unfold analyze_seasonality, try_except.
    destruct (analyze_seasonality_body _ _ _) as [ev [s|e]]; cbn; [|done].
    by rewrite app_nil_r. }
  split; [apply Hguard|]. split; [apply Hguard|]. split; [apply Hguard|].
  split; [apply Hguard|]. split; [exact Hseason|].
  unfold enhanced_time_analysis.
  destruct (basic_analysis _) as [b|e]; [|split; [reflexivity|eexists; reflexivity]].
  rewrite Hseason.
  unfold calculate_trend_metrics, detect_anomalies, analyze_purchase_patterns,
    analyze_correlations.
  rewrite !Hguard. cbn. by rewrite !app_nil_r.
Qed.

(** C4.  When the monthly spend series has fewer entries than
    [min_months_for_seasonality] (12 without a configuration),
    [analyze_seasonality] returns normally the block with
    ['has_seasonality': False] and its message; the decomposition is not
    called and nothing is printed. *)
Theorem seasonality_gating
    (seasonal_decompose : Series key → exc Decomposition) (h : heap) (self : TimeAnalyzer)
    (monthly : Series key) :
  groupby_sum (frame h (self_df self)) "month_year" SPEND = Ok monthly →
  (len monthly < setting self min_months_for_seasonality 12)%Z →
  analyze_seasonality seasonal_decompose h self =
  IO [] (Ok (NotSeasonal
    "Insufficient data for seasonal analysis (need at least {min_months} months)")).
Proof.
  intros Hm Hlt. unfold analyze_seasonality, analyze_seasonality_body.
  rewrite Hm. apply Z.leb_gt in Hlt.
  unfold mbind at 1, io_bind. simpl. rewrite Hlt. reflexivity.
Qed.

Lemma seasonality_gating_witness :
  analyze_seasonality decompose_too_short (heap_after welcome_csv) analyzer_at_0 =
  IO [] (Ok (NotSeasonal
    "Insufficient data for seasonal analysis (need at least {min_months} months)")).
Proof. eapply seasonality_gating; reflexivity. Defined.

Lemma has_required_columns_false (df : DataFrame) c :
  c ∈ required_columns → df !! c = None → has_required_columns df = false.
Proof.
  intros Hc Hn. unfold has_required_columns.
  apply not_true_is_false. intros Hall. rewrite forallb_forall in Hall.
  specialize (Hall c). rewrite <- list_elem_of_In in Hall. specialize (Hall Hc).
  apply bool_decide_eq_true in Hall. rewrite Hn in Hall. by destruct Hall.
Qed.

(** C9, amended.  When the uploaded file lacks one of the three required
    columns, [main] raises nothing: it shows one fixed error message and
    returns without a result, before the analyzer is constructed and without
    touching the uploaded data. *)
Theorem missing_column_stops_main
    (to_datetime : column → exc (list (option Timestamp)))
    (seasonal_decompose : Series key → exc Decomposition)
    (config : Config) (h : heap) (df : loc) (c : string) :
  c ∈ required_columns →
  frame h df !! c = None →
  main to_datetime seasonal_decompose config h (Some df) =
  (h, IO [StError missing_columns_message] (Ok None)).
Proof.
  intros Hc Hn. unfold main. by rewrite (has_required_columns_false _ c).
Qed.

Lemma missing_column_stops_main_witness :
  main to_datetime_iso decompose_too_short default_Config {[ 0%nat := csv_without_spend ]} (Some 0%nat) =
  ({[ 0%nat := csv_without_spend ]}, IO [StError missing_columns_message] (Ok None)).
Proof.
  apply (missing_column_stops_main _ _ _ _ _ SPEND).
  - vm_compute. set_solver.
  - reflexivity.
Defined.

(** The message names all three required columns, also those the file
    has. *)
Lemma message_lists_columns_that_are_present :
  main to_datetime_iso decompose_too_short default_Config {[ 0%nat := csv_without_spend ]} (Some 0%nat) =
  ({[ 0%nat := csv_without_spend ]}, IO [StError missing_columns_message] (Ok None))
  ∧ is_Some (csv_without_spend !! QUANTITY)
  ∧ mentions missing_columns_message QUANTITY = true
  ∧ is_Some (csv_without_spend !! "transaction_date")
  ∧ mentions missing_columns_message "transaction_date" = true.
Proof. repeat split; try (vm_compute; by eauto). Qed.

Lemma frame_setitem (h : heap) l c col : frame (setitem h l c col) l = <[c := col]> (frame h l).
Proof. unfold frame at 1, setitem. by rewrite lookup_insert_eq. Qed.

Lemma setitem_setitem (h : heap) l c col c' col' :
  setitem (setitem h l c col) l c' col' = <[l := <[c' := col']> (<[c := col]> (frame h l))]> h.
Proof. unfold setitem at 1. rewrite frame_setitem. unfold setitem. by rewrite insert_insert_eq. Qed.

Lemma run_assign l c v (h : heap) :
  run (assign l c v) h =
  match v (frame h l) with
  | Ok col => (setitem h l c col, Ok tt)
  | Raise e => (h, Raise e)
  end.
Proof. done. Qed.

Lemma run_bind {A B} (m : heapM A) (f : A → heapM B) h :
  run (m ≫= f) h =
  match run m h with
  | (h', Ok a) => run (f a) h'
  | (h', Raise e) => (h', Raise e)
  end.
Proof. done. Qed.

Lemma transaction_dates_insert c col (d : DataFrame) ts :
  c ≠ "transaction_date" → transaction_dates d = Ok ts →
  transaction_dates (<[c := col]> d) = Ok ts.
Proof.
  unfold transaction_dates, getitem. intros Hc. by rewrite lookup_insert_ne.
Qed.

Lemma transaction_dates_parsed ts (d : DataFrame) :
  transaction_dates (<["transaction_date" := TimeCol ts]> d) = Ok ts.
Proof. unfold transaction_dates, getitem. by rewrite lookup_insert_eq. Qed.

Lemma run_prepare_data (h : heap) self ts :
  transaction_dates (frame h (self_df self)) = Ok ts →
  run (prepare_data self) h =
  (<[self_df self :=
      <["day_of_week" := StrCol (map (fmap day_name) ts)]>
        (<["month_year" := StrCol (map (fmap strftime_Ym) ts)]>
          (<["quarter" := IntCol (map (fmap quarter) ts)]>
            (<["month" := IntCol (map (fmap ts_month) ts)]>
              (<["year" := IntCol (map (fmap ts_year) ts)]> (frame h (self_df self))))))]> h,
   Ok tt).
Proof.
  intros Hts. unfold prepare_data. cbv zeta.
  assert (Hstep : ∀ (g : heap) c (f : list (option Timestamp) → column),
    transaction_dates (frame g (self_df self)) = Ok ts →
    run (assign (self_df self) c (λ df, ts ← transaction_dates df; mret (f ts))) g
    = (setitem g (self_df self) c (f ts), Ok tt)).
  { intros g c f Hg. rewrite run_assign, Hg. done. }
  rewrite run_bind, Hstep by done.
  rewrite run_bind, Hstep
    by (rewrite frame_setitem; by apply transaction_dates_insert).
  rewrite run_bind, Hstep
    by (rewrite !frame_setitem; by do 2 (apply transaction_dates_insert; [done|])).
  rewrite run_bind, Hstep
    by (rewrite !frame_setitem; by do 3 (apply transaction_dates_insert; [done|])).
  rewrite Hstep
    by (rewrite !frame_setitem; by do 4 (apply transaction_dates_insert; [done|])).
  f_equal. unfold setitem at 1. rewrite !frame_setitem.
  unfold setitem. by rewrite !insert_insert_eq.
Qed.

(** C7, amended.  [TimeAnalyzer(df)] keeps the caller's DataFrame object
    and writes to it: when the constructor returns, that object holds the
    parsed dates in place of its date column and the five derived calendar
    columns.  Its other columns, and every other object of the heap, are
    unchanged. *)
Theorem constructor_decorates_the_callers_frame
    (to_datetime : column → exc (list (option Timestamp)))
    (h : heap) (df : loc) (config : option Config) (h' : heap) (self : TimeAnalyzer) :
  run (TimeAnalyzer_init to_datetime df config) h = (h', Ok self) →
  self_df self = df
  ∧ (∃ ts, (getitem (frame h df) "transaction_date" ≫= to_datetime) = Ok ts
           ∧ h' !! df = Some (decorated ts (frame h df)))
  ∧ (∀ l, l ≠ df → h' !! l = h !! l)
  ∧ (∀ c, c ∉ ["transaction_date"; "year"; "month"; "quarter"; "month_year"; "day_of_week"] →
          frame h' df !! c = frame h df !! c).
Proof.
  unfold TimeAnalyzer_init. cbv zeta. rewrite run_bind, run_assign. cbn [self_df].
  destruct (getitem (frame h df) "transaction_date") as [col|e] eqn:Hcol; [|done].
  cbn [mbind exc_bind].
  destruct (to_datetime col) as [ts|e] eqn:Hts; [|done]. cbn [mbind exc_bind mret exc_ret].
  rewrite run_bind.
  rewrite (run_prepare_data _ _ ts) by (cbn [self_df]; rewrite frame_setitem; apply transaction_dates_parsed).
  cbn [self_df]. rewrite frame_setitem. cbn [run mret heapM_ret].
  intros [= <- <-]. cbn [self_df].
  assert (Hh : ∀ d : DataFrame,
    (<[df := d]> (setitem h df "transaction_date" (TimeCol ts)) : heap) = <[df := d]> h).
  { intros d. unfold setitem. by rewrite insert_insert_eq. }
  rewrite Hh. split; [done|]. split; [|split].
  - exists ts. split; [done|]. by rewrite lookup_insert_eq.
  - intros l Hl. by rewrite lookup_insert_ne.
  - intros c Hc. unfold frame at 1. rewrite lookup_insert_eq. simpl.
    rewrite !lookup_insert_ne; [done|..]; intros Heq; apply Hc; rewrite <- Heq; set_solver.
Qed.

(** The caller's object after the constructor: the date column no longer
    holds the strings of the file, and a weekday column has appeared. *)
Lemma constructor_changes_the_callers_frame :
  (constructed welcome_csv None).2 = Ok analyzer_at_0
  ∧ welcome_csv !! "transaction_date"
    = Some (StrCol [Some "2023-01-01"; Some "2023-01-02"])
  ∧ frame (heap_after welcome_csv) 0 !! "transaction_date"
    = Some (TimeCol [Some (mkTimestamp 2023 1 1); Some (mkTimestamp 2023 1 2)])
  ∧ welcome_csv !! "day_of_week" = None
  ∧ frame (heap_after welcome_csv) 0 !! "day_of_week"
    = Some (StrCol [Some "Sunday"; Some "Monday"]).
Proof. repeat split; vm_compute; reflexivity. Qed.

Lemma constructor_decorates_witness :
  run (TimeAnalyzer_init to_datetime_iso 0%nat None) {[ 0%nat := welcome_csv ]}
  = (heap_after welcome_csv, Ok analyzer_at_0)
  ∧ heap_after welcome_csv !! 0%nat
    = Some (decorated [Some (mkTimestamp 2023 1 1); Some (mkTimestamp 2023 1 2)] welcome_csv).
Proof.
  assert (Hrun : run (TimeAnalyzer_init to_datetime_iso 0%nat None) {[ 0%nat := welcome_csv ]}
                 = (heap_after welcome_csv, Ok analyzer_at_0)) by (vm_compute; reflexivity).
  split; [exact Hrun|].
  destruct (constructor_decorates_the_callers_frame to_datetime_iso
              {[ 0%nat := welcome_csv ]} 0%nat None
              (heap_after welcome_csv) analyzer_at_0 Hrun)
    as (_ & (ts & Hts & Hh) & _).
  rewrite Hh. injection Hts as <-. reflexivity.
Defined.

(** ** float64 arithmetic *)

Lemma fgt_nan_r a : fgt a NaN = false.
Proof. by destruct a. Qed.

Lemma fmul_nan_r a : fmul a NaN = NaN.
Proof. by destruct a. Qed.

Lemma fdiv_nan_r a : fdiv a NaN = NaN.
Proof. by destruct a. Qed.

Lemma fdiv_Fin x y : y ≠ 0%R → fdiv (Fin x) (Fin y) = Fin (x / y).
Proof. intros. unfold fdiv. by rewrite decide_False. Qed.

Lemma fdiv_zero_zero : fdiv (Fin 0) (Fin 0) = NaN.
Proof.
  unfold fdiv. rewrite decide_True by done. unfold Rsgn.
  rewrite !decide_False by lra. done.
Qed.

Lemma fgt_Fin_irrefl x : fgt (Fin x) (Fin x) = false.
Proof. simpl. apply bool_decide_eq_false. lra. Qed.

Lemma INR_S_neq_0 n : INR (S n) ≠ 0%R.
Proof. apply not_0_INR. lia. Qed.

(** ** Reductions over numbers *)

Lemma fsum_Fin a l : foldl fadd (Fin a) (map Fin l) = Fin (foldl Rplus a l).
Proof. revert a. induction l as [|x l IH]; intros a; simpl; [done|]. apply IH. Qed.

Lemma dropna_Fin l : dropna (map Fin l) = map Fin l.
Proof.
  unfold dropna. induction l as [|x l IH]; [done|].
  simpl. rewrite filter_cons_True by done. by rewrite IH.
Qed.

Lemma count_Fin l : count (map Fin l) = length l.
Proof. unfold count. by rewrite dropna_Fin, length_map. Qed.

Lemma count_le_length l : count l ≤ length l.
Proof. unfold count, dropna. apply length_filter. Qed.

Lemma mean_Fin l : l ≠ [] → mean (map Fin l) = Fin (Rmean l).
Proof.
  intros Hl. unfold mean, F64.sum, fsum. rewrite count_Fin, dropna_Fin, fsum_Fin.
  destruct l as [|x l]; [done|]. cbn [length]. unfold of_nat.
  rewrite fdiv_Fin by apply INR_S_neq_0. done.
Qed.

Lemma mean_none l : count l = 0 → mean l = NaN.
Proof. unfold mean. by intros ->. Qed.

Lemma var_few l : count l ≤ 1 → var l = NaN.
Proof. unfold var. intros H. destruct (count l) as [|[|n]]; [done|done|lia]. Qed.

Lemma std_few l : count l ≤ 1 → std l = NaN.
Proof. intros H. unfold std. by rewrite var_few. Qed.

(** ** Windows and [rolling] *)

Lemma length_window_at w xs i :
  i < length xs → length (window_at w xs i) = w `min` S i.
Proof. intros Hi. unfold window_at. rewrite length_drop, length_take. lia. Qed.

Lemma window_at_first w x xs : 0 < w → window_at w (x :: xs) 0 = [x].
Proof.
  intros Hw. unfold window_at. replace (1 - w) with 0 by lia.
  simpl. by rewrite take_0.
Qed.


Lemma window_at_Fin w rs i : window_at w (map Fin rs) i = map Fin (drop (S i - w) (take (S i) rs)).
Proof. unfold window_at. change (map Fin rs) with (Fin <$> rs). by rewrite <- fmap_take, <- fmap_drop. Qed.

Lemma window_at_map (f : float64 → float64) w xs i :
  window_at w (map f xs) i = map f (window_at w xs i).
Proof.
  unfold window_at. change (map f ?l) with (f <$> l). by rewrite <- fmap_take, <- fmap_drop.
Qed.

Lemma trailing_window_map w xs i :
  trailing_window w xs i = map finite_or_nan (window_at w xs i).
Proof. apply window_at_map. Qed.

Lemma length_trailing_window w xs i :
  i < length xs → length (trailing_window w xs i) = w `min` S i.
Proof. intros Hi. by rewrite trailing_window_map, length_map, length_window_at. Qed.

(** A window of numbers is seen as it is. *)
Lemma trailing_window_Fin w xs i rs :
  window_at w xs i = map Fin rs → trailing_window w xs i = map Fin rs.
Proof.
  intros Hrs. rewrite trailing_window_map, Hrs. clear.
  induction rs as [|r rs IH]; [done|]. cbn [map]. by rewrite IH.
Qed.


Lemma trailing_window_first w x xs : 0 < w → trailing_window w (x :: xs) 0 = [finite_or_nan x].
Proof. intros Hw. by rewrite trailing_window_map, window_at_first. Qed.

Lemma rolling_inv w mp stat xs ms :
  rolling w mp stat xs = Ok ms →
  (0 ≤ w)%Z ∧ default (Z.to_nat w) mp ≤ Z.to_nat w ∧
  ms = map (λ i, if (count (trailing_window (Z.to_nat w) xs i) <? default (Z.to_nat w) mp)%nat
                 then NaN else stat (trailing_window (Z.to_nat w) xs i))
           (seq 0 (length xs)).
Proof.
  unfold rolling. cbv zeta. destruct (w <? 0)%Z eqn:Hw; [done|].
  destruct (w <? Z.of_nat _)%Z eqn:Hmp; [done|]. intros [= <-].
  apply Z.ltb_ge in Hw, Hmp. repeat split; [done|lia].
Qed.

Lemma rolling_lookup w mp stat xs ms i :
  rolling w mp stat xs = Ok ms → i < length xs →
  ms !! i = Some (if (count (trailing_window (Z.to_nat w) xs i) <? default (Z.to_nat w) mp)%nat
                  then NaN else stat (trailing_window (Z.to_nat w) xs i)).
Proof.
  intros (_ & _ & ->)%rolling_inv Hi.
  change (map ?f ?l) with (f <$> l). rewrite list_lookup_fmap.
  assert (seq 0 (length xs) !! i = Some i) as -> by (apply lookup_seq; lia). done.
Qed.

Lemma rolling_length w mp stat xs ms :
  rolling w mp stat xs = Ok ms → length ms = length xs.
Proof. intros (_ & _ & ->)%rolling_inv. by rewrite length_map, length_seq. Qed.

(** With [min_periods=1] the statistic of the window is the rolling value:
    a window with no value present has NaN for mean and for deviation. *)
Lemma rolling_min1_mean w xs ms i :
  rolling w (Some 1) F64.mean xs = Ok ms → i < length xs →
  ms !! i = Some (F64.mean (trailing_window (Z.to_nat w) xs i)).
Proof.
  intros H Hi. rewrite (rolling_lookup _ _ _ _ _ _ H Hi). simpl.
  destruct (_ <? 1)%nat eqn:Hc; [|done]. apply Nat.ltb_lt in Hc.
  rewrite mean_none; [done|lia].
Qed.

Lemma rolling_min1_std w xs ms i :
  rolling w (Some 1) F64.std xs = Ok ms → i < length xs →
  ms !! i = Some (F64.std (trailing_window (Z.to_nat w) xs i)).
Proof.
  intros H Hi. rewrite (rolling_lookup _ _ _ _ _ _ H Hi). simpl.
  destruct (_ <? 1)%nat eqn:Hc; [|done]. apply Nat.ltb_lt in Hc.
  rewrite std_few; [done|lia].
Qed.

(** ** Aggregations *)

Lemma exc_bind_Ok {A B} (m : exc A) (f : A → exc B) b :
  m ≫= f = Ok b → ∃ a, m = Ok a ∧ f a = Ok b.
Proof. destruct m as [a|e]; [|done]. intros H. by exists a. Qed.

Lemma groupby_reduce_inv agg df by_ c s :
  groupby_reduce agg df by_ c = Ok s →
  ∃ ks vs, grouping df by_ = Ok ks ∧ measure df c = Ok vs ∧ s = groupby_agg agg ks vs.
Proof.
  unfold groupby_reduce.
  intros (ks & Hks & (vs & Hvs & [= <-])%exc_bind_Ok)%exc_bind_Ok. by exists ks, vs.
Qed.

Lemma groupby_agg_length {K} `{EqDecision K, KeyOrder K} agg (ks : list (option K)) vs :
  length (values (groupby_agg agg ks vs)) = length (index (groupby_agg agg ks vs)).
Proof. unfold groupby_agg. simpl. by rewrite length_map. Qed.

Lemma groupby_reduce_length agg df by_ c s :
  groupby_reduce agg df by_ c = Ok s → length (values s) = length (index s).
Proof. intros (ks & vs & _ & _ & ->)%groupby_reduce_inv. apply groupby_agg_length. Qed.

Lemma group_keys_NoDup {K} `{EqDecision K, KeyOrder K} (ks : list (option K)) :
  NoDup (group_keys ks).
Proof.
  unfold group_keys. rewrite merge_sort_Permutation. apply NoDup_remove_dups.
Qed.

Lemma groupby_reduce_NoDup agg df by_ c s :
  groupby_reduce agg df by_ c = Ok s → NoDup (index s).
Proof. intros (ks & vs & _ & _ & ->)%groupby_reduce_inv. apply group_keys_NoDup. Qed.

(** What the locals of the Basic Analysis hold when it succeeds. *)
Lemma basic_analysis_inv df b :
  basic_analysis df = Ok b →
  groupby_sum df "year" SPEND = Ok (yearly_spend b)
  ∧ yoy_growth b = times100 (pct_change (values (yearly_spend b)))
  ∧ groupby2_sum df "year" "quarter" SPEND = Ok (quarterly_spend b)
  ∧ qoq_growth b = times100 (pct_change (values (quarterly_spend b)))
  ∧ groupby_sum df "month_year" SPEND = Ok (monthly_spend b)
  ∧ mom_growth b = times100 (pct_change (values (monthly_spend b)))
  ∧ rolling 3 None F64.mean (values (monthly_spend b)) = Ok (ma3 b)
  ∧ rolling 6 None F64.mean (values (monthly_spend b)) = Ok (ma6 b).
Proof.
  unfold basic_analysis.
  intros (ys & Hys & H)%exc_bind_Ok.
  apply exc_bind_Ok in H as (qs & Hqs & H).
  apply exc_bind_Ok in H as (ms & Hms & H).
  apply exc_bind_Ok in H as (m3 & Hm3 & H).
  apply exc_bind_Ok in H as (m6 & Hm6 & H).
  apply exc_bind_Ok in H as (ps & Hps & H).
  apply exc_bind_Ok in H as (ds & Hds & [= <-]).
  simpl. done.
Qed.

Lemma pct_change_length xs : length (pct_change xs) = length xs.
Proof. unfold pct_change. rewrite length_zip_with. simpl. lia. Qed.

Lemma times100_length xs : length (times100 xs) = length xs.
Proof. unfold times100. apply length_map. Qed.

(** The growth of the first period is NaN: there is no period before it. *)
Lemma growth_head xs v : head (times100 (pct_change xs)) = Some v → v = NaN.
Proof.
  destruct xs as [|x xs]; [done|]. unfold pct_change. simpl.
  rewrite fdiv_nan_r. simpl. by intros [= <-].
Qed.

Lemma zip_head {A B} (l : list A) (k : list B) p :
  head (zip l k) = Some p → head l = Some p.1 ∧ head k = Some p.2.
Proof. destruct l, k; try done. simpl. by intros [= <-]. Qed.

Lemma to_dict_head s k v :
  head (to_dict s) = Some (k, v) → head (values s) = Some v.
Proof.
  unfold to_dict, items. destruct (zip (index s) (values s)) as [|p l] eqn:Hz; [done|].
  simpl. intros [= <- <-].
  assert (head (zip (index s) (values s)) = Some p) as Hp by by rewrite Hz.
  by apply zip_head in Hp as [_ ->].
Qed.

(** C2.  In every analysis result the yearly, quarterly and monthly growth
    tables have one entry per period, and the value of the first period is
    NaN, the missing value. *)
Theorem first_period_growth_is_missing
    (seasonal_decompose : Series key → exc Decomposition)
    (h : heap) (self : TimeAnalyzer) (r : AnalysisResult) :
  outcome (enhanced_time_analysis seasonal_decompose h self) = Ok (Some r) →
  ∃ b, basic_analysis (frame h (self_df self)) = Ok b
    ∧ length (yearly_growth r) = length (index (yearly_spend b))
    ∧ length (quarterly_growth r) = length (index (quarterly_spend b))
    ∧ length (monthly_growth r) = length (index (monthly_spend b))
    ∧ ∀ growth, growth ∈ [yearly_growth r; quarterly_growth r; monthly_growth r] →
        ∀ k v, head growth = Some (k, v) → v = NaN.
Proof.
  rewrite enhanced_time_analysis_outcome.
  destruct (basic_analysis _) as [b|e] eqn:Hb; [|done]. intros [= <-].
  exists b. split; [done|].
  destruct (basic_analysis_inv _ _ Hb) as (Hy & Hyg & Hq & Hqg & Hm & Hmg & _).
  unfold analysis_result; cbn [yearly_growth quarterly_growth monthly_growth].
  apply groupby_reduce_length in Hy, Hm.
  assert (Hql : length (values (quarterly_spend b)) = length (index (quarterly_spend b))).
  { unfold groupby2_sum in Hq.
    apply exc_bind_Ok in Hq as (k1 & _ & Hq). apply exc_bind_Ok in Hq as (k2 & _ & Hq).
    apply exc_bind_Ok in Hq as (vs & _ & [= <-]). apply groupby_agg_length. }
  repeat split.
  - unfold to_dict, items. rewrite length_map, length_zip. cbn [index values].
    rewrite Hyg, times100_length, pct_change_length. lia.
  - rewrite length_zip, length_map, Hqg, times100_length, pct_change_length. lia.
  - unfold to_dict, items. rewrite length_map, length_zip. cbn [index values].
    rewrite Hmg, times100_length, pct_change_length. lia.
  - intros growth Hg k v Hhead.
    apply elem_of_cons in Hg as [->|Hg]; [|apply elem_of_cons in Hg as [->|Hg]];
      [| |apply list_elem_of_singleton in Hg as ->].
    + apply to_dict_head in Hhead. cbn [values] in Hhead.
      rewrite Hyg in Hhead. by apply growth_head in Hhead.
    + apply zip_head in Hhead as [_ Hhead]. cbn [snd] in Hhead.
      rewrite Hqg in Hhead. by apply growth_head in Hhead.
    + apply to_dict_head in Hhead. cbn [values] in Hhead.
      rewrite Hmg in Hhead. by apply growth_head in Hhead.
Qed.

Lemma enhanced_time_analysis_succeeds sd h self b :
  basic_analysis (frame h (self_df self)) = Ok b →
  ∃ r, outcome (enhanced_time_analysis sd h self) = Ok (Some r).
Proof. intros Hb. rewrite enhanced_time_analysis_outcome, Hb. eauto. Qed.

Lemma welcome_csv_is_analysed :
  ∃ r, outcome (enhanced_time_analysis decompose_too_short (heap_after welcome_csv) analyzer_at_0)
       = Ok (Some r).
Proof. eapply enhanced_time_analysis_succeeds. vm_compute. reflexivity. Qed.

Lemma first_period_growth_witness :
  ∃ r, outcome (enhanced_time_analysis decompose_too_short (heap_after welcome_csv) analyzer_at_0)
       = Ok (Some r)
    ∧ length (yearly_growth r) = 1
    ∧ ∀ k v, head (yearly_growth r) = Some (k, v) → v = NaN.
Proof.
  destruct welcome_csv_is_analysed as [r Hr]. exists r. split; [exact Hr|].
  destruct (first_period_growth_is_missing _ _ _ _ Hr) as (b & Hb & Hy & _ & _ & Hg).
  split.
  - rewrite Hy. 
    assert (Hb' : ∃ b', basic_analysis (frame (heap_after welcome_csv) 0) = Ok b'
                      ∧ length (index (yearly_spend b')) = 1).
    { eexists. split; [vm_compute; reflexivity|reflexivity]. }
    destruct Hb' as (b' & Hb' & Hlen). cbn [self_df analyzer_at_0] in Hb.
    rewrite Hb in Hb'. by injection Hb' as <-.
  - intros k v. apply Hg. apply elem_of_cons. by left.
Defined.

Lemma to_dict_lookup s i k v :
  index s !! i = Some k → values s !! i = Some v →
  to_dict s !! i = Some (str_key k, v).
Proof.
  intros Hk Hv. unfold to_dict, items.
  change (map ?f ?l) with (f <$> l). rewrite list_lookup_fmap.
  rewrite (lookup_zip_with pair), Hk. simpl. by rewrite Hv.
Qed.

(** A trailing mean over [w] periods: nothing before [w] periods exist, the
    mean of the last [w] values from then on. *)
Lemma rolling_mean_gating (w : nat) xs ms i :
  0 < w → rolling (Z.of_nat w) None F64.mean xs = Ok ms → i < length xs →
  ∃ v, ms !! i = Some v
       ∧ (i < w - 1 → v = NaN)
       ∧ (w - 1 ≤ i → ∀ rs, window_at w xs i = map Fin rs → v = Fin (Rmean rs)).
Proof.
  intros Hw Hr Hi. eexists. split; [by apply (rolling_lookup _ _ _ _ _ _ Hr)|].
  rewrite Nat2Z.id. cbn [default].
  pose proof (length_trailing_window w xs i Hi) as Hlen.
  pose proof (count_le_length (trailing_window w xs i)) as Hcount.
  split.
  - intros Hlt. destruct (_ <? _)%nat eqn:Hc; [done|].
    apply Nat.ltb_ge in Hc. lia.
  - intros Hge rs Hrs. rewrite (trailing_window_Fin _ _ _ _ Hrs) in *.
    rewrite count_Fin. rewrite length_map in Hlen.
    destruct (_ <? _)%nat eqn:Hc; [apply Nat.ltb_lt in Hc; lia|].
    apply mean_Fin. intros ->. simpl in Hlen. lia.
Qed.

(** C6.  For the windows of 3 and of 6 months, the moving average has an
    entry for every month; it is NaN at each of the first [w - 1] months, and
    from the [w]-th month on it is the mean of the last [w] monthly values
    when these are numbers. *)
Theorem moving_average_window_gating
    (seasonal_decompose : Series key → exc Decomposition)
    (h : heap) (self : TimeAnalyzer) (r : AnalysisResult) :
  outcome (enhanced_time_analysis seasonal_decompose h self) = Ok (Some r) →
  ∃ monthly, groupby_sum (frame h (self_df self)) "month_year" SPEND = Ok monthly
    ∧ ∀ w ma, (w, ma) ∈ [(3, moving_average_3m r); (6, moving_average_6m r)] →
        ∀ i k, index monthly !! i = Some k →
          ∃ v, ma !! i = Some (str_key k, v)
               ∧ (i < w - 1 → v = NaN)
               ∧ (w - 1 ≤ i →
                  ∀ rs, window_at w (values monthly) i = map Fin rs → v = Fin (Rmean rs)).
Proof.
  rewrite enhanced_time_analysis_outcome.
  destruct (basic_analysis _) as [b|e] eqn:Hb; [|done]. intros [= <-].
  destruct (basic_analysis_inv _ _ Hb) as (_ & _ & _ & _ & Hm & _ & H3 & H6).
  exists (monthly_spend b). split; [done|].
  pose proof (groupby_reduce_length _ _ _ _ _ Hm) as Hlen.
  intros w ma Hw i k Hk.
  assert (Hi : i < length (values (monthly_spend b))).
  { rewrite Hlen. by apply lookup_lt_Some in Hk. }
  assert (Hgen : ∀ ms, 0 < w →
    rolling (Z.of_nat w) None F64.mean (values (monthly_spend b)) = Ok ms →
    ma = to_dict (mkSeries (index (monthly_spend b)) ms) →
    ∃ v, ma !! i = Some (str_key k, v)
         ∧ (i < w - 1 → v = NaN)
         ∧ (w - 1 ≤ i →
            ∀ rs, window_at w (values (monthly_spend b)) i = map Fin rs → v = Fin (Rmean rs))).
  { intros ms Hpos Hr ->.
    destruct (rolling_mean_gating w _ ms i Hpos Hr Hi) as (v & Hv & Hnan & Hfin).
    exists v. split; [by apply to_dict_lookup|done]. }
  apply elem_of_cons in Hw as [[= -> ->]|Hw];
    [|apply list_elem_of_singleton in Hw as [= -> ->]].
  - apply (Hgen (ma3 b)); [lia|done|done].
  - apply (Hgen (ma6 b)); [lia|done|done].
Qed.

Lemma moving_average_witness :
  ∃ r, outcome (enhanced_time_analysis decompose_too_short (heap_after welcome_csv) analyzer_at_0)
       = Ok (Some r)
    ∧ moving_average_3m r !! 0 = Some ("2023-01", NaN)
    ∧ moving_average_6m r !! 0 = Some ("2023-01", NaN).
Proof.
  destruct welcome_csv_is_analysed as [r Hr]. exists r. split; [exact Hr|].
  destruct (moving_average_window_gating _ _ _ _ Hr) as (monthly & Hm & Hma).
  assert (Hk : index monthly !! 0 = Some (KStr "2023-01")).
  { assert (∃ m, groupby_sum (frame (heap_after welcome_csv) 0) "month_year" SPEND = Ok m
                 ∧ index m !! 0 = Some (KStr "2023-01")) as (m & Hm' & Hk).
    { eexists. split; [vm_compute; reflexivity|reflexivity]. }
    cbn [self_df analyzer_at_0] in Hm. rewrite Hm in Hm'. by injection Hm' as <-. }
  split.
  - destruct (Hma 3 (moving_average_3m r) ltac:(apply elem_of_cons; by left) 0 _ Hk) as (v & Hv & Hnan & _).
    rewrite Hv, Hnan; [done|lia].
  - destruct (Hma 6 (moving_average_6m r) ltac:(apply elem_of_cons; right; apply elem_of_cons; by left) 0 _ Hk) as (v & Hv & Hnan & _).
    rewrite Hv, Hnan; [done|lia].
Defined.

(** ** Boolean indexing *)

Lemma mapM_exc_Ok {A B} (f : A → exc B) (g : A → B) (l : list A) :
  (∀ x, x ∈ l → f x = Ok (g x)) → mapM f l = Ok (map g l).
Proof.
  induction l as [|x l IH]; intros Hf; [done|].
  simpl. rewrite Hf by left. cbn. rewrite IH; [done|].
  intros y Hy. apply Hf. by right.
Qed.

Lemma omap_seq_shift {B} (f : nat → option B) n :
  omap f (seq 1 n) = omap (λ i, f (S i)) (seq 0 n).
Proof.
  rewrite <- fmap_S_seq. generalize (seq 0 n). intros l.
  induction l as [|i l IH]; [done|]. cbn [fmap list_fmap omap list_omap].
  by rewrite <- IH.
Qed.

Lemma omap_ext_seq {B} (f g : nat → option B) n :
  (∀ i, i < n → f i = g i) → omap f (seq 0 n) = omap g (seq 0 n).
Proof.
  intros Hfg. 
  assert (∀ l : list nat, (∀ i, i ∈ l → i < n) → omap f l = omap g l) as Hl.
  { induction l as [|i l IH]; intros Hin; [done|]. cbn [omap list_omap].
    rewrite Hfg by (apply Hin; left). rewrite <- IH; [done|].
    intros j Hj. apply Hin. by right. }
  apply Hl. intros i Hi%elem_of_seq. lia.
Qed.

Lemma omap_cons {A B} (f : A → option B) x l :
  omap f (x :: l) = match f x with Some y => y :: omap f l | None => omap f l end.
Proof. done. Qed.

(** Selecting by a mask keeps the positions where the test holds. *)
Lemma select_positions {K} (l : list (K * float64)) (m : list bool) (test : nat → bool) a :
  (∀ i, i < length l → m !! i = Some (test (a + i))) →
  (filter (λ p : K * float64 * bool, p.2 = true) (zip l m)).*1
  = omap (λ i, if test (a + i) then l !! i else None) (seq 0 (length l)).
Proof.
  revert m a. induction l as [|x l IH]; intros m a Hm; [done|].
  destruct m as [|b m]; [by specialize (Hm 0 ltac:(simpl; lia))|].
  pose proof (Hm 0 ltac:(simpl; lia)) as H0. simpl in H0. injection H0 as ->.
  cbn [length seq zip zip_with]. rewrite omap_cons, omap_seq_shift.
  rewrite (omap_ext_seq _ (λ i, if test (S a + i) then l !! i else None)).
  2:{ intros i _. replace (a + S i) with (S a + i) by lia. done. }
  rewrite <- (IH m (S a)).
  2:{ intros i Hi. specialize (Hm (S i) ltac:(simpl; lia)). simpl in Hm.
      rewrite Hm. f_equal. f_equal. lia. }
  destruct (test (a + 0)) eqn:Ht.
  - rewrite filter_cons_True by done. done.
  - rewrite filter_cons_False by (simpl; congruence). done.
Qed.

Lemma select_kept {K} (s : Series K) (mask : list bool) (test : nat → bool) :
  (∀ i, i < length (items s) → mask !! i = Some (test i)) →
  select s mask = kept_positions s test.
Proof. intros Hm. unfold select, kept_positions. by apply (select_positions _ _ _ 0). Qed.

Lemma select_sublist {K} (s : Series K) (mask : list bool) :
  select s mask `sublist_of` items s.
Proof.
  unfold select. etrans; [apply fmap_sublist, sublist_filter|].
  generalize (items s). intros l. revert mask.
  induction l as [|x l IH]; intros [|b m]; simpl; try done.
  - apply sublist_nil_l.
  - by apply sublist_skip.
Qed.

(** ** The anomaly mask *)

Lemma anomaly_mask_lookup w thr xs rm rs i :
  rolling w (Some 1) F64.mean xs = Ok rm →
  rolling w (Some 1) F64.std xs = Ok rs →
  i < length xs →
  anomaly_mask thr xs rm rs !! i = Some (is_anomalous (Z.to_nat w) thr xs i).
Proof.
  intros Hm Hs Hi. unfold anomaly_mask, is_anomalous.
  change (map ?f ?l) with (f <$> l).
  rewrite lookup_zip_with, !list_lookup_fmap, lookup_zip_with.
  destruct (lookup_lt_is_Some_2 xs i Hi) as [v Hv]. rewrite Hv.
  rewrite (rolling_min1_mean _ _ _ _ Hm Hi), (rolling_min1_std _ _ _ _ Hs Hi).
  done.
Qed.

(** The deviation of a single observation is undefined, so the first
    position never passes the test. *)
Lemma is_anomalous_first w thr xs : 0 < w → is_anomalous w thr xs 0 = false.
Proof.
  intros Hw. unfold is_anomalous. destruct xs as [|x xs]; [done|].
  change ((x :: xs) !! 0) with (Some x).
  rewrite trailing_window_first by done.
  rewrite (std_few [finite_or_nan x]).
  - by rewrite fmul_nan_r, fgt_nan_r.
  - etrans; [apply count_le_length|done].
Qed.

Lemma fst_zip_sublist {A B} (l : list A) (k : list B) : (zip l k).*1 `sublist_of` l.
Proof.
  revert k. induction l as [|x l IH]; intros [|y k]; simpl; try done.
  - apply sublist_nil_l.
  - by apply sublist_skip.
Qed.

Lemma items_length {K} (s : Series K) :
  length (values s) = length (index s) → length (items s) = length (values s).
Proof. intros H. unfold items. rewrite length_zip. lia. Qed.

Lemma rolling_min1_Ok w stat xs :
  (1 ≤ w)%Z → ∃ ms, rolling w (Some 1) stat xs = Ok ms.
Proof.
  intros Hw. unfold rolling. cbv zeta.
  destruct (w <? 0)%Z eqn:H0; [apply Z.ltb_lt in H0; lia|].
  destruct (w <? Z.of_nat _)%Z eqn:H1; [apply Z.ltb_lt in H1; simpl in H1; lia|].
  eauto.
Qed.

(** The labels of a grouping by a datetime column are timestamps. *)
Lemma grouping_TimeCol (df : DataFrame) by_ ts :
  df !! by_ = Some (TimeCol ts) → grouping df by_ = Ok (map (fmap KTime) ts).
Proof. intros H. unfold grouping, getitem. by rewrite H. Qed.

Lemma group_keys_elem {K} `{EqDecision K, KeyOrder K} (ks : list (option K)) k :
  k ∈ group_keys ks → Some k ∈ ks.
Proof.
  unfold group_keys. rewrite merge_sort_Permutation, elem_of_remove_dups, list_elem_of_omap.
  by intros (o & Ho & ->).
Qed.

Lemma daily_keys_are_timestamps (df : DataFrame) ts daily k :
  df !! "transaction_date" = Some (TimeCol ts) →
  groupby_sum df "transaction_date" SPEND = Ok daily →
  k ∈ index daily → ∃ t, k = KTime t.
Proof.
  intros Hts (ks & vs & Hks & _ & ->)%groupby_reduce_inv Hk.
  rewrite (grouping_TimeCol _ _ _ Hts) in Hks. injection Hks as <-.
  apply group_keys_elem in Hk. change (map ?f ?l) with (f <$> l) in Hk.
  apply list_elem_of_fmap in Hk as ([t|] & Heq & _); [|done].
  injection Heq as ->. eauto.
Qed.

(** What the [try] block of [detect_anomalies] returns when it returns. *)
Lemma detect_anomalies_body_inv df self a :
  detect_anomalies_body df self = Ok a →
  ∃ daily rm rs,
    groupby_sum df "transaction_date" SPEND = Ok daily
    ∧ rolling (setting self anomaly_detection_window 7%Z) (Some 1) F64.mean (values daily) = Ok rm
    ∧ rolling (setting self anomaly_detection_window 7%Z) (Some 1) F64.std (values daily) = Ok rs
    ∧ anomaly_values a
      = map (λ p, (str_key p.1, p.2))
          (select daily (anomaly_mask (setting self anomaly_std_threshold (Fin 2))
                           (values daily) rm rs))
    ∧ total_anomalies a
      = Z.of_nat (length (select daily (anomaly_mask (setting self anomaly_std_threshold (Fin 2))
                                           (values daily) rm rs))).
Proof.
  unfold detect_anomalies_body.
  intros (daily & Hd & H)%exc_bind_Ok. cbv zeta in H.
  apply exc_bind_Ok in H as (rm & Hrm & H).
  apply exc_bind_Ok in H as (rs & Hrs & H).
  apply exc_bind_Ok in H as (dates & Hdates & [= <-]).
  exists daily, rm, rs. done.
Qed.

Lemma select_is_kept {K} (daily : Series K) w thr rm rs :
  length (values daily) = length (index daily) →
  rolling w (Some 1) F64.mean (values daily) = Ok rm →
  rolling w (Some 1) F64.std (values daily) = Ok rs →
  select daily (anomaly_mask thr (values daily) rm rs)
  = kept_positions daily (is_anomalous (Z.to_nat w) thr (values daily)).
Proof.
  intros Hlen Hrm Hrs. apply select_kept. intros i Hi.
  rewrite items_length in Hi by done. by apply anomaly_mask_lookup.
Qed.

Lemma kept_positions_sublist {K} (s : Series K) test :
  test 0 = false → kept_positions s test `sublist_of` tail (items s).
Proof.
  intros H0. unfold kept_positions. destruct (items s) as [|p l]; [done|].
  cbn [length seq tail]. rewrite omap_cons, H0, omap_seq_shift.
  assert (∀ (n : nat) (l' : list (K * float64)) (f : nat → bool),
    length l' = n → omap (λ i, if f i then l' !! i else None) (seq 0 n) `sublist_of` l') as Hsub.
  { induction n as [|n IH]; intros l' f Hl'.
    - apply sublist_nil_l.
    - destruct l' as [|q l']; [done|]. cbn [seq]. rewrite omap_cons, omap_seq_shift. simpl.
      destruct (f 0).
      + apply sublist_skip. apply (IH l' (λ i, f (S i))). simpl in Hl'. lia.
      + apply sublist_cons. apply (IH l' (λ i, f (S i))). simpl in Hl'. lia. }
  apply (Hsub (length l) l (λ i, test (S i))). done.
Qed.

Lemma first_key_not_kept {K} (s : Series K) (found : list (K * float64)) k :
  NoDup (index s) → found `sublist_of` tail (items s) →
  head (index s) = Some k → k ∉ found.*1.
Proof.
  intros Hnd Hsub Hk Hin.
  unfold items in Hsub. destruct (index s) as [|k0 idx]; [done|].
  injection Hk as ->. apply NoDup_cons in Hnd as [Hnotin _]. apply Hnotin.
  destruct (values s) as [|v vs]; simpl in Hsub.
  - apply sublist_nil_r in Hsub as ->. by apply elem_of_nil in Hin.
  - eapply elem_of_sublist; [exact Hin|].
    etrans; [by apply fmap_sublist|]. apply fst_zip_sublist.
Qed.

(** C10.  The days reported by [detect_anomalies] are taken, in order, from
    the daily series without its first day: the first day is never among
    them. *)
Theorem first_day_is_never_flagged (h : heap) (self : TimeAnalyzer) (daily : Series key) :
  groupby_sum (frame h (self_df self)) "transaction_date" SPEND = Ok daily →
  ∃ a found,
    outcome (detect_anomalies h self) = Ok a
    ∧ anomaly_values a = map (λ p, (str_key p.1, p.2)) found
    ∧ total_anomalies a = Z.of_nat (length found)
    ∧ found `sublist_of` tail (items daily)
    ∧ ∀ k, head (index daily) = Some k → k ∉ found.*1.
Proof.
  intros Hd. unfold detect_anomalies. rewrite outcome_guarded.
  pose proof (groupby_reduce_NoDup _ _ _ _ _ Hd) as Hnd.
  pose proof (groupby_reduce_length _ _ _ _ _ Hd) as Hlen.
  destruct (detect_anomalies_body _ self) as [a|e] eqn:Hbody; simpl.
  - apply detect_anomalies_body_inv in Hbody as (daily' & rm & rs & Hd' & Hrm & Hrs & Hv & Ht).
    rewrite Hd in Hd'. injection Hd' as <-.
    rewrite (select_is_kept _ _ _ _ _ Hlen Hrm Hrs) in Hv, Ht.
    eexists a, _. split; [done|]. split; [exact Hv|]. split; [exact Ht|].
    assert (Hsub : kept_positions daily
              (is_anomalous (Z.to_nat (setting self anomaly_detection_window 7%Z))
                 (setting self anomaly_std_threshold (Fin 2)) (values daily))
              `sublist_of` tail (items daily)).
    { apply kept_positions_sublist, is_anomalous_first.
      apply rolling_inv in Hrm as (_ & Hw & _). simpl in Hw. lia. }
    split; [done|]. intros k Hk. by eapply first_key_not_kept.
  - exists anomalies_fallback, []. repeat split; try done.
    + apply sublist_nil_l.
    + intros k _ Hin. by apply elem_of_nil in Hin.
Qed.

Lemma first_day_witness :
  ∃ a found,
    outcome (detect_anomalies (heap_after welcome_csv) analyzer_at_0) = Ok a
    ∧ anomaly_values a = map (λ p, (str_key p.1, p.2)) found
    ∧ KTime (mkTimestamp 2023 1 1) ∉ found.*1.
Proof.
  assert (∃ daily, groupby_sum (frame (heap_after welcome_csv) 0) "transaction_date" SPEND
                   = Ok daily
                   ∧ head (index daily) = Some (KTime (mkTimestamp 2023 1 1)))
    as (daily & Hd & Hhead) by (eexists; split; reflexivity).
  destruct (first_day_is_never_flagged (heap_after welcome_csv) analyzer_at_0 daily Hd)
    as (a & found & Ha & Hv & _ & _ & Hfirst).
  exists a, found. split; [exact Ha|]. split; [exact Hv|]. by apply Hfirst.
Defined.

(** ** Flat windows *)

Lemma replicate_Fin n x : replicate n (Fin x) = map Fin (replicate n x).
Proof. change (map Fin ?l) with (Fin <$> l). by rewrite fmap_replicate. Qed.

Lemma foldl_Rplus_replicate a n x : foldl Rplus a (replicate n x) = (a + INR n * x)%R.
Proof.
  revert a. induction n as [|n IH]; intros a.
  - simpl. lra.
  - rewrite S_INR. simpl. rewrite IH. lra.
Qed.

Lemma mean_replicate_Fin n x : 0 < n → mean (replicate n (Fin x)) = Fin x.
Proof.
  intros Hn. rewrite replicate_Fin, mean_Fin by (destruct n; [lia|done]).
  f_equal. unfold Rmean. rewrite foldl_Rplus_replicate, length_replicate.
  field. apply not_0_INR. lia.
Qed.

Lemma var_replicate_Fin n x : 2 ≤ n → var (replicate n (Fin x)) = Fin 0.
Proof.
  intros Hn. unfold var, ssqdm. rewrite mean_replicate_Fin by lia.
  rewrite replicate_Fin, count_Fin, dropna_Fin, length_replicate.
  destruct n as [|[|n]]; [lia|lia|].
  rewrite map_map.
  rewrite <- (map_map (λ y : R, ((y + - x) * (y + - x))%R) Fin).
  unfold fsum. rewrite fsum_Fin. unfold of_nat.
  rewrite fdiv_Fin by (apply not_0_INR; lia).
  f_equal. change (map ?f ?l) with (f <$> l). rewrite fmap_replicate, foldl_Rplus_replicate.
  field. apply not_0_INR. lia.
Qed.

Lemma fsqrt_zero : fsqrt (Fin 0) = Fin 0.
Proof. unfold fsqrt. rewrite decide_False by lra. by rewrite sqrt_0. Qed.


Lemma Rsgn_zero : Rsgn 0 = Eq.
Proof. unfold Rsgn. by rewrite !decide_False by lra. Qed.

Lemma Rsgn_pos x : (0 < x)%R → Rsgn x = Gt.
Proof. intros. unfold Rsgn. rewrite decide_False by lra. by rewrite decide_True. Qed.


Lemma fsum_replicate_inf n (c : float64) :
  c = PInf ∨ c = NInf → 0 < n → fsum (replicate n c) = c.
Proof.
  intros Hc Hn. destruct n as [|n]; [lia|]. unfold fsum.
  assert (Hcc : fadd c c = c) by (by destruct Hc as [-> | ->]).
  assert (H0c : fadd (Fin 0) c = c) by (by destruct Hc as [-> | ->]).
  cbn [replicate foldl]. rewrite H0c.
  clear Hn. induction n as [|n IH]; [done|]. cbn [replicate foldl]. by rewrite Hcc.
Qed.

Lemma dropna_replicate n c : isnan c = false → dropna (replicate n c) = replicate n c.
Proof.
  intros Hc. unfold dropna. induction n as [|n IH]; [done|].
  cbn [replicate]. rewrite filter_cons_True by done. by rewrite IH.
Qed.

Lemma mean_replicate_inf n (c : float64) :
  c = PInf ∨ c = NInf → 0 < n → mean (replicate n c) = c.
Proof.
  intros Hc Hn. unfold mean, count, F64.sum.
  rewrite dropna_replicate by (by destruct Hc as [-> | ->]).
  rewrite length_replicate, fsum_replicate_inf by done.
  destruct n as [|n]; [lia|]. unfold of_nat.
  destruct Hc as [-> | ->]; unfold fdiv; by rewrite Rsgn_pos by (apply lt_0_INR; lia).
Qed.






Lemma items_elem_index {K} (s : Series K) p : p ∈ items s → p.1 ∈ index s.
Proof.
  intros Hp. eapply elem_of_sublist; [|apply (fst_zip_sublist (index s) (values s))].
  apply list_elem_of_fmap. by exists p.
Qed.

Lemma detect_anomalies_succeeds (h : heap) (self : TimeAnalyzer) ts daily :
  frame h (self_df self) !! "transaction_date" = Some (TimeCol ts) →
  groupby_sum (frame h (self_df self)) "transaction_date" SPEND = Ok daily →
  (1 ≤ setting self anomaly_detection_window 7)%Z →
  ∃ a, detect_anomalies_body (frame h (self_df self)) self = Ok a.
Proof.
  intros Hts Hd Hw.
  pose proof (groupby_reduce_length _ _ _ _ _ Hd) as Hlen.
  destruct (rolling_min1_Ok _ F64.mean (values daily) Hw) as [rm Hrm].
  destruct (rolling_min1_Ok _ F64.std (values daily) Hw) as [rs Hrs].
  unfold detect_anomalies_body.
  rewrite Hd. cbn [mbind exc_bind]. rewrite Hrm. cbn [mbind exc_bind]. rewrite Hrs.
  cbn [mbind exc_bind].
  rewrite (mapM_exc_Ok _ (λ p : key * float64, day_text p.1)); [by eexists|].
  intros p Hp.
  assert (p ∈ items daily) as Hin by (eapply elem_of_sublist; [exact Hp|apply select_sublist]).
  apply items_elem_index in Hin.
  destruct (daily_keys_are_timestamps _ _ _ _ Hts Hd Hin) as [t ->]. reflexivity.
Qed.

(** A file that has the three required columns, with a word in one cell of
    its quantity column.  Trend metrics, anomaly detection and seasonality
    have nothing to report and return their own blocks, purchase patterns
    and correlations return their defaults; the quantity totals by day of
    week are no numbers, and the whole analysis is given up: an error is
    shown and there is no result. *)
Lemma day_of_week_failure_aborts_the_analysis :
  has_required_columns quantity_text_csv = true
  ∧ (constructed quantity_text_csv None).2 = Ok analyzer_at_0
  ∧ (∃ t, calculate_trend_metrics (heap_after quantity_text_csv) analyzer_at_0
          = IO [] (Ok t))
  ∧ (∃ a, detect_anomalies (heap_after quantity_text_csv) analyzer_at_0 = IO [] (Ok a))
  ∧ (∃ s, analyze_seasonality decompose_too_short (heap_after quantity_text_csv) analyzer_at_0
          = IO [] (Ok s))
  ∧ outcome (analyze_purchase_patterns (heap_after quantity_text_csv) analyzer_at_0)
    = Ok purchase_fallback
  ∧ outcome (analyze_correlations (heap_after quantity_text_csv) analyzer_at_0)
    = Ok correlations_fallback
  ∧ outcome (enhanced_time_analysis decompose_too_short (heap_after quantity_text_csv)
               analyzer_at_0) = Ok None
  ∧ (∃ message, StError ("Error in analysis: " +:+ message)
                ∈ events (enhanced_time_analysis decompose_too_short
                            (heap_after quantity_text_csv) analyzer_at_0))
  ∧ outcome (main to_datetime_iso decompose_too_short default_Config
               {[ 0%nat := quantity_text_csv ]} (Some 0%nat)).2 = Ok None.
Proof.
  split; [vm_compute; reflexivity|]. split; [vm_compute; reflexivity|].
  split; [eexists; vm_compute; reflexivity|].
  split.
  { assert (Hd : ∃ daily,
      groupby_sum (frame (heap_after quantity_text_csv) 0) "transaction_date" SPEND = Ok daily)
      by (eexists; vm_compute; reflexivity).
    destruct Hd as [daily Hd].
    destruct (detect_anomalies_succeeds (heap_after quantity_text_csv) analyzer_at_0
                [Some (mkTimestamp 2023 1 1); Some (mkTimestamp 2023 1 2)] daily)
      as [a Ha]; [vm_compute; reflexivity|exact Hd|vm_compute; discriminate|].
    exists a. unfold detect_anomalies. rewrite Ha. reflexivity. }
  split; [eexists; vm_compute; reflexivity|].
  split; [vm_compute; reflexivity|].
  split; [vm_compute; reflexivity|].
  split; [vm_compute; reflexivity|].
  split; [eexists; vm_compute; apply elem_of_cons; left; reflexivity|].
  vm_compute. reflexivity.
Qed.








(** ** Correlation *)

Lemma fclip_bounded a : fclip a = NaN ∨ in_unit_interval (fclip a).
Proof.
  destruct a as [| | |x]; simpl; [by left|right..].
  - exists 1%R. split; [done|lra].
  - exists (-1)%R. split; [done|lra].
  - eexists. split; [done|].
    split; [apply Rmax_l|]. apply Rmax_lub; [lra|apply Rmin_r].
Qed.

Lemma corr_bounded a b : corr a b = NaN ∨ in_unit_interval (corr a b).
Proof.
  unfold corr. cbv zeta. destruct (_ <? 1)%nat; [by left|]. apply fclip_bounded.
Qed.

Lemma zero_fdiv_l a d : zero_or_missing a → zero_or_missing (fdiv a d).
Proof.
  intros [-> | ->]; [by left|].
  destruct d as [| | |y]; simpl; try (by left); try (by right).
  destruct (decide (y = 0%R)); [rewrite Rsgn_zero; by left|].
  right. f_equal. by field.
Qed.

Lemma zero_fdiv_zero a d : zero_or_missing a → zero_or_missing d → fdiv a d = NaN.
Proof.
  intros [-> | ->] [-> | ->]; try done. apply fdiv_zero_zero.
Qed.

Lemma analyze_correlations_body_inv df c :
  analyze_correlations_body df = Ok c →
  ∃ spend quantity lead,
    numbers df SPEND = Ok spend ∧ numbers df QUANTITY = Ok quantity
    ∧ numbers df LEAD_TIME = Ok lead
    ∧ c = {| spend_quantity := corr spend quantity;
             spend_leadtime := corr spend lead;
             quantity_leadtime := corr quantity lead |}.
Proof.
  unfold analyze_correlations_body.
  intros (s & Hs & H)%exc_bind_Ok. apply exc_bind_Ok in H as (q & Hq & H). cbv zeta in H.
  apply exc_bind_Ok in H as (s' & Hs' & H). apply exc_bind_Ok in H as (l & Hl & H).
  apply exc_bind_Ok in H as (q' & Hq' & H). apply exc_bind_Ok in H as (l' & Hl' & [= <-]).
  rewrite Hs in Hs'. injection Hs' as <-. rewrite Hq in Hq'. injection Hq' as <-.
  rewrite Hl in Hl'. injection Hl' as <-. by exists s, q, l.
Qed.

(** [corr] is the clipped quotient of the covariance and the two variances
    that [numpy.cov] computes from the rows it keeps. *)
Lemma corr_of_moments a b :
  corr a b
  = if (length (kept_rows a b) <? 1)%nat then NaN
    else fclip (fdiv (fdiv (covariance a b) (fsqrt (variance_left a b)))
                     (fsqrt (variance_right a b))).
Proof. reflexivity. Qed.

Lemma fdiv_by_zero a : no_number (fdiv a (Fin 0)).
Proof.
  destruct a as [| | |x]; simpl; rewrite ?Rsgn_zero; [by left|by right; left|by right; right|].
  rewrite decide_True by done. destruct (Rsgn x); simpl; unfold no_number; auto.
Qed.

Lemma no_number_fdiv q d : no_number q → no_number (fdiv q (fsqrt d)).
Proof.
  unfold no_number.
  intros [->|[->| ->]]; [by left|..]; destruct d as [| | |y]; simpl; auto;
    destruct (decide (y < 0)%R); simpl; auto; destruct (Rsgn (sqrt y)); simpl; auto.
Qed.

Lemma no_number_fclip q : no_number q → fclip q = NaN ∨ fclip q = Fin 1 ∨ fclip q = Fin (-1).
Proof. intros [->|[->| ->]]; simpl; auto. Qed.

(** A zero on the diagonal of the covariance matrix: the quotient is a
    division by zero, and never the number 0. *)
Lemma corr_zero_variance a b :
  zero_variance a b →
  (corr a b = NaN ∨ corr a b = Fin 1 ∨ corr a b = Fin (-1))
  ∧ (covariance a b = Fin 0 → corr a b = NaN).
Proof.
  intros Hz. rewrite corr_of_moments. destruct (_ <? 1)%nat; [by split; [left|]|].
  destruct Hz as [-> | ->]; rewrite fsqrt_zero.
  - split.
    + apply no_number_fclip, no_number_fdiv, fdiv_by_zero.
    + intros ->. by rewrite fdiv_zero_zero.
  - split.
    + apply no_number_fclip, fdiv_by_zero.
    + intros ->. rewrite zero_fdiv_zero; [done| |by right].
      apply zero_fdiv_l. by right.
Qed.

(** C3, amended.  [analyze_correlations] always returns three
    coefficients, each of them NaN or a number between -1 and 1.  They are
    the zeros of the [except] branch, after the error message, exactly when
    the computation raised.  Otherwise each is [corr] of its two columns,
    and a zero variance does not make it 0: when the variance computed for
    one of the two columns is zero, the coefficient is NaN, 1 or -1, and it
    is NaN when the computed covariance is zero as well. *)
Theorem correlations_are_bounded_or_missing (h : heap) (self : TimeAnalyzer) :
  ∃ c, outcome (analyze_correlations h self) = Ok c
    ∧ (∀ r, r ∈ [spend_quantity c; spend_leadtime c; quantity_leadtime c] →
            r = NaN ∨ in_unit_interval r)
    ∧ (∀ e, analyze_correlations_body (frame h (self_df self)) = Raise e →
            c = correlations_fallback
            ∧ events (analyze_correlations h self)
              = [Print ("Error in correlation analysis: " +:+ str_exn e)])
    ∧ (∀ spend quantity lead,
         numbers (frame h (self_df self)) SPEND = Ok spend →
         numbers (frame h (self_df self)) QUANTITY = Ok quantity →
         numbers (frame h (self_df self)) LEAD_TIME = Ok lead →
         events (analyze_correlations h self) = []
         ∧ c = {| spend_quantity := corr spend quantity;
                  spend_leadtime := corr spend lead;
                  quantity_leadtime := corr quantity lead |})
    ∧ (∀ a b, zero_variance a b →
         (corr a b = NaN ∨ corr a b = Fin 1 ∨ corr a b = Fin (-1))
         ∧ (covariance a b = Fin 0 → corr a b = NaN)).
Proof.
  eexists. split; [apply outcome_guarded|].
  unfold analyze_correlations.
  destruct (analyze_correlations_body _) as [c|e] eqn:Hbody; cbn [block_of].
  - apply analyze_correlations_body_inv in Hbody as (s & q & l & Hs & Hq & Hl & ->).
    cbn [spend_quantity spend_leadtime quantity_leadtime].
    split; [|split; [done|split; [|apply corr_zero_variance]]].
    + intros r Hr. repeat (apply elem_of_cons in Hr as [->|Hr]); try apply corr_bounded.
      by apply elem_of_nil in Hr.
    + intros s' q' l' Hs' Hq' Hl'.
      rewrite Hs in Hs'. injection Hs' as <-. rewrite Hq in Hq'. injection Hq' as <-.
      rewrite Hl in Hl'. injection Hl' as <-. done.
  - split; [|split; [|split; [|apply corr_zero_variance]]].
    + intros r Hr. right. exists 0%R.
      repeat (apply elem_of_cons in Hr as [->|Hr]); try (split; [done|lra]).
      by apply elem_of_nil in Hr.
    + by intros e' [= <-].
    + intros s q l Hs Hq Hl. exfalso.
      unfold analyze_correlations_body in Hbody.
      rewrite Hs, Hq, Hl in Hbody. done.
Qed.

(** A file with spend 1000 in both of its rows: the variance computed for
    the spend column is zero, and the spend-quantity coefficient is NaN. *)
Lemma flat_spend_has_no_correlation :
  ∃ c, outcome (analyze_correlations (heap_after flat_spend_csv) analyzer_at_0) = Ok c
    ∧ numbers (frame (heap_after flat_spend_csv) 0) SPEND = Ok [Fin 1000; Fin 1000]
    ∧ numbers (frame (heap_after flat_spend_csv) 0) QUANTITY = Ok [Fin 5; Fin 3]
    ∧ zero_variance [Fin 1000; Fin 1000] [Fin 5; Fin 3]
    ∧ spend_quantity c = NaN
    ∧ spend_quantity c ≠ Fin 0
    ∧ ¬ in_unit_interval (spend_quantity c).
Proof.
  eexists. split; [apply outcome_guarded|].
  assert (Hbody : analyze_correlations_body (frame (heap_after flat_spend_csv) 0)
                  = Ok {| spend_quantity := corr [Fin 1000; Fin 1000] [Fin 5; Fin 3];
                          spend_leadtime := corr [Fin 1000; Fin 1000] [Fin 7; Fin 9];
                          quantity_leadtime := corr [Fin 5; Fin 3] [Fin 7; Fin 9] |})
    by reflexivity.
  cbn [self_df analyzer_at_0]. rewrite Hbody. cbn [block_of spend_quantity].
  assert (Hrows : kept_rows [Fin 1000; Fin 1000] [Fin 5; Fin 3]
                  = [(Fin 1000, Fin 5); (Fin 1000, Fin 3)]).
  { unfold kept_rows. cbn. rewrite !decide_True by done. reflexivity. }
  assert (Hzero : zero_variance [Fin 1000; Fin 1000] [Fin 5; Fin 3]).
  { left. unfold variance_left, computed_cov. rewrite Hrows.
    unfold codev, fsum, of_nat, of_Z. cbn. change (Z.of_nat 2 - 1)%Z with 1%Z.
    rewrite !decide_False by lra. cbn. f_equal. field. }
  assert (Hcov : covariance [Fin 1000; Fin 1000] [Fin 5; Fin 3] = Fin 0).
  { unfold covariance, computed_cov. rewrite Hrows.
    unfold codev, fsum, of_nat, of_Z. cbn. change (Z.of_nat 2 - 1)%Z with 1%Z.
    rewrite !decide_False by lra. cbn. f_equal. field. }
  assert (Hnan : corr [Fin 1000; Fin 1000] [Fin 5; Fin 3] = NaN)
    by (by apply corr_zero_variance).
  rewrite Hnan. split; [reflexivity|]. split; [reflexivity|]. split; [exact Hzero|].
  split; [done|]. split; [done|]. by intros (x & Hx & _).
Qed.

(** ** Seasonal strength *)

Lemma dropna_idemp l : dropna (dropna l) = dropna l.
Proof.
  unfold dropna. induction l as [|a l IH]; [done|].
  destruct (isnan a) eqn:Ha.
  - by rewrite filter_cons_False by (by rewrite Ha).
  - rewrite filter_cons_True by done. rewrite filter_cons_True by done. by rewrite IH.
Qed.

Lemma dropna_app l1 l2 : dropna (l1 ++ l2) = dropna l1 ++ dropna l2.
Proof. apply filter_app. Qed.

Lemma dropna_replicate_NaN n : dropna (replicate n NaN) = [].
Proof.
  unfold dropna. induction n as [|n IH]; [done|].
  cbn [replicate]. by rewrite filter_cons_False by (by intros ?).
Qed.

(** The reductions skip the missing values. *)
Lemma var_dropna l : var (dropna l) = var l.
Proof. unfold var, ssqdm, mean, F64.sum, count. by rewrite !dropna_idemp. Qed.

(** With no variance in either component the quotient is 0/0. *)
Lemma seasonal_strength_undefined (seasonal residual : Series key) :
  var (values seasonal) = Fin 0 → var (values residual) = Fin 0 →
  seasonal_strength_of seasonal residual = NaN.
Proof.
  intros Hs Hr. unfold seasonal_strength_of. cbv zeta. rewrite Hs, Hr.
  assert (Hsum : fadd (Fin 0) (Fin 0) = Fin 0) by (simpl; f_equal; lra).
  rewrite Hsum, fdiv_zero_zero. done.
Qed.

Lemma var_flat_seasonal : var (values flat_seasonal) = Fin 0.
Proof. apply (var_replicate_Fin 24). lia. Qed.

Lemma var_flat_residual : var (values flat_residual) = Fin 0.
Proof.
  rewrite <- var_dropna. cbn [values flat_residual].
  rewrite !dropna_app, dropna_replicate_NaN, (dropna_replicate 12) by done.
  cbn [app]. rewrite app_nil_r. apply var_replicate_Fin. lia.
Qed.

(** Among equal values the first label is the extreme one. *)
Lemma first_best_flat {K} (better : float64 → float64 → bool) (k : K) x l :
  better (Fin x) (Fin x) = false →
  (∀ p, p ∈ l → p.2 = Fin x) →
  first_best better None ((k, Fin x) :: l) = Some (k, Fin x).
Proof.
  intros Hb Hl. cbn [first_best isnan].
  induction l as [|[k' v] l IH]; [done|].
  assert (Hv : v = Fin x) by (apply (Hl (k', v)), elem_of_cons; by left).
  subst v. cbn [first_best isnan]. rewrite Hb. apply IH. intros p Hp. apply Hl. apply elem_of_cons. by right.
Qed.

Section Strength.
Variable seasonal_decompose : Series key → exc Decomposition.

Lemma analyze_seasonality_decomposed (h : heap) (self : TimeAnalyzer) monthly d months peak trough :
  groupby_sum (frame h (self_df self)) "month_year" SPEND = Ok monthly →
  (setting self min_months_for_seasonality 12 <= len monthly)%Z →
  seasonal_decompose monthly = Ok d →
  mapM str_5_7 (index (seasonal d)) = Ok months →
  idxmax (groupby_agg F64.mean months (values (seasonal d))) = Ok peak →
  idxmin (groupby_agg F64.mean months (values (seasonal d))) = Ok trough →
  analyze_seasonality seasonal_decompose h self =
  IO [Decompose (values monthly)]
     (Ok (Seasonal (seasonal_strength_of (seasonal d) (resid d)) peak trough
            (to_dict (groupby_agg F64.mean months (values (seasonal d))))
            (to_dict (seasonal d), to_dict (trend d), to_dict (resid d)))).
Proof.
  intros Hm Hlen Hd Hmonths Hpeak Htrough.
  unfold analyze_seasonality, analyze_seasonality_body. rewrite Hm.
  cbn [lift mbind io_bind events outcome app]. cbv zeta.
  apply Z.leb_le in Hlen. rewrite Hlen, Hd.
  cbn [emit lift mbind io_bind events outcome app].
  rewrite Hmonths. cbn [emit lift mbind io_bind events outcome app].
  rewrite Hpeak. cbn [emit lift mbind io_bind events outcome app].
  rewrite Htrough. reflexivity.
Qed.

(** C8, amended.  When the seasonal and the residual component of the
    decomposition both have zero variance, the seasonal strength is the
    quotient 0/0: it is NaN, not 0.  No exception is raised: with a peak and
    a trough month found, [analyze_seasonality] returns the block with
    ['has_seasonality': True] whose strength is NaN, after one call of the
    decomposition and without printing. *)
Theorem zero_variance_strength_is_undefined
    (h : heap) (self : TimeAnalyzer) (monthly : Series key) (d : Decomposition) :
  groupby_sum (frame h (self_df self)) "month_year" SPEND = Ok monthly →
  (setting self min_months_for_seasonality 12 <= len monthly)%Z →
  seasonal_decompose monthly = Ok d →
  var (values (seasonal d)) = Fin 0 →
  var (values (resid d)) = Fin 0 →
  seasonal_strength_of (seasonal d) (resid d) = NaN
  ∧ ∀ months peak trough,
      mapM str_5_7 (index (seasonal d)) = Ok months →
      idxmax (groupby_agg F64.mean months (values (seasonal d))) = Ok peak →
      idxmin (groupby_agg F64.mean months (values (seasonal d))) = Ok trough →
      analyze_seasonality seasonal_decompose h self =
      IO [Decompose (values monthly)]
         (Ok (Seasonal NaN peak trough
                (to_dict (groupby_agg F64.mean months (values (seasonal d))))
                (to_dict (seasonal d), to_dict (trend d), to_dict (resid d)))).
Proof.
  intros Hm Hlen Hd Hs Hr.
  pose proof (seasonal_strength_undefined _ _ Hs Hr) as Hnan.
  split; [done|]. intros months peak trough Hmonths Hpeak Htrough.
  rewrite <- Hnan. by apply analyze_seasonality_decomposed.
Qed.

End Strength.

(** The cells of a group of a column that holds one value throughout. *)
Lemma group_rows_flat {K} `{EqDecision K} (ks : list (option K)) m (v : float64) k :
  length ks ≤ m →
  group_rows ks (replicate m v) k = replicate (length (filter (λ o, o = Some k) ks)) v.
Proof.
  unfold group_rows. revert m. induction ks as [|o ks IH]; intros m Hm; [done|].
  destruct m as [|m]; [simpl in Hm; lia|]. simpl in Hm.
  change (zip (o :: ks) (replicate (S m) v)) with ((o, v) :: zip ks (replicate m v)).
  destruct (decide (o = Some k)) as [Ho|Ho].
  - rewrite filter_cons_True by done. rewrite (filter_cons_True _ o) by done.
    cbn. f_equal. apply IH. lia.
  - rewrite filter_cons_False by done. rewrite (filter_cons_False _ o) by done.
    apply IH. lia.
Qed.

Lemma groupby_mean_flat (ks : list (option key)) m x k :
  length ks ≤ m → k ∈ group_keys ks →
  mean (group_rows ks (replicate m (Fin x)) k) = Fin x.
Proof.
  intros Hm Hk%group_keys_elem. rewrite group_rows_flat by done.
  apply mean_replicate_Fin.
  assert (Hin : Some k ∈ filter (λ o, o = Some k) ks) by (by apply list_elem_of_filter).
  destruct (filter _ ks); [by apply elem_of_nil in Hin|simpl; lia].
Qed.

Lemma flat_factors :
  ∃ months, mapM str_5_7 (index flat_seasonal) = Ok months
    ∧ ∃ l, items (groupby_agg F64.mean months (values flat_seasonal)) = (KStr "01", Fin 0) :: l
         ∧ ∀ p, p ∈ l → p.2 = Fin 0.
Proof.
  assert (Hmonths : ∃ months, mapM str_5_7 (index flat_seasonal) = Ok months
                    ∧ length months = 24
                    ∧ ∃ ks', group_keys months = KStr "01" :: ks').
  { eexists. split; [vm_compute; reflexivity|]. split; [reflexivity|].
    eexists. vm_compute. reflexivity. }
  destruct Hmonths as (months & Hmonths & Hlen & ks' & Hk).
  exists months. split; [done|].
  assert (Hv : ∀ k, k ∈ group_keys months →
                 mean (group_rows months (values flat_seasonal) k) = Fin 0).
  { intros k Hk'. apply groupby_mean_flat; [lia|done]. }
  unfold groupby_agg, items. cbv zeta. cbn [index values].
  rewrite Hk in *. cbn [map]. 
  change (zip (?a :: ?l) (?b :: ?l')) with ((a, b) :: zip l l').
  rewrite (Hv (KStr "01")) by (apply elem_of_cons; by left).
  eexists. split; [reflexivity|].
  intros [k v] Hp. apply elem_of_zip_r in Hp.
  apply list_elem_of_fmap in Hp as (k' & -> & Hk'). cbn.
  apply Hv, elem_of_cons. by right.
Qed.

Lemma zero_variance_strength_witness :
  ∃ monthly months,
    groupby_sum flat_months_csv "month_year" SPEND = Ok monthly
    ∧ mapM str_5_7 (index flat_seasonal) = Ok months
    ∧ seasonal_strength_of flat_seasonal flat_residual = NaN
    ∧ analyze_seasonality decompose_flat {[ 0 := flat_months_csv ]} analyzer_at_0 =
      IO [Decompose (values monthly)]
         (Ok (Seasonal NaN (KStr "01") (KStr "01")
                (to_dict (groupby_agg F64.mean months (values flat_seasonal)))
                (to_dict flat_seasonal, to_dict flat_trend, to_dict flat_residual))).
Proof.
  destruct flat_factors as (months & Hmonths & l & Hitems & Hl).
  assert (Hm : ∃ monthly, groupby_sum flat_months_csv "month_year" SPEND = Ok monthly
                          ∧ len monthly = 24%Z)
    by (eexists; split; [vm_compute; reflexivity|reflexivity]).
  destruct Hm as (monthly & Hm & Hlen).
  exists monthly, months. split; [exact Hm|]. split; [exact Hmonths|].
  destruct (zero_variance_strength_is_undefined decompose_flat {[ 0 := flat_months_csv ]}
              analyzer_at_0 monthly
              {| seasonal := flat_seasonal; trend := flat_trend; resid := flat_residual |})
    as [Hnan Hrun].
  - exact Hm.
  - rewrite Hlen. cbn. lia.
  - reflexivity.
  - exact var_flat_seasonal.
  - exact var_flat_residual.
  - split; [exact Hnan|]. apply Hrun.
    + exact Hmonths.
    + unfold idxmax. cbn [seasonal]. rewrite Hitems, first_best_flat; [done| |done].
      apply fgt_Fin_irrefl.
    + unfold idxmin. cbn [seasonal]. rewrite Hitems, first_best_flat; [done| |done].
      apply fgt_Fin_irrefl.
Defined.

(** The components of a flat series: both variances are zero and the
    strength is NaN, not 0. *)
Lemma flat_components_have_no_strength :
  var (values flat_seasonal) = Fin 0
  ∧ var (values flat_residual) = Fin 0
  ∧ seasonal_strength_of flat_seasonal flat_residual = NaN
  ∧ seasonal_strength_of flat_seasonal flat_residual ≠ Fin 0.
Proof.
  pose proof (seasonal_strength_undefined _ _ var_flat_seasonal var_flat_residual) as Hnan.
  rewrite Hnan. repeat split; [apply var_flat_seasonal|apply var_flat_residual|done].
Qed.

(** * Further properties of the code *)

(** ** [main] and the constructor on input they reject *)

Section Main_facts.
Variable to_datetime : column → exc (list (option Timestamp)).
Variable seasonal_decompose : Series key → exc Decomposition.

(** The constructor as one step on the heap. *)
Lemma TimeAnalyzer_init_parsed (h : heap) (df : loc) config ts :
  (getitem (frame h df) "transaction_date" ≫= to_datetime) = Ok ts →
  run (TimeAnalyzer_init to_datetime df config) h =
  (<[df := decorated ts (frame h df)]> h, Ok (mkTimeAnalyzer df config)).
Proof.
  intros Hts. unfold TimeAnalyzer_init. cbv zeta. rewrite run_bind, run_assign. cbn [self_df].
  destruct (getitem (frame h df) "transaction_date") as [col|e] eqn:Hcol; [|done].
  cbn [mbind exc_bind] in Hts |- *. rewrite Hts. cbn [mbind exc_bind mret exc_ret].
  rewrite run_bind.
  rewrite (run_prepare_data _ _ ts)
    by (cbn [self_df]; rewrite frame_setitem; apply transaction_dates_parsed).
  cbn [self_df]. rewrite frame_setitem. cbn [run mret heapM_ret].
  f_equal. unfold setitem. by rewrite insert_insert_eq.
Qed.

Lemma TimeAnalyzer_init_rejected (h : heap) (df : loc) config e :
  (getitem (frame h df) "transaction_date" ≫= to_datetime) = Raise e →
  run (TimeAnalyzer_init to_datetime df config) h = (h, Raise e).
Proof.
  intros Hts. unfold TimeAnalyzer_init. cbv zeta. rewrite run_bind, run_assign. cbn [self_df].
  destruct (getitem (frame h df) "transaction_date") as [col|e'] eqn:Hcol.
  - cbn [mbind exc_bind] in Hts |- *. by rewrite Hts.
  - cbn [mbind exc_bind] in Hts |- *. by injection Hts as ->.
Qed.

(** X1.  When the uploaded file has the three required columns but
    [pd.to_datetime] rejects its date column, [main] shows the error
    "Error processing file: ..." with the text of the exception, then the
    hint on the expected format, and returns without a result; the uploaded
    DataFrame is left as it was read. *)
Theorem unparseable_dates_stop_main (config : Config) (h : heap) (df : loc) (e : exn) :
  has_required_columns (frame h df) = true →
  (getitem (frame h df) "transaction_date" ≫= to_datetime) = Raise e →
  main to_datetime seasonal_decompose config h (Some df) =
  (h, IO [StError ("Error processing file: " +:+ str_exn e); StInfo processing_hint] (Ok None)).
Proof.
  intros Hreq Hts. unfold main. rewrite Hreq.
  by rewrite (TimeAnalyzer_init_rejected _ _ _ e).
Qed.

(** X3.  Given that [pd.to_datetime] returns a datetime column unchanged,
    constructing a second analyzer on a DataFrame that a first one has
    decorated succeeds and changes nothing. *)
Theorem constructor_is_idempotent (h h' : heap) (df : loc) config self :
  (∀ ts, to_datetime (TimeCol ts) = Ok ts) →
  run (TimeAnalyzer_init to_datetime df config) h = (h', Ok self) →
  run (TimeAnalyzer_init to_datetime df config) h' = (h', Ok self).
Proof.
  intros Hid Hrun.
  destruct (getitem (frame h df) "transaction_date" ≫= to_datetime) as [ts|e] eqn:Hts.
  - rewrite (TimeAnalyzer_init_parsed _ _ _ ts Hts) in Hrun. injection Hrun as <- <-.
    assert (Hframe : frame (<[df := decorated ts (frame h df)]> h) df = decorated ts (frame h df)).
    { unfold frame at 1. by rewrite lookup_insert_eq. }
    rewrite (TimeAnalyzer_init_parsed _ _ _ ts).
    + rewrite Hframe, insert_insert_eq. f_equal. f_equal.
      unfold decorated. apply map_eq. intros c.
      destruct (decide (c = "day_of_week")) as [->|];
        [by rewrite !lookup_insert_eq|].
      destruct (decide (c = "month_year")) as [->|];
        [by rewrite !(lookup_insert_ne _ "day_of_week"), !lookup_insert_eq by done|].
      destruct (decide (c = "quarter")) as [->|];
        [by rewrite !(lookup_insert_ne _ "day_of_week"), !(lookup_insert_ne _ "month_year"),
              !lookup_insert_eq by done|].
      destruct (decide (c = "month")) as [->|];
        [by rewrite !(lookup_insert_ne _ "day_of_week"), !(lookup_insert_ne _ "month_year"),
              !(lookup_insert_ne _ "quarter"), !lookup_insert_eq by done|].
      destruct (decide (c = "year")) as [->|];
        [by rewrite !(lookup_insert_ne _ "day_of_week"), !(lookup_insert_ne _ "month_year"),
              !(lookup_insert_ne _ "quarter"), !(lookup_insert_ne _ "month"),
              !lookup_insert_eq by done|].
      destruct (decide (c = "transaction_date")) as [->|];
        [by rewrite !(lookup_insert_ne _ "day_of_week"), !(lookup_insert_ne _ "month_year"),
              !(lookup_insert_ne _ "quarter"), !(lookup_insert_ne _ "month"),
              !(lookup_insert_ne _ "year"), !lookup_insert_eq by done|].
      by rewrite !lookup_insert_ne by done.
    + rewrite Hframe. unfold decorated, getitem.
      rewrite !lookup_insert_ne by done. rewrite lookup_insert_eq. apply Hid.
  - by rewrite (TimeAnalyzer_init_rejected _ _ _ e Hts) in Hrun.
Qed.

End Main_facts.

Lemma unparseable_dates_witness :
  main to_datetime_iso decompose_too_short default_Config
       {[ 0%nat := csv_with_bad_date ]} (Some 0%nat) =
  ({[ 0%nat := csv_with_bad_date ]},
   IO [StError "Error processing file: Unknown datetime string format, unable to parse: 01/02/2023";
       StInfo processing_hint] (Ok None)).
Proof.
  apply (unparseable_dates_stop_main to_datetime_iso decompose_too_short default_Config
           {[ 0%nat := csv_with_bad_date ]} 0%nat
           (ValueError "Unknown datetime string format, unable to parse: 01/02/2023")).
  - vm_compute. reflexivity.
  - vm_compute. reflexivity.
Defined.

Lemma constructor_is_idempotent_witness :
  run (TimeAnalyzer_init to_datetime_iso 0%nat None) (heap_after welcome_csv)
  = (heap_after welcome_csv, Ok analyzer_at_0).
Proof.
  apply (constructor_is_idempotent to_datetime_iso {[ 0%nat := welcome_csv ]}).
  - intros ts. reflexivity.
  - vm_compute. reflexivity.
Defined.

(** ** The [except] branches of the methods *)

Lemma rolling_rejects_window w mp stat xs :
  (w < Z.of_nat mp)%Z → ∃ msg, rolling w (Some mp) stat xs = Raise (ValueError msg).
Proof.
  intros Hw. unfold rolling. destruct (_ <? 0)%Z; [eexists; reflexivity|].
  cbv zeta. change (default (Z.to_nat w) (Some mp)) with mp. destruct (w <? Z.of_nat mp)%Z eqn:Hmp; [eexists; reflexivity|].
  apply Z.ltb_ge in Hmp. lia.
Qed.

(** X4.  With a configured anomaly window below 1 the rolling statistics
    raise [ValueError] (the window is negative, or smaller than
    [min_periods=1]): [detect_anomalies] prints the error and returns the
    empty block, whatever the data. *)
Theorem window_below_one_disables_detection
    (h : heap) (self : TimeAnalyzer) (daily : Series key) :
  groupby_sum (frame h (self_df self)) "transaction_date" SPEND = Ok daily →
  (setting self anomaly_detection_window 7 < 1)%Z →
  ∃ msg, detect_anomalies h self =
         IO [Print ("Error in anomaly detection: " +:+ msg)] (Ok anomalies_fallback).
Proof.
  intros Hd Hw. unfold detect_anomalies, detect_anomalies_body. rewrite Hd.
  cbn [mbind exc_bind].
  destruct (rolling_rejects_window (setting self anomaly_detection_window 7%Z) 1
              F64.mean (values daily)) as [msg Hmsg]; [done|].
  rewrite Hmsg. by exists msg.
Qed.

Lemma window_below_one_witness :
  ∃ msg, detect_anomalies (heap_after welcome_csv) (mkTimeAnalyzer 0 (Some (config_with_window 0))) =
         IO [Print ("Error in anomaly detection: " +:+ msg)] (Ok anomalies_fallback).
Proof.
  eapply window_below_one_disables_detection.
  - vm_compute. reflexivity.
  - reflexivity.
Defined.

(** X5.  When the optional column 'Lead Time (Days)' is absent,
    [analyze_correlations] prints the [KeyError] and returns 0.0 for all
    three coefficients, the spend-quantity one included although both of its
    columns are there. *)
Theorem missing_lead_time_zeroes_every_coefficient
    (h : heap) (self : TimeAnalyzer) (spend quantity : list float64) :
  numbers (frame h (self_df self)) SPEND = Ok spend →
  numbers (frame h (self_df self)) QUANTITY = Ok quantity →
  frame h (self_df self) !! LEAD_TIME = None →
  analyze_correlations h self =
  IO [Print "Error in correlation analysis: 'Lead Time (Days)'"] (Ok correlations_fallback).
Proof.
  intros Hs Hq Hl. unfold analyze_correlations, analyze_correlations_body.
  assert (Hlead : numbers (frame h (self_df self)) LEAD_TIME = Raise (KeyError LEAD_TIME))
    by (unfold numbers, getitem; by rewrite Hl).
  rewrite Hs, Hq, Hlead. reflexivity.
Qed.

Lemma missing_lead_time_witness :
  analyze_correlations (heap_after welcome_csv) analyzer_at_0 =
  IO [Print "Error in correlation analysis: 'Lead Time (Days)'"] (Ok correlations_fallback).
Proof.
  eapply missing_lead_time_zeroes_every_coefficient; vm_compute; reflexivity.
Defined.

(** X6.  When the monthly series is long enough for the gate but
    [seasonal_decompose] raises, [analyze_seasonality] calls it once, prints
    "Error in seasonal analysis: ..." and returns the block with
    ['has_seasonality': False] carrying the same text. *)
Theorem decomposition_failure_is_reported
    (seasonal_decompose : Series key → exc Decomposition)
    (h : heap) (self : TimeAnalyzer) (monthly : Series key) (e : exn) :
  groupby_sum (frame h (self_df self)) "month_year" SPEND = Ok monthly →
  (setting self min_months_for_seasonality 12 <= len monthly)%Z →
  seasonal_decompose monthly = Raise e →
  analyze_seasonality seasonal_decompose h self =
  IO [Decompose (values monthly); Print ("Error in seasonal analysis: " +:+ str_exn e)]
     (Ok (NotSeasonal ("Error in seasonal analysis: " +:+ str_exn e))).
Proof.
  intros Hm Hlen Hd. unfold analyze_seasonality, analyze_seasonality_body. rewrite Hm.
  cbn [lift mbind io_bind events outcome app]. cbv zeta.
  apply Z.leb_le in Hlen. rewrite Hlen, Hd. reflexivity.
Qed.

Lemma decomposition_failure_witness :
  ∃ monthly,
    groupby_sum flat_months_csv "month_year" SPEND = Ok monthly
    ∧ analyze_seasonality decompose_too_short {[ 0%nat := flat_months_csv ]} analyzer_at_0 =
      IO [Decompose (values monthly);
          Print "Error in seasonal analysis: x must have 2 complete cycles requires 24 observations."]
         (Ok (NotSeasonal
           "Error in seasonal analysis: x must have 2 complete cycles requires 24 observations.")).
Proof.
  assert (Hm : ∃ monthly, groupby_sum flat_months_csv "month_year" SPEND = Ok monthly
                          ∧ len monthly = 24%Z)
    by (eexists; split; [vm_compute; reflexivity|reflexivity]).
  destruct Hm as (monthly & Hm & Hlen). exists monthly. split; [exact Hm|].
  apply (decomposition_failure_is_reported decompose_too_short {[ 0%nat := flat_months_csv ]}
           analyzer_at_0 monthly
           (ValueError "x must have 2 complete cycles requires 24 observations.")).
  - exact Hm.
  - rewrite Hlen. cbn. lia.
  - reflexivity.
Defined.

(** ** Trend metrics on a short history *)

Lemma mean_all_nan l : Forall (λ a, a = NaN) l → mean l = NaN.
Proof.
  intros Hl. apply mean_none. unfold count, dropna.
  induction Hl as [|a l -> _ IH]; [done|].
  by rewrite filter_cons_False by (by intros ?).
Qed.

Lemma fsub_nan_l a : fsub NaN a = NaN.
Proof. done. Qed.

(** X7.  With at most two months of data the acceleration is undefined:
    [calculate_trend_metrics] returns normally with [is_accelerating] False
    and an [acceleration_rate] of NaN.  With at most one month the mean
    change is NaN as well, so the direction reads 'Downward' and the
    strength is NaN. *)
Theorem short_history_has_no_acceleration
    (h : heap) (self : TimeAnalyzer) (monthly : Series key) :
  groupby_sum (frame h (self_df self)) "month_year" SPEND = Ok monthly →
  length (values monthly) ≤ 2 →
  ∃ t, calculate_trend_metrics h self = IO [] (Ok t)
    ∧ is_accelerating t = false
    ∧ acceleration_rate t = NaN
    ∧ (length (values monthly) ≤ 1 → direction t = "Downward" ∧ strength t = NaN).
Proof.
  intros Hm Hlen. unfold calculate_trend_metrics, calculate_trend_metrics_body. rewrite Hm.
  cbn [mbind exc_bind mret exc_ret]. cbv zeta. eexists. split; [reflexivity|].
  cbn [is_accelerating acceleration_rate direction strength].
  assert (Hacc : mean (pct_change (pct_change (values monthly))) = NaN).
  { apply mean_all_nan.
    destruct (values monthly) as [|a [|b [|c l]]]; [by constructor| | |simpl in Hlen; lia].
    - unfold pct_change. cbn [zip_with]. rewrite !fdiv_nan_r. by repeat constructor.
    - unfold pct_change. cbn [zip_with]. rewrite !fdiv_nan_r, ?fsub_nan_l, ?fdiv_nan_r.
      by repeat constructor. }
  rewrite Hacc. split; [done|]. split; [done|]. intros Hone.
  assert (Hch : mean (pct_change (values monthly)) = NaN).
  { apply mean_all_nan.
    destruct (values monthly) as [|a [|b l]]; [by constructor| |simpl in Hone; lia].
    unfold pct_change. cbn [zip_with]. rewrite !fdiv_nan_r. by repeat constructor. }
  rewrite Hch. done.
Qed.

Lemma short_history_witness :
  ∃ t, calculate_trend_metrics (heap_after two_months_csv) analyzer_at_0 = IO [] (Ok t)
    ∧ is_accelerating t = false
    ∧ acceleration_rate t = NaN.
Proof.
  assert (Hm : ∃ monthly, groupby_sum (frame (heap_after two_months_csv) 0) "month_year" SPEND
                          = Ok monthly ∧ length (values monthly) = 2)
    by (eexists; split; [vm_compute; reflexivity|reflexivity]).
  destruct Hm as (monthly & Hm & Hlen).
  destruct (short_history_has_no_acceleration (heap_after two_months_csv) analyzer_at_0 monthly)
    as (t & Ht & Hacc & Hrate & _); [exact Hm|lia|].
  exists t. done.
Defined.

(** ** Growth from one period to the next *)

Lemma pct_change_lookup xs i a b :
  xs !! i = Some a → xs !! S i = Some b →
  pct_change xs !! S i = Some (fsub (fdiv b a) (Fin 1)).
Proof.
  intros Ha Hb. unfold pct_change. rewrite lookup_zip_with.
  change ((NaN :: xs) !! S i) with (xs !! i). by rewrite Ha, Hb.
Qed.

Lemma fst_zip_eq {A B} (l : list A) (k : list B) :
  length l = length k → (zip l k).*1 = l.
Proof. intros Hlen. apply fst_zip. lia. Qed.

Lemma to_dict_keys idx vs :
  length idx = length vs → (to_dict (mkSeries idx vs)).*1 = map str_key idx.
Proof.
  intros Hlen. unfold to_dict, items. cbn [index values].
  rewrite <- list_fmap_compose.
  rewrite <- (fst_zip_eq idx vs Hlen) at 2.
  change (map str_key ?l) with (str_key <$> l). by rewrite <- list_fmap_compose.
Qed.

Lemma growth_lookup xs i x y :
  xs !! i = Some (Fin x) → xs !! S i = Some (Fin y) →
  ∃ g, times100 (pct_change xs) !! S i = Some g
    ∧ (x ≠ 0%R → isnan g = false)
    ∧ (x ≠ 0%R → y = x → g = Fin 0)
    ∧ (x ≠ 0%R → y = 0%R → g = Fin (-100))
    ∧ ((0 < x)%R → (x <= y)%R → fgt (Fin 0) g = false)
    ∧ ((0 < x)%R → (y <= x)%R → fgt g (Fin 0) = false)
    ∧ (x = 0%R → (0 < y)%R → g = PInf)
    ∧ (x = 0%R → (y < 0)%R → g = NInf)
    ∧ (x = 0%R → y = 0%R → g = NaN).
Proof.
  intros Hx Hy. eexists. split.
  { unfold times100. change (map ?f ?l) with (f <$> l).
    by rewrite list_lookup_fmap, (pct_change_lookup _ _ _ _ Hx Hy). }
  cbn [fdiv]. repeat apply conj.
  - intros Hx0. by rewrite decide_False by done.
  - intros Hx0 ->. rewrite decide_False by done. cbn. f_equal. by field.
  - intros Hx0 ->. rewrite decide_False by done. cbn. f_equal. by field.
  - intros Hpos Hle. rewrite decide_False by lra. cbn. apply bool_decide_eq_false.
    assert (1 <= y / x)%R by (apply (Rmult_le_reg_r x); [done|]; field_simplify; lra).
    lra.
  - intros Hpos Hle. rewrite decide_False by lra. cbn. apply bool_decide_eq_false.
    assert (y / x <= 1)%R by (apply (Rmult_le_reg_r x); [done|]; field_simplify; lra).
    lra.
  - intros -> Hpos. rewrite decide_True by done. rewrite Rsgn_pos by done.
    cbn. by rewrite Rsgn_pos by lra.
  - intros -> Hneg. rewrite decide_True by done.
    unfold Rsgn at 1. rewrite decide_True by done. cbn. by rewrite Rsgn_pos by lra.
  - intros -> ->. rewrite decide_True by done. by rewrite Rsgn_zero.
Qed.

Lemma to_dict_value s i v :
  length (index s) = length (values s) → values s !! i = Some v →
  (to_dict s).*2 !! i = Some v.
Proof.
  intros Hlen Hv.
  destruct (lookup_lt_is_Some_2 (index s) i) as [k Hk].
  { rewrite Hlen. by apply lookup_lt_Some in Hv. }
  by rewrite list_lookup_fmap, (to_dict_lookup _ _ _ _ Hk Hv).
Qed.

(** X8.  In the yearly and the monthly growth table, take the value [g]
    of a period with spend [y] that follows a period with spend [x].  When
    [x] is not zero, [g] is a value, not NaN: 0 when the spend did not
    change, -100 when it fell to zero, never below zero when a positive
    spend did not fall and never above zero when it did not rise.  After
    a period of zero spend nothing is raised: [g] is +inf for a positive
    [y], -inf for a negative one, and NaN when [y] is zero too.  The
    monthly table carries the labels of the months in their order. *)
Theorem growth_between_consecutive_periods
    (seasonal_decompose : Series key → exc Decomposition)
    (h : heap) (self : TimeAnalyzer) (r : AnalysisResult) :
  outcome (enhanced_time_analysis seasonal_decompose h self) = Ok (Some r) →
  ∃ yearly monthly,
    groupby_sum (frame h (self_df self)) "year" SPEND = Ok yearly
    ∧ groupby_sum (frame h (self_df self)) "month_year" SPEND = Ok monthly
    ∧ (monthly_growth r).*1 = map str_key (index monthly)
    ∧ ∀ spend growth, (spend, growth) ∈ [(yearly, yearly_growth r); (monthly, monthly_growth r)] →
        ∀ i x y,
          values spend !! i = Some (Fin x) →
          values spend !! S i = Some (Fin y) →
          ∃ g, growth.*2 !! S i = Some g
            ∧ (x ≠ 0%R → isnan g = false)
            ∧ (x ≠ 0%R → y = x → g = Fin 0)
            ∧ (x ≠ 0%R → y = 0%R → g = Fin (-100))
            ∧ ((0 < x)%R → (x <= y)%R → fgt (Fin 0) g = false)
            ∧ ((0 < x)%R → (y <= x)%R → fgt g (Fin 0) = false)
            ∧ (x = 0%R → (0 < y)%R → g = PInf)
            ∧ (x = 0%R → (y < 0)%R → g = NInf)
            ∧ (x = 0%R → y = 0%R → g = NaN).
Proof.
  rewrite enhanced_time_analysis_outcome.
  destruct (basic_analysis _) as [b|e] eqn:Hb; [|done]. intros [= <-].
  destruct (basic_analysis_inv _ _ Hb) as (Hy & Hyg & _ & _ & Hm & Hmg & _).
  pose proof (groupby_reduce_length _ _ _ _ _ Hy) as Hyl.
  pose proof (groupby_reduce_length _ _ _ _ _ Hm) as Hml.
  assert (Hpct : ∀ xs, length (times100 (pct_change xs)) = length xs).
  { intros xs. unfold times100. by rewrite length_map, pct_change_length. }
  exists (yearly_spend b), (monthly_spend b). split; [done|]. split; [done|].
  unfold analysis_result; cbn [yearly_growth monthly_growth].
  split.
  { apply to_dict_keys. cbn [index values]. by rewrite Hmg, Hpct. }
  intros spend growth Hin i x y Hx Hxy.
  destruct (growth_lookup _ _ _ _ Hx Hxy) as (g & Hg & Hcases).
  exists g. split; [|exact Hcases].
  apply elem_of_cons in Hin as [[= -> ->]|Hin];
    [|apply list_elem_of_singleton in Hin as [= -> ->]].
  - apply to_dict_value; cbn [index values]; [by rewrite Hyg, Hpct|by rewrite Hyg].
  - apply to_dict_value; cbn [index values]; [by rewrite Hmg, Hpct|by rewrite Hmg].
Qed.

Lemma two_months_csv_is_analysed :
  ∃ r, outcome (enhanced_time_analysis decompose_too_short (heap_after two_months_csv) analyzer_at_0)
       = Ok (Some r).
Proof. eapply enhanced_time_analysis_succeeds. vm_compute. reflexivity. Qed.

Lemma growth_witness :
  ∃ r g, outcome (enhanced_time_analysis decompose_too_short (heap_after two_months_csv)
                    analyzer_at_0) = Ok (Some r)
    ∧ (monthly_growth r).*1 = ["2023-01"; "2023-02"]
    ∧ (monthly_growth r).*2 !! 1 = Some g
    ∧ isnan g = false
    ∧ fgt (Fin 0) g = false.
Proof.
  destruct two_months_csv_is_analysed as [r Hr]. exists r.
  destruct (growth_between_consecutive_periods _ _ _ _ Hr)
    as (yearly & monthly & _ & Hm & Hkeys & Hg).
  assert (Hm' : ∃ m, groupby_sum (frame (heap_after two_months_csv) 0) "month_year" SPEND = Ok m
                 ∧ map str_key (index m) = ["2023-01"; "2023-02"]
                 ∧ values m !! 0 = Some (Fin (0 + 100))
                 ∧ values m !! 1 = Some (Fin (0 + 150))).
  { eexists. split; [vm_compute; reflexivity|]. repeat split; vm_compute; reflexivity. }
  destruct Hm' as (m & Hm' & Hk & Hx & Hy).
  cbn [self_df analyzer_at_0] in Hm. rewrite Hm in Hm'. injection Hm' as <-.
  destruct (Hg monthly (monthly_growth r)
              ltac:(apply elem_of_cons; right; apply elem_of_cons; by left)
              0 _ _ Hx Hy) as (g & Hlook & Hval & _ & _ & Hup & _).
  exists g. split; [exact Hr|]. split; [by rewrite Hkeys|]. split; [exact Hlook|].
  split; [apply Hval; lra|apply Hup; lra].
Defined.

(** ** Purchase patterns *)

Lemma group_rows_length {K V} `{EqDecision K} (ks : list (option K)) (vs : list V) k :
  length ks ≤ length vs →
  length (group_rows ks vs k) = length (filter (λ o, o = Some k) ks).
Proof.
  unfold group_rows. rewrite length_fmap. revert vs.
  induction ks as [|o ks IH]; intros vs Hlen; [done|].
  destruct vs as [|v vs]; [simpl in Hlen; lia|]. simpl in Hlen.
  change (zip (o :: ks) (v :: vs)) with ((o, v) :: zip ks vs).
  destruct (decide (o = Some k)) as [Ho|Ho].
  - rewrite filter_cons_True by done. rewrite (filter_cons_True _ o) by done.
    cbn [length]. f_equal. apply IH. lia.
  - rewrite filter_cons_False by done. rewrite (filter_cons_False _ o) by done.
    apply IH. lia.
Qed.

Lemma group_keys_elem_2 {K} `{EqDecision K, KeyOrder K} (ks : list (option K)) k :
  Some k ∈ ks → k ∈ group_keys ks.
Proof.
  intros Hk. unfold group_keys.
  rewrite merge_sort_Permutation, elem_of_remove_dups, list_elem_of_omap.
  by exists (Some k).
Qed.

(** Each labelled row is counted in exactly one group. *)
Lemma sum_of_group_sizes {K} `{EqDecision K} (ks : list (option K)) (ds : list K) :
  NoDup ds → (∀ k, Some k ∈ ks → k ∈ ds) →
  sum_list (map (λ d, length (filter (λ o, o = Some d) ks)) ds)
  = length (filter (λ o, is_Some o) ks).
Proof.
  intros Hnd. induction ks as [|o ks IH]; intros Hin.
  - clear. induction ds as [|d ds IH]; [done|]. cbn [map sum_list_with]. by rewrite IH.
  - assert (Hrest : ∀ k, Some k ∈ ks → k ∈ ds)
      by (intros k Hk; apply Hin, elem_of_cons; by right).
    specialize (IH Hrest). destruct o as [x|].
    + rewrite (filter_cons_True (λ o, is_Some o)) by done. cbn [length]. rewrite <- IH.
      assert (Hx : x ∈ ds) by (apply Hin, elem_of_cons; by left).
      clear IH Hin Hrest. induction Hnd as [|d ds Hd Hnd IHd]; [by apply elem_of_nil in Hx|].
      cbn [map sum_list sum_list_with]. destruct (decide (d = x)) as [->|Hne].
      * rewrite filter_cons_True by done. cbn [length].
        assert (Hsame : map (λ d, length (filter (λ o, o = Some d) (Some x :: ks))) ds
                        = map (λ d, length (filter (λ o, o = Some d) ks)) ds).
        { apply map_ext_in. intros d Hdin%list_elem_of_In.
          rewrite filter_cons_False; [done|]. intros [= ->]. done. }
        rewrite Hsame. unfold Datatypes.id. lia.
      * rewrite filter_cons_False by (by intros [= ->]).
        apply elem_of_cons in Hx as [->|Hx]; [done|].
        rewrite (IHd Hx). unfold Datatypes.id. lia.
    + rewrite (filter_cons_False (λ o, is_Some o)) by (by intros [? ?]).
      by rewrite <- IH.
Qed.

Lemma analyze_purchase_patterns_body_run (df : DataFrame) labels spend quantity :
  grouping df "month_year" = Ok labels →
  measure df SPEND = Ok spend →
  measure df QUANTITY = Ok quantity →
  analyze_purchase_patterns_body df =
  Ok {| monthly_aov :=
          to_dict (mkSeries (group_keys labels)
            (map fround2
               (zip_with fdiv (map (λ k, F64.sum (group_rows labels spend k)) (group_keys labels))
                              (map (λ p, of_nat p.2) (groupby_size labels)))));
        purchase_frequency := map (λ p, (str_key p.1, Z.of_nat p.2)) (groupby_size labels);
        basket_size :=
          to_dict (mkSeries (group_keys labels)
            (map fround2 (map (λ k, F64.mean (group_rows labels quantity k)) (group_keys labels))))
     |}.
Proof.
  intros Hl Hs Hq. unfold analyze_purchase_patterns_body, groupby_sum, groupby_mean, groupby_reduce.
  rewrite Hl, Hs, Hq. reflexivity.
Qed.

(** X10.  When the month labels and the two measures can be read,
    [analyze_purchase_patterns] returns normally; its three tables list the
    same months in the same order, every purchase frequency is at least 1,
    and the frequencies add up to the number of rows that have a month. *)
Theorem purchase_patterns_cover_the_labelled_rows
    (h : heap) (self : TimeAnalyzer) (labels : list (option key)) (spend quantity : list float64) :
  grouping (frame h (self_df self)) "month_year" = Ok labels →
  measure (frame h (self_df self)) SPEND = Ok spend →
  measure (frame h (self_df self)) QUANTITY = Ok quantity →
  ∃ p, analyze_purchase_patterns h self = IO [] (Ok p)
    ∧ (monthly_aov p).*1 = map str_key (group_keys labels)
    ∧ (purchase_frequency p).*1 = map str_key (group_keys labels)
    ∧ (basket_size p).*1 = map str_key (group_keys labels)
    ∧ Forall (λ q, (1 ≤ q.2)%Z) (purchase_frequency p)
    ∧ foldr Z.add 0%Z (purchase_frequency p).*2
      = Z.of_nat (length (filter (λ o, is_Some o) labels)).
Proof.
  intros Hl Hs Hq. eexists. split.
  { unfold analyze_purchase_patterns.
    by rewrite (analyze_purchase_patterns_body_run _ _ _ _ Hl Hs Hq). }
  cbn [monthly_aov purchase_frequency basket_size].
  assert (Hsize : ∀ k, length (group_rows labels labels k)
                       = length (filter (λ o, o = Some k) labels))
    by (intros k; by apply group_rows_length).
  split; [|split; [|split; [|split]]].
  - apply to_dict_keys. unfold groupby_size.
    by rewrite length_map, length_zip_with, !length_map, Nat.min_id.
  - unfold groupby_size. generalize (group_keys labels). intros ds.
    induction ds as [|d ds IH]; [done|]. cbn. by f_equal.
  - apply to_dict_keys. by rewrite !length_map.
  - apply Forall_forall. intros q Hq'.
    apply list_elem_of_fmap in Hq' as ([k m] & -> & Hkm). cbn [snd].
    unfold groupby_size in Hkm. apply list_elem_of_fmap in Hkm as (k' & [= -> ->] & Hk').
    rewrite Hsize. apply group_keys_elem in Hk'.
    assert (Hin : Some k' ∈ filter (λ o, o = Some k') labels) by (by apply list_elem_of_filter).
    destruct (filter _ labels); [by apply elem_of_nil in Hin|simpl; lia].
  - rewrite <- (sum_of_group_sizes labels (group_keys labels));
      [|apply group_keys_NoDup|apply group_keys_elem_2].
    unfold groupby_size. generalize (group_keys labels). intros ds.
    induction ds as [|d ds IH]; [done|].
    cbn [map fmap list_fmap foldr sum_list_with snd]. rewrite IH, Hsize.
    unfold Datatypes.id. lia.
Qed.

Lemma purchase_patterns_witness :
  ∃ p, analyze_purchase_patterns (heap_after two_months_csv) analyzer_at_0 = IO [] (Ok p)
    ∧ (purchase_frequency p).*1 = ["2023-01"; "2023-02"]
    ∧ foldr Z.add 0%Z (purchase_frequency p).*2 = 2%Z.
Proof.
  assert (Hin : ∃ labels spend quantity,
    grouping (frame (heap_after two_months_csv) 0) "month_year" = Ok labels
    ∧ measure (frame (heap_after two_months_csv) 0) SPEND = Ok spend
    ∧ measure (frame (heap_after two_months_csv) 0) QUANTITY = Ok quantity
    ∧ map str_key (group_keys labels) = ["2023-01"; "2023-02"]
    ∧ Z.of_nat (length (filter (λ o, is_Some o) labels)) = 2%Z).
  { do 3 eexists. split; [vm_compute; reflexivity|]. split; [vm_compute; reflexivity|].
    split; [vm_compute; reflexivity|]. split; vm_compute; reflexivity. }
  destruct Hin as (labels & spend & quantity & Hl & Hs & Hq & Hkeys & Hrows).
  destruct (purchase_patterns_cover_the_labelled_rows (heap_after two_months_csv) analyzer_at_0
              labels spend quantity Hl Hs Hq) as (p & Hp & _ & Hf & _ & _ & Hsum).
  exists p. split; [exact Hp|]. split; [by rewrite Hf|by rewrite Hsum].
Defined.

(** ** The peak months *)

Lemma fgt_false_trans a b c :
  isnan b = false → fgt b a = false → fgt c b = false → fgt c a = false.
Proof.
  destruct a as [| | |x], b as [| | |y], c as [| | |z]; cbn; try done.
  intros _ Hba Hcb. apply bool_decide_eq_false in Hba, Hcb.
  apply bool_decide_eq_false. lra.
Qed.

Lemma fgt_true_false a b : fgt a b = true → fgt b a = false.
Proof.
  destruct a as [| | |x], b as [| | |y]; cbn; try done.
  intros Hab%bool_decide_eq_true. apply bool_decide_eq_false. lra.
Qed.

Lemma insert_desc_Permutation {K} (x : K * float64) l : insert_desc x l ≡ₚ x :: l.
Proof.
  induction l as [|y l IH]; [done|]. cbn [insert_desc].
  destruct (fgt y.2 x.2); [|done]. rewrite IH. apply Permutation_swap.
Qed.

Lemma insert_desc_sorted (x : key * float64) l :
  Forall (λ p, isnan p.2 = false) (x :: l) →
  StronglySorted not_below l → StronglySorted not_below (insert_desc x l).
Proof.
  intros Hnan Hs. induction Hs as [|y l Hs IH Hy].
  - cbn. by repeat constructor.
  - cbn [insert_desc]. destruct (fgt y.2 x.2) eqn:Hyx.
    + constructor.
      * apply IH. inversion Hnan as [|? ? Hx Hrest]; subst.
        inversion Hrest; subst. by constructor.
      * rewrite insert_desc_Permutation. constructor; [|done].
        unfold not_below. by apply fgt_true_false.
    + constructor; [by constructor|]. constructor; [done|].
      apply Forall_forall. intros z Hz. unfold not_below.
      rewrite Forall_forall in Hy. specialize (Hy z Hz). unfold not_below in Hy.
      apply (fgt_false_trans _ y.2); [|done|done].
      inversion Hnan as [|? ? Hx Hrest]; subst. by inversion Hrest.
Qed.

Lemma sort_desc_spec (l : list (key * float64)) :
  Forall (λ p, isnan p.2 = false) l →
  foldr insert_desc [] l ≡ₚ l ∧ StronglySorted not_below (foldr insert_desc [] l).
Proof.
  induction 1 as [|x l Hx Hl [IHp IHs]]; [by split; [|constructor]|].
  cbn [foldr]. split.
  - by rewrite insert_desc_Permutation, IHp.
  - apply insert_desc_sorted; [|done]. constructor; [done|]. by rewrite IHp.
Qed.

Lemma StronglySorted_take_drop {A} (R : A → A → Prop) l n p q :
  StronglySorted R l → p ∈ take n l → q ∈ drop n l → R p q.
Proof.
  intros Hs Hp Hq. rewrite <- (take_drop n l) in Hs.
  by apply (StronglySorted_app_1_elem_of _ _ _ _ _ Hs).
Qed.

Lemma StronglySorted_lookup_lt {A} (R : A → A → Prop) l i j p q :
  StronglySorted R l → i < j → l !! i = Some p → l !! j = Some q → R p q.
Proof.
  intros Hs Hij Hp Hq. apply (StronglySorted_take_drop R l (S i)); [done| |].
  - apply elem_of_take. exists i. split; [done|lia].
  - apply list_elem_of_lookup. exists (j - S i).
    rewrite lookup_drop. by replace (S i + (j - S i)) with j by lia.
Qed.

Lemma nlargest_spec (n : nat) (s : Series key) :
  length (nlargest n s) ≤ n
  ∧ (∀ p, p ∈ nlargest n s → p ∈ items s ∧ isnan p.2 = false)
  ∧ StronglySorted not_below (nlargest n s)
  ∧ (∀ p q, p ∈ nlargest n s → q ∈ items s → isnan q.2 = false →
            q ∈ nlargest n s ∨ not_below p q).
Proof.
  unfold nlargest.
  set (present := filter (λ p : key * float64, isnan p.2 = false) (items s)).
  assert (Hpresent : Forall (λ p, isnan p.2 = false) present).
  { apply Forall_forall. by intros p [? _]%list_elem_of_filter. }
  destruct (sort_desc_spec present Hpresent) as [Hperm Hsorted].
  split; [rewrite length_take; lia|]. split; [|split].
  - intros p Hp. apply elem_of_take in Hp as (i & Hp & _).
    apply list_elem_of_lookup_2 in Hp. rewrite Hperm in Hp.
    apply list_elem_of_filter in Hp as [? ?]. done.
  - rewrite <- (take_drop n (foldr insert_desc [] present)) in Hsorted.
    by apply StronglySorted_app_1_l in Hsorted.
  - intros p q Hp Hq Hnan.
    assert (Hin : q ∈ foldr insert_desc [] present)
      by (rewrite Hperm; by apply list_elem_of_filter).
    rewrite <- (take_drop n (foldr insert_desc [] present)) in Hin.
    apply elem_of_app in Hin as [Hin|Hin]; [by left|right].
    by apply (StronglySorted_take_drop _ _ n _ _ Hsorted).
Qed.

Lemma basic_analysis_top_months df b :
  basic_analysis df = Ok b → top_months b = nlargest 5 (monthly_spend b).
Proof.
  unfold basic_analysis.
  intros (ys & Hys & H)%exc_bind_Ok.
  apply exc_bind_Ok in H as (qs & Hqs & H).
  apply exc_bind_Ok in H as (ms & Hms & H).
  apply exc_bind_Ok in H as (m3 & Hm3 & H).
  apply exc_bind_Ok in H as (m6 & Hm6 & H).
  apply exc_bind_Ok in H as (ps & Hps & H).
  apply exc_bind_Ok in H as (ds & Hds & [= <-]).
  cbn [top_months monthly_spend]. rewrite Hms in Hps. by injection Hps as <-.
Qed.

(** X11.  The peak months of a result are at most five entries of the
    monthly spend series, none of them NaN, in non-increasing order of
    spend; a month left out has no larger spend than any month listed. *)
Theorem peak_months_are_the_largest
    (seasonal_decompose : Series key → exc Decomposition)
    (h : heap) (self : TimeAnalyzer) (r : AnalysisResult) :
  outcome (enhanced_time_analysis seasonal_decompose h self) = Ok (Some r) →
  ∃ monthly,
    groupby_sum (frame h (self_df self)) "month_year" SPEND = Ok monthly
    ∧ length (peak_months r) ≤ 5
    ∧ (∀ p, p ∈ peak_months r → p ∈ items monthly ∧ isnan p.2 = false)
    ∧ (∀ i j p q, i < j → peak_months r !! i = Some p → peak_months r !! j = Some q →
                  fgt q.2 p.2 = false)
    ∧ (∀ p q, p ∈ peak_months r → q ∈ items monthly → isnan q.2 = false →
              q ∈ peak_months r ∨ fgt q.2 p.2 = false).
Proof.
  rewrite enhanced_time_analysis_outcome.
  destruct (basic_analysis _) as [b|e] eqn:Hb; [|done]. intros [= <-].
  destruct (basic_analysis_inv _ _ Hb) as (_ & _ & _ & _ & Hm & _).
  exists (monthly_spend b). split; [done|].
  unfold analysis_result; cbn [peak_months].
  rewrite (basic_analysis_top_months _ _ Hb).
  destruct (nlargest_spec 5 (monthly_spend b)) as (Hlen & Hin & Hsorted & Hmax).
  split; [done|]. split; [done|]. split; [|done].
  intros i j p q Hij Hp Hq.
  by apply (StronglySorted_lookup_lt _ _ i j p q Hsorted).
Qed.

Lemma peak_months_witness :
  ∃ r, outcome (enhanced_time_analysis decompose_too_short (heap_after two_months_csv) analyzer_at_0)
       = Ok (Some r)
    ∧ length (peak_months r) ≤ 5.
Proof.
  destruct two_months_csv_is_analysed as [r Hr]. exists r. split; [exact Hr|].
  by destruct (peak_months_are_the_largest _ _ _ _ Hr) as (monthly & _ & Hlen & _).
Defined.

(** ** The configuration file *)

Section ConfigFile_facts.
Import ConfigFile ConfigSpec.

Lemma find_unique {A} (f : A → bool) (l : list A) (x : A) :
  x ∈ l → f x = true → (∀ y, y ∈ l → f y = true → y = x) → List.find f l = Some x.
Proof.
  induction l as [|y l IH]; intros Hx Hfx Huniq; [by apply elem_of_nil in Hx|].
  cbn [List.find]. destruct (f y) eqn:Hfy.
  - f_equal. apply Huniq; [apply elem_of_cons; by left|done].
  - apply IH; [|done|].
    + apply elem_of_cons in Hx as [->|Hx]; [congruence|done].
    + intros z Hz. apply Huniq, elem_of_cons. by right.
Qed.

Lemma find_none {A} (f : A → bool) (l : list A) :
  (∀ y, y ∈ l → f y = false) → List.find f l = None.
Proof.
  induction l as [|y l IH]; intros Hall; [done|]. cbn [List.find].
  rewrite (Hall y) by (apply elem_of_cons; by left).
  apply IH. intros z Hz. apply Hall, elem_of_cons. by right.
Qed.

Lemma find_some_elem {A} (f : A → bool) (l : list A) x :
  List.find f l = Some x → x ∈ l ∧ f x = true.
Proof.
  intros Hf. apply List.find_some in Hf as [Hin Hfx]. split; [|done].
  by apply list_elem_of_In.
Qed.

(** A name bound once among the keyword arguments. *)
Lemma keyword_unique name v kwargs :
  NoDup kwargs.*1 → (name, v) ∈ kwargs → keyword name kwargs = Some v.
Proof.
  intros Hnd Hin. unfold keyword.
  rewrite (find_unique _ _ (name, v)); [done|done|by apply bool_decide_eq_true|].
  intros [k w] Hkw Hk%bool_decide_eq_true. cbn in Hk. subst k. f_equal.
  apply list_elem_of_lookup in Hin as [i Hi], Hkw as [j Hj].
  assert (i = j) as ->.
  { eapply NoDup_lookup; [exact Hnd| |]; rewrite list_lookup_fmap.
    - by rewrite Hi.
    - by rewrite Hj. }
  congruence.
Qed.

Lemma new_fields cls kwargs obj : new cls kwargs = Ok obj → instance_of cls obj.
Proof.
  unfold new, instance_of. destruct (List.find _ kwargs); [done|]. intros [= <-].
  induction (class_fields cls) as [|f l IH]; [done|]. cbn. by f_equal.
Qed.

Lemma keywords_of_texts entries :
  Forall (λ kv, ∃ k, kv.1 = YStr k) entries →
  keywords (YMap entries) = Ok (map key_text entries).
Proof.
  intros Hall. cbn [keywords]. induction Hall as [|[k v] l [s Hs] Hl IH]; [done|].
  cbn in Hs. subst k. cbn [mapM]. cbn [mapM] in IH. cbn. rewrite IH. done.
Qed.

Lemma fields_NoDup cls : cls ∈ groups.*2 → NoDup (class_fields cls).*1.
Proof.
  intros Hin. cbn in Hin.
  repeat (apply elem_of_cons in Hin as [->|Hin]); [..|by apply elem_of_nil in Hin];
    apply (bool_decide_unpack _); vm_compute; exact I.
Qed.

Lemma groups_classes :
  AnalysisSettings ∈ groups.*2 ∧ VisualizationSettings ∈ groups.*2
  ∧ ExportSettings ∈ groups.*2 ∧ AppSettings ∈ groups.*2.
Proof.
  cbn. repeat split.
  - apply elem_of_cons. by left.
  - apply elem_of_cons. right. apply elem_of_cons. by left.
  - do 2 (apply elem_of_cons; right). apply elem_of_cons. by left.
  - do 3 (apply elem_of_cons; right). apply elem_of_cons. by left.
Qed.

(** Induction on a document, with the hypothesis for every item of a
    sequence and every key and value of a mapping. *)
Lemma yaml_nested_ind (P : yaml → Prop) :
  P YNull → (∀ b, P (YBool b)) → (∀ z, P (YInt z)) → (∀ x, P (YFloat x)) → (∀ s, P (YStr s)) →
  (∀ items, Forall P items → P (YSeq items)) →
  (∀ entries, Forall (λ kv, P kv.1 ∧ P kv.2) entries → P (YMap entries)) →
  ∀ d, P d.
Proof.
  intros Hnull Hbool Hint Hfloat Hstr Hseq Hmap. fix IH 1.
  intros [| b | z | x | s | items | entries].
  - exact Hnull.
  - apply Hbool.
  - apply Hint.
  - apply Hfloat.
  - apply Hstr.
  - apply Hseq. induction items as [|d l IHl]; constructor; [apply IH|exact IHl].
  - apply Hmap. induction entries as [|[k v] l IHl]; constructor; [split; apply IH|exact IHl].
Qed.

Lemma sort_keys_Permutation entries : sort_keys entries ≡ₚ entries.
Proof. unfold sort_keys. destruct (forallb _ _); [apply merge_sort_Permutation|done]. Qed.

Lemma reordered_refl d : reordered d d.
Proof.
  induction d as [| | | | |items IH|entries IH] using yaml_nested_ind; try constructor.
  - induction IH; by constructor.
  - apply (reordered_map entries entries); [done|]. induction IH; by constructor.
Qed.

(** Writing a document and reading it back changes the order of the
    entries of its mappings, and nothing else. *)
Lemma reordered_dump_then_load d : reordered d (dump_then_load d).
Proof.
  induction d as [| | | | |items IH|entries IH] using yaml_nested_ind; try constructor.
  - cbn [dump_then_load]. induction IH; by constructor.
  - cbn [dump_then_load]. set (written := map _ entries).
    assert (Hw : Forall2 (λ e f, reordered e.1 f.1 ∧ reordered e.2 f.2) entries written).
    { subst written. induction IH as [|[k v] l Hkv Hl IHl]; by constructor. }
    apply Forall2_flip in Hw.
    destruct (Permutation_Forall2 (symmetry (sort_keys_Permutation written)) Hw)
      as (es' & Hperm & Hes').
    apply (reordered_map entries es'); [done|]. by apply Forall2_flip.
Qed.

Lemma key_text_items obj : key_text <$> items_of obj = obj.
Proof.
  unfold items_of. induction obj as [|[k v] l IH]; [done|].
  cbn [map]. rewrite fmap_cons. by rewrite IH.
Qed.

Lemma items_of_key_text es :
  Forall (λ e : yaml * yaml, ∃ s, e.1 = YStr s) es → items_of (key_text <$> es) = es.
Proof.
  induction 1 as [|[k v] l [s Hs] Hl IH]; [done|]. cbn in Hs. subst k.
  rewrite fmap_cons. unfold items_of in *. cbn [map]. by rewrite IH.
Qed.

(** A document equal to the mapping of an object is the mapping of its
    fields in some order, with equal values. *)
Lemma reordered_items obj d' :
  reordered (as_mapping obj) d' →
  ∃ obj2 kw, d' = as_mapping kw ∧ obj ≡ₚ obj2 ∧ same_instance obj2 kw.
Proof.
  unfold as_mapping. intros Hr. inversion Hr as [| | | | | |es es' fs Hperm Hall]; subst.
  clear Hr.
  assert (Htext : Forall (λ e : yaml * yaml, ∃ s, e.1 = YStr s) es').
  { rewrite <- Hperm. unfold items_of. apply Forall_forall.
    intros kv (x & -> & _)%list_elem_of_fmap. by eexists. }
  assert (Htext' : Forall (λ e : yaml * yaml, ∃ s, e.1 = YStr s) fs).
  { clear Hperm. revert Htext. induction Hall as [|e f l k [Hk _] _ IH]; intros Htext; [done|].
    apply Forall_cons in Htext as [[s Hs] Hl]. constructor; [|by apply IH].
    rewrite Hs in Hk. inversion Hk. by eexists. }
  exists (key_text <$> es'), (key_text <$> fs). split; [|split].
  - by rewrite items_of_key_text.
  - by rewrite <- Hperm, key_text_items.
  - unfold same_instance. apply Forall2_fmap.
    clear Hperm Htext'. revert Htext.
    induction Hall as [|e f l k [Hk Hv] _ IH]; intros Htext; [done|].
    apply Forall_cons in Htext as [[s Hs] Hl]. constructor; [|by apply IH].
    destruct e as [ek ev], f as [fk fv]. cbn in Hs, Hk, Hv. subst ek.
    inversion Hk; subst. by split.
Qed.

Lemma same_instance_names obj kw : same_instance obj kw → kw.*1 = obj.*1.
Proof. induction 1 as [|f f' l k [Hn _] _ IH]; [done|]. rewrite !fmap_cons. by rewrite Hn, IH. Qed.

(** The value read for a name is the value written for it. *)
Lemma keyword_same obj obj2 kw n v :
  NoDup obj.*1 → obj ≡ₚ obj2 → same_instance obj2 kw → (n, v) ∈ obj →
  ∃ v', keyword n kw = Some v' ∧ reordered v v'.
Proof.
  intros Hnd Hperm Hsame Hin. rewrite Hperm in Hin.
  apply list_elem_of_lookup in Hin as [j Hj].
  destruct (Forall2_lookup_l _ _ _ _ _ Hsame Hj) as ([n' v'] & Hj' & Hn & Hv).
  cbn in Hn, Hv. subst n'. exists v'. split; [|done].
  apply keyword_unique; [|by apply list_elem_of_lookup_2 in Hj'].
  by rewrite (same_instance_names _ _ Hsame), <- Hperm.
Qed.

(** The constructor gives back an object from its own fields, whatever the
    order of the keyword arguments. *)
Lemma new_same cls obj obj2 kw :
  NoDup (class_fields cls).*1 → instance_of cls obj → obj ≡ₚ obj2 → same_instance obj2 kw →
  ∃ obj', new cls kw = Ok obj' ∧ same_instance obj obj'.
Proof.
  intros Hnd Hobj Hperm Hsame. unfold new, instance_of in *.
  rewrite find_none.
  2:{ intros [k v] Hkv. apply bool_decide_eq_false. intros Hnot. apply Hnot. cbn.
      rewrite <- Hobj, Hperm, <- (same_instance_names _ _ Hsame).
      apply list_elem_of_fmap. by exists (k, v). }
  eexists. split; [done|].
  apply Forall2_same_length_lookup. split.
  { rewrite length_map. by rewrite <- (length_fmap fst obj), Hobj, length_fmap. }
  intros i [n v] f' Ho Hf'. change (map ?f ?l) with (f <$> l) in Hf'.
  rewrite list_lookup_fmap in Hf'.
  assert (Hi : (class_fields cls).*1 !! i = obj.*1 !! i) by (by rewrite Hobj).
  rewrite !list_lookup_fmap, Ho in Hi.
  destruct (class_fields cls !! i) as [[name dflt]|] eqn:Hf; [|done].
  cbn in Hi, Hf'. injection Hi as ->. injection Hf' as <-. cbn.
  destruct (keyword_same obj obj2 kw n v) as (v' & -> & Hv);
    [by rewrite Hobj|done|done|by apply list_elem_of_lookup_2 in Ho|].
  done.
Qed.

Lemma get_as_mapping kw g :
  get (as_mapping kw) g = Ok (default (YMap []) (keyword g kw)).
Proof.
  cbn [get as_mapping]. do 2 f_equal. unfold keyword, items_of.
  induction kw as [|[k v] l IH]; [done|]. cbn [map List.find fst is_key].
  destruct (bool_decide (k = g)); [done|exact IH].
Qed.

Lemma keywords_as_mapping kw : keywords (as_mapping kw) = Ok kw.
Proof.
  unfold as_mapping. rewrite keywords_of_texts.
  - change (map ?f ?l) with (f <$> l). by rewrite key_text_items.
  - unfold items_of. apply Forall_forall. intros kv (x & -> & _)%list_elem_of_fmap. by eexists.
Qed.

(** One group of a configuration, read from a document equal to the saved
    one. *)
Lemma group_reloaded cls c obj obj2 kw (g : string) :
  cls ∈ groups.*2 → instance_of cls obj →
  groups_of c ≡ₚ obj2 → same_instance obj2 kw → (g, as_mapping obj) ∈ groups_of c →
  ∃ obj', (d ← get (as_mapping kw) g; kwargs ← keywords d; new cls kwargs) = Ok obj'
          ∧ same_instance obj obj'.
Proof.
  intros Hcls Hobj Hperm Hsame Hin. rewrite get_as_mapping.
  destruct (keyword_same (groups_of c) obj2 kw g (as_mapping obj)) as (d' & -> & Hd');
    [apply (bool_decide_unpack _); vm_compute; exact I|done|done|done|].
  cbn [default mbind exc_bind].
  destruct (reordered_items _ _ Hd') as (o2 & kwargs & -> & Hp & Hs).
  unfold Datatypes.id. rewrite keywords_as_mapping. cbn [mbind exc_bind].
  apply (new_same cls obj o2 kwargs); [by apply fields_NoDup|done..].
Qed.

Lemma load_reordered (c : Config) (doc : yaml) :
  well_formed c → reordered (save_to_yaml c) doc →
  ∃ c', load_from_yaml (Some doc) = Ok c' ∧ same_config c c'.
Proof.
  intros (Ha & Hv & He & Hp) Hdoc.
  change (save_to_yaml c) with (as_mapping (groups_of c)) in Hdoc.
  destruct (reordered_items _ _ Hdoc) as (obj2 & kw & -> & Hperm & Hsame).
  destruct (group_reloaded AnalysisSettings c (analysis c) obj2 kw "analysis")
    as (a' & Hla & Hsa); [apply groups_classes|done..|apply elem_of_cons; by left|].
  destruct (group_reloaded VisualizationSettings c (visualization c) obj2 kw "visualization")
    as (v' & Hlv & Hsv);
    [apply groups_classes|done..|apply elem_of_cons; right; apply elem_of_cons; by left|].
  destruct (group_reloaded ExportSettings c (export c) obj2 kw "export")
    as (e' & Hle & Hse);
    [apply groups_classes|done..|do 2 (apply elem_of_cons; right); apply elem_of_cons; by left|].
  destruct (group_reloaded AppSettings c (app c) obj2 kw "app")
    as (p' & Hlp & Hsp);
    [apply groups_classes|done..|do 3 (apply elem_of_cons; right); apply elem_of_cons; by left|].
  exists {| analysis := a'; visualization := v'; export := e'; app := p' |}.
  split; [|done].
  unfold load_from_yaml. rewrite Hla. cbn [mbind exc_bind]. rewrite Hlv. cbn [mbind exc_bind].
  rewrite Hle. cbn [mbind exc_bind]. rewrite Hlp. reflexivity.
Qed.

(** X12.  A configuration whose four groups hold their declared fields
    comes back from its file: [load_from_yaml] returns a configuration
    equal to it from the document that [yaml.safe_load] reads after
    [save_to_yaml] wrote it with [yaml.dump], and from any document that
    differs from the saved one only in the order of the entries of its
    mappings, at any depth. *)
Theorem saved_configuration_loads_back (c : Config) :
  well_formed c →
  (∃ c', load_from_yaml (Some (dump_then_load (save_to_yaml c))) = Ok c' ∧ same_config c c')
  ∧ ∀ doc, reordered (save_to_yaml c) doc →
      ∃ c', load_from_yaml (Some doc) = Ok c' ∧ same_config c c'.
Proof.
  intros Hc. split; [|intros doc Hdoc; by apply load_reordered].
  apply load_reordered; [done|apply reordered_dump_then_load].
Qed.

Lemma well_formed_default : well_formed Config_default.
Proof. by repeat split. Qed.

Lemma load_from_yaml_well_formed file c : load_from_yaml file = Ok c → well_formed c.
Proof.
  destruct file as [doc|]; [|intros [= <-]; apply well_formed_default].
  unfold load_from_yaml.
  intros (a & Ha & H)%exc_bind_Ok. apply exc_bind_Ok in H as (v & Hv & H).
  apply exc_bind_Ok in H as (e & He & H). apply exc_bind_Ok in H as (p & Hp & [= <-]).
  apply exc_bind_Ok in Ha as (? & _ & Ha). apply exc_bind_Ok in Ha as (? & _ & Ha).
  apply exc_bind_Ok in Hv as (? & _ & Hv). apply exc_bind_Ok in Hv as (? & _ & Hv).
  apply exc_bind_Ok in He as (? & _ & He). apply exc_bind_Ok in He as (? & _ & He).
  apply exc_bind_Ok in Hp as (? & _ & Hp). apply exc_bind_Ok in Hp as (? & _ & Hp).
  repeat split; cbn; by eapply new_fields.
Qed.

(** X13.  Every configuration that [load_from_yaml] returns, from any
    file, has exactly the declared fields in each group; so it can be
    saved, and loading what was saved gives a configuration equal to
    it. *)
Theorem loaded_configuration_saves_and_loads_back (file : option yaml) (c : Config) :
  load_from_yaml file = Ok c →
  well_formed c
  ∧ ∃ c', load_from_yaml (Some (dump_then_load (save_to_yaml c))) = Ok c' ∧ same_config c c'.
Proof.
  intros Hload. pose proof (load_from_yaml_well_formed _ _ Hload) as Hc.
  split; [done|]. apply load_reordered; [done|apply reordered_dump_then_load].
Qed.

Lemma keywords_TypeError d e : keywords d = Raise e → ∃ msg, e = TypeError msg.
Proof.
  destruct d as [| | | | | |entries]; try (intros [= <-]; by eexists).
  cbn [keywords]. revert e. induction entries as [|[k v] l IH]; intros e Hkw; [done|].
  cbn [mapM] in Hkw. destruct k; cbn in Hkw; try (injection Hkw as <-; by eexists).
  destruct (mapM _ l) as [kw|e2] eqn:Hl; [done|]. injection Hkw as <-. by apply IH.
Qed.

Lemma keywords_elem kw kwargs k v :
  keywords (YMap kw) = Ok kwargs → (YStr k, v) ∈ kw → (k, v) ∈ kwargs.
Proof.
  cbn [keywords]. revert kwargs.
  induction kw as [|[k2 v2] l IH]; intros kwargs Hkw Hin; [by apply elem_of_nil in Hin|].
  cbn [mapM] in Hkw. apply exc_bind_Ok in Hkw as (x & Hx & Hkw).
  apply exc_bind_Ok in Hkw as (xs & Hxs & [= <-]).
  apply elem_of_cons in Hin as [[= <- <-]|Hin].
  - cbn in Hx. injection Hx as <-. apply elem_of_cons. by left.
  - apply elem_of_cons. right. by apply IH.
Qed.

(** One group of the file read into its object. *)
Lemma group_TypeError entries g cls e :
  (d ← get (YMap entries) g; kw ← keywords d; new cls kw) = Raise e → ∃ msg, e = TypeError msg.
Proof.
  cbn [get mbind exc_bind]. destruct (keywords _) as [kw|e2] eqn:Hkw.
  - cbn [mbind exc_bind]. unfold new. destruct (List.find _ kw); [|done].
    intros [= <-]. by eexists.
  - intros [= <-]. by apply keywords_TypeError in Hkw.
Qed.

Lemma group_stray entries g cls kw k v :
  get (YMap entries) g = Ok (YMap kw) → (YStr k, v) ∈ kw → k ∉ (class_fields cls).*1 →
  ∃ msg, (d ← get (YMap entries) g; kw ← keywords d; new cls kw) = Raise (TypeError msg).
Proof.
  intros Hget Hin Hk.
  destruct (d ← get (YMap entries) g; kw ← keywords d; new cls kw) as [obj|e] eqn:Hrun.
  - exfalso. rewrite Hget in Hrun. cbn [mbind exc_bind] in Hrun.
    apply exc_bind_Ok in Hrun as (kwargs & Hkw & Hnew).
    pose proof (keywords_elem _ _ _ _ Hkw Hin) as Hkk.
    unfold new in Hnew. destruct (List.find _ kwargs) eqn:Hfind; [done|].
    apply list_elem_of_In in Hkk. apply (List.find_none _ _ Hfind (k, v)) in Hkk.
    by apply bool_decide_eq_false in Hkk.
  - destruct (group_TypeError _ _ _ _ Hrun) as [msg ->]. by exists msg.
Qed.

(** X14.  A configuration file that is a mapping and holds, in one of its
    four groups, a key that is not a field of the group's class cannot be
    loaded: [load_from_yaml] raises [TypeError]. *)
Theorem unknown_setting_fails_the_load
    (entries kw : list (yaml * yaml)) (g : string) (cls : dataclass) (k : string) (v : yaml) :
  (g, cls) ∈ groups →
  get (YMap entries) g = Ok (YMap kw) →
  (YStr k, v) ∈ kw →
  k ∉ (class_fields cls).*1 →
  ∃ msg, load_from_yaml (Some (YMap entries)) = Raise (TypeError msg).
Proof.
  intros Hg Hget Hin Hk.
  destruct (group_stray _ _ _ _ _ _ Hget Hin Hk) as [msg Hmsg].
  unfold load_from_yaml.
  destruct (d ← get (YMap entries) "analysis"; kw ← keywords d; new AnalysisSettings kw)
    as [a|e] eqn:Ha.
  2:{ destruct (group_TypeError _ _ _ _ Ha) as [m ->]. by exists m. }
  destruct (d ← get (YMap entries) "visualization"; kw ← keywords d; new VisualizationSettings kw)
    as [vz|e] eqn:Hv.
  2:{ destruct (group_TypeError _ _ _ _ Hv) as [m ->]. by exists m. }
  destruct (d ← get (YMap entries) "export"; kw ← keywords d; new ExportSettings kw)
    as [ex|e] eqn:He.
  2:{ destruct (group_TypeError _ _ _ _ He) as [m ->]. by exists m. }
  destruct (d ← get (YMap entries) "app"; kw ← keywords d; new AppSettings kw)
    as [ap|e] eqn:Hp.
  2:{ destruct (group_TypeError _ _ _ _ Hp) as [m ->]. by exists m. }
  exfalso. cbn in Hg.
  repeat (apply elem_of_cons in Hg as [[= -> ->]|Hg]); [..|by apply elem_of_nil in Hg];
    congruence.
Qed.

(** X15.  A configuration file whose document is not a mapping (an empty
    file, a list, a scalar) is not replaced by the defaults:
    [load_from_yaml] raises [AttributeError]. *)
Theorem document_must_be_a_mapping (doc : yaml) :
  (∀ entries, doc ≠ YMap entries) →
  ∃ msg, load_from_yaml (Some doc) = Raise (AttributeError msg).
Proof.
  intros Hdoc. destruct doc; try (by eexists). by destruct (Hdoc entries).
Qed.

End ConfigFile_facts.

(** The first start: the defaults are written, and read back with the
    names of the sheets in another order. *)
Lemma saved_configuration_witness :
  ConfigSpec.well_formed ConfigFile.Config_default
  ∧ ∃ c', ConfigFile.load_from_yaml
            (Some (ConfigFile.dump_then_load (ConfigFile.save_to_yaml ConfigFile.Config_default)))
          = Ok c'
    ∧ ConfigSpec.same_config ConfigFile.Config_default c'
    ∧ ConfigFile.keyword "excel_sheet_names" (ConfigFile.export c')
      = Some (ConfigFile.YMap
                [(ConfigFile.YStr "anomalies", ConfigFile.YStr "Anomaly Detection");
                 (ConfigFile.YStr "dow_analysis", ConfigFile.YStr "Day of Week Analysis");
                 (ConfigFile.YStr "monthly_growth", ConfigFile.YStr "Monthly Growth");
                 (ConfigFile.YStr "seasonality", ConfigFile.YStr "Seasonal Analysis");
                 (ConfigFile.YStr "yearly_growth", ConfigFile.YStr "Yearly Growth")]).
Proof.
  assert (Hc : ConfigSpec.well_formed ConfigFile.Config_default) by (by repeat split).
  split; [exact Hc|].
  destruct (saved_configuration_loads_back ConfigFile.Config_default Hc)
    as [(c' & Hload & Hsame) _].
  exists c'. split; [exact Hload|]. split; [exact Hsame|].
  assert (Hrun : ∃ c2, ConfigFile.load_from_yaml
            (Some (ConfigFile.dump_then_load (ConfigFile.save_to_yaml ConfigFile.Config_default)))
          = Ok c2
    ∧ ConfigFile.keyword "excel_sheet_names" (ConfigFile.export c2)
      = Some (ConfigFile.YMap
                [(ConfigFile.YStr "anomalies", ConfigFile.YStr "Anomaly Detection");
                 (ConfigFile.YStr "dow_analysis", ConfigFile.YStr "Day of Week Analysis");
                 (ConfigFile.YStr "monthly_growth", ConfigFile.YStr "Monthly Growth");
                 (ConfigFile.YStr "seasonality", ConfigFile.YStr "Seasonal Analysis");
                 (ConfigFile.YStr "yearly_growth", ConfigFile.YStr "Yearly Growth")]))
    by (eexists; split; vm_compute; reflexivity).
  destruct Hrun as (c2 & Hload2 & Hsheets).
  rewrite Hload in Hload2. injection Hload2 as <-. exact Hsheets.
Defined.

Lemma loaded_configuration_witness :
  ConfigFile.load_from_yaml (Some (ConfigFile.YMap [])) = Ok ConfigFile.Config_default
  ∧ ConfigSpec.well_formed ConfigFile.Config_default
  ∧ ∃ c', ConfigFile.load_from_yaml
            (Some (ConfigFile.dump_then_load (ConfigFile.save_to_yaml ConfigFile.Config_default)))
          = Ok c'
    ∧ ConfigSpec.same_config ConfigFile.Config_default c'.
Proof.
  assert (Hload : ConfigFile.load_from_yaml (Some (ConfigFile.YMap []))
                  = Ok ConfigFile.Config_default) by reflexivity.
  split; [exact Hload|].
  exact (loaded_configuration_saves_and_loads_back (Some (ConfigFile.YMap []))
           ConfigFile.Config_default Hload).
Defined.

Lemma unknown_setting_witness :
  ∃ msg,
    ConfigFile.load_from_yaml
      (Some (ConfigFile.YMap
               [(ConfigFile.YStr "analysis",
                 ConfigFile.YMap [(ConfigFile.YStr "window", ConfigFile.YInt 7)])]))
    = Raise (TypeError msg).
Proof.
  apply (unknown_setting_fails_the_load _ [(ConfigFile.YStr "window", ConfigFile.YInt 7)]
           "analysis" ConfigFile.AnalysisSettings "window" (ConfigFile.YInt 7)).
  - apply elem_of_cons. by left.
  - reflexivity.
  - apply elem_of_cons. by left.
  - apply (bool_decide_unpack _). vm_compute. exact I.
Defined.

Lemma document_must_be_a_mapping_witness :
  ∃ msg, ConfigFile.load_from_yaml (Some ConfigFile.YNull) = Raise (AttributeError msg).
Proof. apply document_must_be_a_mapping. by intros entries. Defined.

(** ** The report on a result without seasonality *)

Lemma reported_seasonal_strength_cases (r : AnalysisResult) :
  match seasonality_metrics r with
  | Seasonal strength _ _ _ _ => reported_seasonal_strength r = Ok (Some (VNumber strength))
  | NotSeasonal _ => reported_seasonal_strength r = Raise (KeyError "seasonal_strength")
  end.
Proof. unfold reported_seasonal_strength. by destruct (seasonality_metrics r). Qed.

Section Report_facts.
Variable seasonal_decompose : Series key → exc Decomposition.

Lemma analyze_seasonality_body_short df self monthly :
  groupby_sum df "month_year" SPEND = Ok monthly →
  (len monthly < setting self min_months_for_seasonality 12)%Z →
  ∃ msg, outcome (analyze_seasonality_body seasonal_decompose df self) = Ok (NotSeasonal msg).
Proof.
  intros Hm Hlt. unfold analyze_seasonality_body. rewrite Hm. apply Z.leb_gt in Hlt.
  cbn [lift mbind io_bind events outcome]. cbv zeta. rewrite Hlt. by eexists.
Qed.

(** X17.  For a result of the analysis, the guard
    [if results['seasonality_metrics']] always passes, so reading
    ['seasonal_strength'] raises [KeyError] exactly when the block has
    ['has_seasonality': False]: in particular whenever the data has fewer
    months than [min_months_for_seasonality], and whenever the seasonal
    analysis itself failed. *)
Theorem report_fails_without_seasonality
    (h : heap) (self : TimeAnalyzer) (r : AnalysisResult) :
  outcome (enhanced_time_analysis seasonal_decompose h self) = Ok (Some r) →
  (has_seasonality (seasonality_metrics r) = false ↔
   reported_seasonal_strength r = Raise (KeyError "seasonal_strength"))
  ∧ (∀ monthly,
       groupby_sum (frame h (self_df self)) "month_year" SPEND = Ok monthly →
       (len monthly < setting self min_months_for_seasonality 12)%Z →
       reported_seasonal_strength r = Raise (KeyError "seasonal_strength"))
  ∧ (∀ e, outcome (analyze_seasonality_body seasonal_decompose (frame h (self_df self)) self)
          = Raise e →
          reported_seasonal_strength r = Raise (KeyError "seasonal_strength")).
Proof.
  intros Hr. pose proof (reported_seasonal_strength_cases r) as Hcases.
  rewrite enhanced_time_analysis_outcome in Hr.
  destruct (basic_analysis _) as [b|e] eqn:Hb; [|done]. injection Hr as <-.
  cbn [seasonality_metrics analysis_result] in *.
  split; [|split].
  - destruct (match outcome _ with Ok s => s | Raise _ => _ end); cbn [has_seasonality].
    + rewrite Hcases. by split.
    + by split.
  - intros monthly Hm Hlt.
    destruct (analyze_seasonality_body_short _ self _ Hm Hlt) as [msg Hmsg].
    by rewrite Hmsg in Hcases |- *.
  - intros e Hraise. by rewrite Hraise in Hcases |- *.
Qed.

End Report_facts.

Lemma report_witness :
  ∃ r, outcome (enhanced_time_analysis decompose_too_short (heap_after welcome_csv) analyzer_at_0)
       = Ok (Some r)
    ∧ reported_seasonal_strength r = Raise (KeyError "seasonal_strength").
Proof.
  destruct welcome_csv_is_analysed as [r Hr]. exists r. split; [exact Hr|].
  destruct (report_fails_without_seasonality _ _ _ _ Hr) as (_ & Hshort & _).
  assert (Hm : ∃ m, groupby_sum (frame (heap_after welcome_csv) 0) "month_year" SPEND = Ok m
                    ∧ len m = 1%Z)
    by (eexists; split; [vm_compute; reflexivity|reflexivity]).
  destruct Hm as (m & Hm & Hlen). apply (Hshort m Hm). rewrite Hlen. reflexivity.
Defined.

(** ** The monthly tables of a result *)

(** X18.  In every result the monthly spend, the monthly growth and the
    two moving averages have one entry per month of the monthly spend
    series, with the same keys in the same order; the months of that series
    are distinct. *)
Theorem monthly_tables_share_their_months
    (seasonal_decompose : Series key → exc Decomposition)
    (h : heap) (self : TimeAnalyzer) (r : AnalysisResult) :
  outcome (enhanced_time_analysis seasonal_decompose h self) = Ok (Some r) →
  ∃ monthly,
    groupby_sum (frame h (self_df self)) "month_year" SPEND = Ok monthly
    ∧ NoDup (index monthly)
    ∧ raw_monthly_spend r = to_dict monthly
    ∧ ∀ table, table ∈ [raw_monthly_spend r; monthly_growth r;
                        moving_average_3m r; moving_average_6m r] →
        table.*1 = map str_key (index monthly).
Proof.
  rewrite enhanced_time_analysis_outcome.
  destruct (basic_analysis _) as [b|e] eqn:Hb; [|done]. intros [= <-].
  destruct (basic_analysis_inv _ _ Hb) as (_ & _ & _ & _ & Hm & Hmg & H3 & H6).
  exists (monthly_spend b). split; [done|].
  split; [by apply (groupby_reduce_NoDup _ _ _ _ _ Hm)|]. split; [done|].
  pose proof (groupby_reduce_length _ _ _ _ _ Hm) as Hlen.
  unfold analysis_result;
    cbn [raw_monthly_spend monthly_growth moving_average_3m moving_average_6m].
  intros table Hin.
  repeat (apply elem_of_cons in Hin as [->|Hin]); [..|by apply elem_of_nil in Hin].
  - destruct (monthly_spend b) as [idx vs]. by apply to_dict_keys.
  - apply to_dict_keys. by rewrite Hmg, times100_length, pct_change_length.
  - apply to_dict_keys. by rewrite (rolling_length _ _ _ _ _ H3).
  - apply to_dict_keys. by rewrite (rolling_length _ _ _ _ _ H6).
Qed.

Lemma monthly_tables_witness :
  ∃ r, outcome (enhanced_time_analysis decompose_too_short (heap_after two_months_csv) analyzer_at_0)
       = Ok (Some r)
    ∧ (moving_average_6m r).*1 = ["2023-01"; "2023-02"].
Proof.
  destruct two_months_csv_is_analysed as [r Hr]. exists r. split; [exact Hr|].
  destruct (monthly_tables_share_their_months _ _ _ _ Hr) as (monthly & Hm & _ & _ & Hkeys).
  rewrite (Hkeys (moving_average_6m r))
    by (do 3 (apply elem_of_cons; right); apply elem_of_cons; by left).
  assert (Hm' : ∃ m, groupby_sum (frame (heap_after two_months_csv) 0) "month_year" SPEND = Ok m
                 ∧ map str_key (index m) = ["2023-01"; "2023-02"])
    by (eexists; split; [vm_compute; reflexivity|reflexivity]).
  destruct Hm' as (m & Hm' & Hk).
  cbn [self_df analyzer_at_0] in Hm. rewrite Hm in Hm'. by injection Hm' as <-.
Defined.
